(** * Omni controller helpers: a shallow embedding and its properties

The development follows package [helpers] of Omni
(common utility methods for COSI controllers): input fingerprints stored
in the [inputResourceVersion] annotation, user-label replacement,
[HandleInput] and its finalizer management, the choice of a Talos client
in [GetTalosClient], and the compression of config patches in
[SetPatchesCompress]. *)

From Stdlib Require Import ZArith Ascii String List Lia Bool DecimalString DecimalN.
From stdpp Require Import base tactics option list strings gmap fin_maps.

(** ** Go values shared by all helpers *)

(** A Go [[]byte]: bytes are kept as integers in [0, 256). *)
Abbreviation bytes := (list Z) (only parsing).

(** [[]byte(s)] for a Go string [s]; a Go string is a sequence of bytes,
as a Rocq [string] is a sequence of 8-bit characters. *)
Definition bytes_of_string (s : string) : bytes :=
  map (fun c => Z.of_N (N_of_ascii c)) (list_ascii_of_string s).

(** [string(b)] for a Go byte slice [b]. *)
Definition string_of_bytes (b : bytes) : string :=
  string_of_list_ascii (map (fun x => ascii_of_N (Z.to_N x)) b).

(** The range of a byte. *)
Definition isByte (b : Z) : Prop := (0 <= b < 256)%Z.

(** A Go slice that may be [nil]: [None] is the nil slice, and [len(nil)]
is zero. *)
Definition slice (A : Type) : Type := option (list A).

Definition len {A : Type} (s : slice A) : nat :=
  match s with
  | None => 0
  | Some l => length l
  end.

(** The elements of a slice; [append(s, x...)] is [elems s ++ x]. *)
Definition elems {A : Type} (s : slice A) : list A :=
  match s with
  | None => []
  | Some l => l
  end.

(** ** crypto/sha256 and encoding/hex

Both packages belong to the Go standard library.  The digest is modelled
after the generic block function of [crypto/sha256]: 32-bit words are
integers with the wrap-around written out. *)
Module SHA256.

Local Open Scope Z_scope.

Definition mask32 : Z := 0xFFFFFFFF.

(** [uint32] addition. *)
Definition add32 (x y : Z) : Z := Z.land (x + y) mask32.

(** [bits.RotateLeft32(x, -n)]. *)
Definition rotr (n x : Z) : Z :=
  Z.lor (Z.shiftr x n) (Z.land (Z.shiftl x (32 - n)) mask32).

(** [^x] on [uint32]. *)
Definition not32 (x : Z) : Z := Z.lxor x mask32.

(** The first [n] primes, by trial division among the numbers from [k]
on; [fuel] bounds the search. *)
Fixpoint primesFrom (fuel : nat) (n : nat) (k : Z) : list Z :=
  match fuel, n with
  | O, _ => []
  | _, O => []
  | S fuel', S n' =>
      if forallb (fun d => negb (k mod Z.of_nat d =? 0)) (seq 2 (Z.to_nat k - 2))
      then k :: primesFrom fuel' n' (k + 1)
      else primesFrom fuel' n (k + 1)
  end.

(** The integer cube root of [x], found by bisection in [[lo, lo + 2^bits)]. *)
Fixpoint cbrt (bits : nat) (lo x : Z) : Z :=
  match bits with
  | O => lo
  | S bits' =>
      let mid := lo + 2 ^ Z.of_nat bits' in
      if mid * mid * mid <=? x then cbrt bits' mid x else cbrt bits' lo x
  end.

(** The round constants [_K]: the first 32 bits of the fractional parts of
the cube roots of the first 64 primes. *)
Definition _K : list Z :=
  Eval vm_compute in
    map (fun p => Z.land (cbrt 40 0 (p * 2 ^ 96)) mask32) (primesFrom 400 64 2).

(** The initial value of the digest ([init0] .. [init7]): the first 32 bits
of the fractional parts of the square roots of the first 8 primes. *)
Definition init : list Z :=
  Eval vm_compute in
    map (fun p => Z.land (Z.sqrt (p * 2 ^ 64)) mask32) (primesFrom 400 8 2).

Definition word (w : list Z) (i : nat) : Z := nth i w 0.

(** [w[i] = uint32(p[j])<<24 | uint32(p[j+1])<<16 | uint32(p[j+2])<<8 | uint32(p[j+3])]
for the sixteen words of one chunk. *)
Fixpoint be_words (n : nat) (p : bytes) : list Z :=
  match n, p with
  | S n', b0 :: b1 :: b2 :: b3 :: p' =>
      Z.lor (Z.lor (Z.lor (Z.shiftl b0 24) (Z.shiftl b1 16)) (Z.shiftl b2 8)) b3
        :: be_words n' p'
  | _, _ => []
  end.

(** The loop [for i := 16; i < 64; i++] that extends the schedule;
[n] counts the words still to add. *)
Fixpoint extend (n : nat) (w : list Z) : list Z :=
  match n with
  | O => w
  | S n' =>
      let i := length w in
      let v1 := word w (i - 2) in
      let t1 := Z.lxor (Z.lxor (rotr 17 v1) (rotr 19 v1)) (Z.shiftr v1 10) in
      let v2 := word w (i - 15) in
      let t2 := Z.lxor (Z.lxor (rotr 7 v2) (rotr 18 v2)) (Z.shiftr v2 3) in
      extend n' (w ++ [add32 (add32 (add32 t1 (word w (i - 7))) t2) (word w (i - 16))])
  end.

Record vars := Vars { va : Z; vb : Z; vc : Z; vd : Z; ve : Z; vf : Z; vg : Z; vh : Z }.

(** One iteration of the compression loop, for the constant [k] and the
schedule word [wi]. *)
Definition round (v : vars) (k wi : Z) : vars :=
  let '(Vars a b c d e f g h) := v in
  let t1 :=
    add32 (add32 (add32 (add32 h
      (Z.lxor (Z.lxor (rotr 6 e) (rotr 11 e)) (rotr 25 e)))
      (Z.lxor (Z.land e f) (Z.land (not32 e) g))) k) wi in
  let t2 :=
    add32 (Z.lxor (Z.lxor (rotr 2 a) (rotr 13 a)) (rotr 22 a))
          (Z.lxor (Z.lxor (Z.land a b) (Z.land a c)) (Z.land b c)) in
  Vars (add32 t1 t2) a b c (add32 d t1) e f g.

Fixpoint rounds (v : vars) (ks ws : list Z) : vars :=
  match ks, ws with
  | k :: ks', wi :: ws' => rounds (round v k wi) ks' ws'
  | _, _ => v
  end.

(** The body of [blockGeneric] for one 64-byte chunk. *)
Definition block (h : list Z) (chunk : bytes) : list Z :=
  let w := extend 48 (be_words 16 chunk) in
  let v0 := Vars (word h 0) (word h 1) (word h 2) (word h 3)
                 (word h 4) (word h 5) (word h 6) (word h 7) in
  let '(Vars a b c d e f g h') := rounds v0 _K w in
  [ add32 (word h 0) a; add32 (word h 1) b; add32 (word h 2) c; add32 (word h 3) d;
    add32 (word h 4) e; add32 (word h 5) f; add32 (word h 6) g; add32 (word h 7) h' ].

(** [blockGeneric] over all full chunks; [n] bounds the number of chunks. *)
Fixpoint blocks (n : nat) (h : list Z) (p : bytes) : list Z :=
  match n with
  | O => h
  | S n' =>
      match p with
      | [] => h
      | _ => blocks n' (block h (firstn 64 p)) (skipn 64 p)
      end
  end.

(** [checkSum]: a byte 0x80, zero bytes up to 56 modulo 64, and the length
in bits as a big-endian [uint64]. *)
Definition padding (len : Z) : bytes :=
  let t := (55 - len) mod 64 in
  let bits := Z.land (len * 8) 0xFFFFFFFFFFFFFFFF in
  0x80 :: repeat 0 (Z.to_nat t)
    ++ map (fun i => Z.land (Z.shiftr bits (8 * (7 - Z.of_nat i))) 0xFF) (seq 0 8).

(** [binary.BigEndian.PutUint32] for each of the eight words. *)
Definition put_words (h : list Z) : bytes :=
  flat_map (fun x => [ Z.land (Z.shiftr x 24) 0xFF; Z.land (Z.shiftr x 16) 0xFF;
                       Z.land (Z.shiftr x 8) 0xFF; Z.land x 0xFF ]) h.

(** [sha256.Sum256(data)]: the digest of everything written. *)
Definition Sum256 (data : bytes) : bytes :=
  let p := data ++ padding (Z.of_nat (length data)) in
  put_words (blocks (length p) init p).

(** A [hash.Hash] returned by [sha256.New()].  [Sum] is the digest of all
the bytes written so far, so the state is kept as those bytes. *)
Definition digest : Type := bytes.
Definition New : digest := [].
Definition Write (d : digest) (p : bytes) : digest := d ++ p.
Definition Sum (d : digest) : bytes := Sum256 d.

End SHA256.

Module Hex.

Local Open Scope Z_scope.

Definition hextable : string := "0123456789abcdef".

Definition digit (v : Z) : ascii :=
  match String.get (Z.to_nat v) hextable with
  | Some c => c
  | None => "0"%char
  end.

(** [hex.EncodeToString]: [hextable[v>>4]] then [hextable[v&0x0f]] for each byte. *)
Fixpoint EncodeToString (src : bytes) : string :=
  match src with
  | [] => EmptyString
  | v :: src' =>
      String (digit (Z.shiftr v 4)) (String (digit (Z.land v 0x0f)) (EncodeToString src'))
  end.

(** The value of a hexadecimal digit: its place in [hextable]. *)
Definition undigit (c : ascii) : Z :=
  match String.index 0 (String c EmptyString) hextable with
  | Some n => Z.of_nat n
  | None => 0
  end.

End Hex.


(** ** github.com/cosi-project/runtime: resources, key-value sets, errors

The COSI runtime is an external collaborator.  Its types are modelled as
far as the helpers use them. *)
Module resource.

(** [resource.Phase]. *)
Inductive Phase : Type := PhaseRunning | PhaseTearingDown.

#[global] Instance Phase_eq_dec : EqDecision Phase.
Proof. solve_decision. Defined.

(** [resource.Version]: a counter, or undefined. *)
Definition Version : Type := option N.

(** [Version.String()]. *)
Definition Version_String (v : Version) : string :=
  match v with
  | None => "undefined"
  | Some n => NilEmpty.string_of_uint (N.to_uint n)
  end.

(** [resource.Metadata], read through the methods [Namespace()], [Type()],
[ID()], [Version()], [Phase()], [Finalizers()], [Labels()] and
[Annotations()]. *)
Record Metadata : Type := mkMetadata {
  mdNamespace : string;
  mdType : string;
  mdID : string;
  mdVersion : Version;
  mdPhase : Phase;
  mdFinalizers : list string;
  mdLabels : gmap string string;
  mdAnnotations : gmap string string
}.

Definition setLabels (l : gmap string string) (md : Metadata) : Metadata :=
  mkMetadata (mdNamespace md) (mdType md) (mdID md) (mdVersion md) (mdPhase md)
             (mdFinalizers md) l (mdAnnotations md).

Definition setAnnotations (a : gmap string string) (md : Metadata) : Metadata :=
  mkMetadata (mdNamespace md) (mdType md) (mdID md) (mdVersion md) (mdPhase md)
             (mdFinalizers md) (mdLabels md) a.

Definition setFinalizers (f : list string) (md : Metadata) : Metadata :=
  mkMetadata (mdNamespace md) (mdType md) (mdID md) (mdVersion md) (mdPhase md)
             f (mdLabels md) (mdAnnotations md).

(** [Finalizers.Has]. *)
Definition Has (fins : list string) (fin : string) : bool :=
  existsb (String.eqb fin) fins.

(** A [resource.Resource]: what [Metadata()] points to, and a typed spec. *)
Record Resource (Payload : Type) : Type := mkResource {
  getMetadata : Metadata;
  getSpec : Payload
}.
Arguments mkResource {Payload} _ _.
Arguments getMetadata {Payload} _.
Arguments getSpec {Payload} _.

Definition withMetadata {Payload : Type} (md : resource.Metadata)
    (r : Resource Payload) : Resource Payload :=
  mkResource md (getSpec r).

End resource.

(** [kvutils.KV] (labels and annotations): a [map[string]string] with
copy-on-write.  A write installs a modified copy, so a map obtained with
[Raw] before the write is not affected by it. *)
Module kvutils.

(** [KV.Get]: the value and whether it was found. *)
Definition Get (kv : gmap string string) (key : string) : option string := kv !! key.

(** [KV.Set]. *)
Definition Set_ (key value : string) (kv : gmap string string) : gmap string string :=
  <[key := value]> kv.

(** [KV.Delete]. *)
Definition Delete (key : string) (kv : gmap string string) : gmap string string :=
  delete key kv.

(** [KV.Raw]. *)
Definition Raw (kv : gmap string string) : gmap string string := kv.

(** [KV.Do]: the function edits a temporary copy, which replaces the map
when the function returns. *)
Definition Do (ts : gmap string string -> gmap string string)
    (kv : gmap string string) : gmap string string :=
  ts kv.

End kvutils.

(** Go [error] values as the helpers see them. *)
Module state.

(** An error is a not-found error of the store, another error, or an
error wrapping one with [fmt.Errorf("...%w", err)]; each carries the
text that [Error()] returns. *)
Inductive error : Type :=
| errNotFound (msg : string)
| errOther (msg : string)
| errWrap (msg : string) (err : error).

Definition Error (e : error) : string :=
  match e with
  | errNotFound msg => msg
  | errOther msg => msg
  | errWrap msg _ => msg
  end.

(** [state.IsNotFoundError]: [errors.As] follows the chain of wrapped
errors. *)
Fixpoint IsNotFoundError (e : error) : bool :=
  match e with
  | errNotFound _ => true
  | errOther _ => false
  | errWrap _ e' => IsNotFoundError e'
  end.

(** [fmt.Errorf(prefix + "%w", err)]. *)
Definition Errorf_w (prefix : string) (err : error) : error :=
  errWrap (prefix +:+ Error err) err.

End state.

(** ** Talos machinery: machine stages and client options *)
Module machine.

(** [machine.MachineStatusEvent_MachineStage]. *)
Inductive MachineStage : Type :=
| MachineStatusEvent_UNKNOWN
| MachineStatusEvent_BOOTING
| MachineStatusEvent_INSTALLING
| MachineStatusEvent_MAINTENANCE
| MachineStatusEvent_RUNNING
| MachineStatusEvent_REBOOTING
| MachineStatusEvent_SHUTTING_DOWN
| MachineStatusEvent_RESETTING
| MachineStatusEvent_UPGRADING.

#[global] Instance MachineStage_eq_dec : EqDecision MachineStage.
Proof. solve_decision. Defined.

(** [machine.MachineStatusEvent], as far as it is read. *)
Record MachineStatusEvent : Type := mkMachineStatusEvent { Stage : MachineStage }.

End machine.

Module client.

(** [tls.Config], as far as it is set. *)
Record tlsConfig : Type := mkTLSConfig { InsecureSkipVerify : bool }.

(** [client.OptionFunc]: the options that [GetTalosClient] builds, and the
socket options that [talos.GetSocketOptions] may contribute. *)
Inductive OptionFunc (Config SocketOption : Type) : Type :=
| WithTLSConfig (cfg : tlsConfig)
| WithEndpoints (endpoints : list string)
| WithConfig (cfg : Config)
| WithSocket (o : SocketOption).
Arguments WithTLSConfig {Config SocketOption} _.
Arguments WithEndpoints {Config SocketOption} _.
Arguments WithConfig {Config SocketOption} _.
Arguments WithSocket {Config SocketOption} _.

End client.

(** Modelled from the spec: the type behind
[machineStatusSnapshot.TypedSpec().Value], the latest status snapshot of a
machine.  [MachineStatus] is a pointer to the status event that reports
the stage, and may be nil. *)
Module omni.

(** [omni.SystemLabelPrefix], the prefix of the keys that Omni itself
manages.  The constant is declared in package [omni], outside the
sources at hand; the helpers are read for any prefix, and this is the
value the program runs with. *)
Definition SystemLabelPrefix : string := "omni.sidero.dev/".

Record MachineStatusSnapshotSpec : Type := mkMachineStatusSnapshotSpec {
  MachineStatus : option machine.MachineStatusEvent
}.

End omni.

(** ** Programs that call their environment

[HandleInput] and [GetTalosClient] talk to the controller runtime and to
the Talos client factory.  Such a function is a tree: it returns, or it
issues a call and continues with the answer.  The environment is any
handler that answers the calls and threads its own state. *)
Module effect.

Section Prog.

Context {C : Type} {R : C -> Type}.

Inductive prog (A : Type) : Type :=
| Ret (a : A)
| Vis (c : C) (k : R c -> prog A).

Arguments Ret {A} _.
Arguments Vis {A} _ _.

Fixpoint bind {A B : Type} (m : prog A) (f : A -> prog B) : prog B :=
  match m with
  | Ret a => f a
  | Vis c k => Vis c (fun x => bind (k x) f)
  end.

Definition call (c : C) : prog (R c) := Vis c Ret.

(** An environment with state [St]. *)
Definition handler (St : Type) : Type := forall c : C, St -> R c * St.

(** The outcome of a run: what the program returned, the state the
environment is left in, and the calls made, in order. *)
Record outcome (St A : Type) : Type := Outcome {
  returned : A;
  final : St;
  calls : list C
}.
Arguments Outcome {St A} _ _ _.
Arguments returned {St A} _.
Arguments final {St A} _.
Arguments calls {St A} _.

Definition after {St A : Type} (c : C) (o : outcome St A) : outcome St A :=
  Outcome (returned o) (final o) (c :: calls o).

Fixpoint run {St A : Type} (hd : handler St) (m : prog A) (s : St) : outcome St A :=
  match m with
  | Ret a => Outcome a s []
  | Vis c k => let '(x, s') := hd c s in after c (run hd (k x) s')
  end.

End Prog.

Arguments prog C R A : clear implicits.
Arguments handler C R St : clear implicits.
Arguments outcome C St A : clear implicits.
Arguments Ret {C R A} _.
Arguments Vis {C R A} _ _.
Arguments Outcome {C St A} _ _ _.
Arguments returned {C St A} _.
Arguments final {C St A} _.
Arguments calls {C St A} _.

Notation "x <- m ;; f" := (bind m (fun x => f))
  (at level 100, m at next level, right associativity).

End effect.

(** ** Package helpers: fingerprints of inputs *)
Module helpers.

(** [InputResourceVersionAnnotation] is the annotation name where the
inputs version sha is stored. *)
Definition InputResourceVersionAnnotation : string := "inputResourceVersion".

(** The loop [for i, version := range versions] of
[UpdateInputsAnnotation], from index [i] on. *)
Fixpoint writeVersions (i : nat) (versions : list string) (hash : SHA256.digest)
    : SHA256.digest :=
  match versions with
  | [] => hash
  | version :: versions' =>
      let hash := if (0 <? i)%nat
                  then SHA256.Write hash (bytes_of_string ",")
                  else hash in
      writeVersions (S i) versions' (SHA256.Write hash (bytes_of_string version))
  end.

(** The local [inVersion] of [UpdateInputsAnnotation]. *)
Definition inVersion (versions : list string) : string :=
  Hex.EncodeToString (SHA256.Sum (writeVersions 0 versions SHA256.New)).

(** Resources are Go pointers: a heap maps each pointer to the object it
denotes, and a write through one pointer is seen through all its
aliases. *)
Definition ptr : Type := nat.

Definition heap (Payload : Type) : Type := ptr -> resource.Resource Payload.

(** The write of [a] through the pointer [p], for objects of any type. *)
Definition store {A : Type} (p : ptr) (a : A) (h : ptr -> A) : ptr -> A :=
  fun q => if Nat.eq_dec q p then a else h q.

(** [UpdateInputsAnnotation] updates the annotation with the input resource
version and returns if it has changed. *)
Definition UpdateInputsAnnotation {Payload : Type} (out : ptr) (versions : list string)
    (h : heap Payload) : bool * heap Payload :=
  let inVersion := inVersion versions in
  let md := resource.getMetadata (h out) in
  let set_ :=
    store out (resource.withMetadata
                 (resource.setAnnotations
                    (kvutils.Set_ InputResourceVersionAnnotation inVersion
                                  (resource.mdAnnotations md)) md)
                 (h out)) h in
  match kvutils.Get (resource.mdAnnotations md) InputResourceVersionAnnotation with
  | Some version => if String.eqb version inVersion then (false, h) else (true, set_)
  | None => (true, set_)
  end.

(** [fmt.Sprintf("%s/%s@%s", input.Metadata().Type(), input.Metadata().ID(),
input.Metadata().Version())]. *)
Definition versionToken (md : resource.Metadata) : string :=
  resource.mdType md +:+ "/" +:+ resource.mdID md +:+ "@"
    +:+ resource.Version_String (resource.mdVersion md).

(** [UpdateInputsVersions] generates a hash of the resource by combining
its inputs. *)
Definition UpdateInputsVersions {Payload : Type} (out : ptr) (inputs : list ptr)
    (h : heap Payload) : bool * heap Payload :=
  UpdateInputsAnnotation out
    (map (fun input => versionToken (resource.getMetadata (h input))) inputs) h.

(** *** User labels *)
Section UserLabels.

(** [omni.SystemLabelPrefix] is a constant of package [omni]: the helpers
are read for any value of it. *)
Variable SystemLabelPrefix : string.

(** [strings.HasPrefix]. *)
Definition HasPrefix (s prefix : string) : bool := String.prefix prefix s.

(** The loop of [ClearUserLabels] over the entries of
[res.Metadata().Labels().Raw()], visited in the order [entries]. *)
Definition clearLoop (entries : list (string * string)) (tmp : gmap string string)
    : gmap string string :=
  foldl (fun tmp kv =>
           if HasPrefix (fst kv) SystemLabelPrefix then tmp
           else kvutils.Delete (fst kv) tmp) tmp entries.

(** [ClearUserLabels] removes all user labels from the resource.  Go
ranges over a map in an unspecified order: [entries] is the order of
this run. *)
Definition ClearUserLabels_in {Payload : Type} (entries : list (string * string))
    (res : resource.Resource Payload) : resource.Resource Payload :=
  let md := resource.getMetadata res in
  resource.withMetadata
    (resource.setLabels (kvutils.Do (clearLoop entries) (resource.mdLabels md)) md) res.

Definition ClearUserLabels {Payload : Type} (res : resource.Resource Payload)
    : resource.Resource Payload :=
  ClearUserLabels_in
    (map_to_list (kvutils.Raw (resource.mdLabels (resource.getMetadata res)))) res.

(** The loop of [CopyUserLabels] over the entries of [labels]. *)
Definition copyLoop (entries : list (string * string)) (tmp : gmap string string)
    : gmap string string :=
  foldl (fun tmp kv =>
           if HasPrefix (fst kv) SystemLabelPrefix then tmp
           else kvutils.Set_ (fst kv) (snd kv) tmp) tmp entries.

(** [CopyUserLabels] copies all user labels from one resource to another.
It removes all user labels on the target that are not present in the
source resource.  System labels are not copied.  [cleared] and
[copied] are the orders in which the two loops visit their maps. *)
Definition CopyUserLabels_in {Payload : Type} (cleared copied : list (string * string))
    (target : resource.Resource Payload) (labels : gmap string string)
    : resource.Resource Payload :=
  let target := ClearUserLabels_in cleared target in
  if decide (size labels = 0) then target
  else
    let md := resource.getMetadata target in
    resource.withMetadata
      (resource.setLabels (kvutils.Do (copyLoop copied) (resource.mdLabels md)) md)
      target.

Definition CopyUserLabels {Payload : Type} (target : resource.Resource Payload)
    (labels : gmap string string) : resource.Resource Payload :=
  CopyUserLabels_in
    (map_to_list (kvutils.Raw (resource.mdLabels (resource.getMetadata target))))
    (map_to_list labels) target labels.

End UserLabels.

(** *** HandleInput *)

(** [HandleInputOptions]: optional args for [HandleInput]. *)
Record HandleInputOptions : Type := mkHandleInputOptions { id : string }.

(** [HandleInputOption]: a function that edits the options in place. *)
Definition HandleInputOption : Type := HandleInputOptions -> HandleInputOptions.

(** [WithID] maps the resource using another id. *)
Definition WithID (id : string) : HandleInputOption :=
  fun hio => mkHandleInputOptions id.

(** The calls of [HandleInput] on its [controller.ReaderWriter]:
[safe.ReaderGetByID[T](ctx, r, id)], [r.RemoveFinalizer(ctx, md, fin)]
and [r.AddFinalizer(ctx, md, fin)]. *)
Inductive rwCall : Type :=
| ReaderGetByID (id : string)
| RemoveFinalizer (md : resource.Metadata) (fin : string)
| AddFinalizer (md : resource.Metadata) (fin : string).

(** [ReaderGetByID] answers a resource or an error, the two others answer
an error or [nil]. *)
Definition rwAnswer (T : Type) (c : rwCall) : Type :=
  match c with
  | ReaderGetByID _ => (T + state.error)%type
  | RemoveFinalizer _ _ => option state.error
  | AddFinalizer _ _ => option state.error
  end.

Section HandleInput.

Import effect.

(** The type parameters [T] and [S] of [HandleInput]: the spec types of
the dependent and of the owner. *)
Context {T S : Type}.

(** [HandleInput] reads the additional input resource and automatically
manages finalizers.  By default maps the resource using same id.
The result is the pair [(T, error)]; [None] is the zero value of [T],
respectively the [nil] error. *)
Definition HandleInput (finalizer : string) (main : resource.Resource S)
    (opts : list HandleInputOption)
    : prog rwCall (rwAnswer (resource.Resource T))
           (option (resource.Resource T) * option state.error) :=
  let zero : option (resource.Resource T) := None in
  let options :=
    foldl (fun options o => o options)
          (mkHandleInputOptions (resource.mdID (resource.getMetadata main))) opts in
  got <- call (R := rwAnswer (resource.Resource T)) (ReaderGetByID (id options)) ;;
  match got with
  | inr err =>
      if state.IsNotFoundError err then Ret (zero, None) else Ret (zero, Some err)
  | inl res =>
      if bool_decide (resource.mdPhase (resource.getMetadata res) = resource.PhaseTearingDown)
         || bool_decide (resource.mdPhase (resource.getMetadata main) = resource.PhaseTearingDown)
      then
        err <- call (R := rwAnswer (resource.Resource T))
                    (RemoveFinalizer (resource.getMetadata res) finalizer) ;;
        if match err with
           | Some err => negb (state.IsNotFoundError err)
           | None => false
           end
        then Ret (zero, err : option state.error)
        else if bool_decide (resource.mdPhase (resource.getMetadata res)
                             = resource.PhaseTearingDown)
             then Ret (zero, None)
             else Ret (Some res, None)
      else if negb (resource.Has (resource.mdFinalizers (resource.getMetadata res)) finalizer)
      then
        err <- call (R := rwAnswer (resource.Resource T))
                    (AddFinalizer (resource.getMetadata res) finalizer) ;;
        match err with
        | Some err => Ret (zero, Some err)
        | None => Ret (Some res, None)
        end
      else Ret (Some res, None)
  end.

End HandleInput.

(** [controller.ReaderWriter] as [HandleInput] uses it, for a runtime whose
state has type [St]: each method answers and leaves a new state. *)
Class ReaderWriter (T St : Type) : Type := {
  rwGet : string -> St -> (T + state.error) * St;
  rwRemoveFinalizer : resource.Metadata -> string -> St -> option state.error * St;
  rwAddFinalizer : resource.Metadata -> string -> St -> option state.error * St
}.

Definition rwHandler {T St : Type} `{ReaderWriter T St}
    : effect.handler rwCall (rwAnswer T) St :=
  fun c =>
    match c as c0 return St -> rwAnswer T c0 * St with
    | ReaderGetByID id => rwGet id
    | RemoveFinalizer md fin => rwRemoveFinalizer md fin
    | AddFinalizer md fin => rwAddFinalizer md fin
    end.

(** *** GetTalosClient *)

(** What a Go function call comes to: it returns, or it panics. *)
Inductive result (A : Type) : Type :=
| Returns (a : A)
| Panics (reason : string).
Arguments Returns {A} _.
Arguments Panics {A} _.

Section GetTalosClient.

Import effect.

(** Taken as they come from their packages: the spec of [omni.TalosConfig],
the client configuration and the client of the Talos machinery, the
options of [talos.GetSocketOptions], [omni.NewTalosClientConfig], and the
constants [omni.LabelCluster] and [resources.DefaultNamespace]. *)
Context {TalosConfigSpec Config Client SocketOption : Type}.
Variable GetSocketOptions : string -> slice (client.OptionFunc Config SocketOption).
Variable NewTalosClientConfig : resource.Resource TalosConfigSpec -> list string -> Config.
Variable LabelCluster : string.
Variable DefaultNamespace : string.

(** The calls of [GetTalosClient]:
[safe.ReaderGetByID[*omni.MachineStatusSnapshot](ctx, r, id)],
[safe.ReaderGet[*omni.TalosConfig](ctx, r, omni.NewTalosConfig(ns, id).Metadata())]
and [client.New(ctx, opts...)]. *)
Inductive talosCall : Type :=
| GetMachineStatusSnapshot (id : string)
| GetTalosConfig (ns id : string)
| client_New (opts : list (client.OptionFunc Config SocketOption)).

Definition talosAnswer (c : talosCall) : Type :=
  match c with
  | GetMachineStatusSnapshot _ =>
      (resource.Resource omni.MachineStatusSnapshotSpec + state.error)%type
  | GetTalosConfig _ _ => (resource.Resource TalosConfigSpec + state.error)%type
  | client_New _ => (Client + state.error)%type
  end.

(** The closure [createInsecureClient] of [GetTalosClient]. *)
Definition createInsecureClient (address : string)
    : prog talosCall talosAnswer (result (option Client * option state.error)) :=
  let opts := GetSocketOptions address in
  made <- call (R := talosAnswer)
            (client_New (elems opts
                         ++ [client.WithTLSConfig (client.mkTLSConfig true);
                             client.WithEndpoints [address]])) ;;
  match made with
  | inl c => Ret (Returns (Some c, None))
  | inr err => Ret (Returns (None, Some err))
  end.

(** [GetTalosClient] for the machine id.  Automatically pick secure or
insecure client.  [machineResource] is a pointer: [None] is nil.  The
steps from the lookup of the cluster label on are bound first
([withCluster]): the call continues with them when there is no status
snapshot and when the snapshot reports another stage than MAINTENANCE.
Reading the stage through a nil [MachineStatus] panics. *)
Definition GetTalosClient {V : Type} (address : string)
    (machineResource : option (resource.Resource V))
    : prog talosCall talosAnswer (result (option Client * option state.error)) :=
  let opts := GetSocketOptions address in
  match machineResource with
  | None => createInsecureClient address
  | Some machineResource =>
      let md := resource.getMetadata machineResource in
      got <- call (R := talosAnswer) (GetMachineStatusSnapshot (resource.mdID md)) ;;
      let withCluster :=
        match kvutils.Get (resource.mdLabels md) LabelCluster with
        | None => createInsecureClient address
        | Some clusterName =>
            got <- call (R := talosAnswer) (GetTalosConfig DefaultNamespace clusterName) ;;
            let secure (talosConfig : resource.Resource TalosConfigSpec) :=
              let endpoints := match opts with None => [address] | Some _ => [] end in
              let config := NewTalosClientConfig talosConfig endpoints in
              let opts := elems opts ++ [client.WithConfig config] in
              made <- call (R := talosAnswer) (client_New opts) ;;
              match made with
              | inr err =>
                  Ret (Returns
                         (None,
                          Some (state.Errorf_w
                                  ("failed to create client to machine '"
                                     +:+ resource.mdID md +:+ "': ") err)))
              | inl result => Ret (Returns (Some result, None))
              end in
            match got with
            | inr err =>
                if negb (state.IsNotFoundError err)
                then Ret (Returns
                            (None,
                             Some (state.Errorf_w
                                     ("cluster '" +:+ clusterName
                                        +:+ "' failed to get talosconfig: ") err)))
                else createInsecureClient address
            | inl talosConfig => secure talosConfig
            end
        end in
      let withSnapshot (machineStatusSnapshot : resource.Resource omni.MachineStatusSnapshotSpec) :=
        match omni.MachineStatus (resource.getSpec machineStatusSnapshot) with
        | None => Ret (Panics "runtime error: invalid memory address or nil pointer dereference")
        | Some status =>
            if bool_decide (machine.Stage status = machine.MachineStatusEvent_MAINTENANCE)
            then createInsecureClient address
            else withCluster
        end in
      match got with
      | inr err =>
          if negb (state.IsNotFoundError err) then Ret (Returns (None, Some err))
          else withCluster
      | inl machineStatusSnapshot => withSnapshot machineStatusSnapshot
      end
  end.

End GetTalosClient.

(** *** SetPatchesCompress *)

(** Modelled from the spec: the type [specs.ConfigPatchSpec] behind
[patch.TypedSpec().Value], a configuration fragment with two
representations, uncompressed bytes and a compressed byte form.  The
helpers read [CompressedData] only. *)
Record ConfigPatchSpec : Type := mkConfigPatchSpec {
  Data : string;
  CompressedData : slice Z
}.

(** Modelled from the spec: the type behind [res.TypedSpec().Value], the
output collection of compressed patches; [GetCompressedPatches()] reads the
field. *)
Record ClusterMachineConfigPatchesSpec : Type := mkClusterMachineConfigPatchesSpec {
  CompressedPatches : list bytes
}.

Section PatchCompaction.

(** The methods [GetUncompressedData] and [SetUncompressedData] belong to
the patch spec of package [specs], and [bytes.TrimSpace] to the Go library:
the helpers are read for any such functions.
[GetUncompressedData] answers the bytes of its buffer, or an error;
[SetUncompressedData] leaves the spec changed and answers an error or nil. *)
Variable GetUncompressedData : ConfigPatchSpec -> bytes + state.error.
Variable SetUncompressedData : bytes -> ConfigPatchSpec -> ConfigPatchSpec * option state.error.
Variable TrimSpace : bytes -> bytes.

(** [IsEmptyPatch] checks if the patch is empty. *)
Definition IsEmptyPatch (patch : ConfigPatchSpec) : bool :=
  match GetUncompressedData patch with
  | inr _ => false
  | inl buffer => Nat.eqb (length (TrimSpace buffer)) 0
  end.

(** [getCompressed]; the patch is a pointer into [h], and the result is the
pair [([]byte, error)] with the patches as the call leaves them. *)
Definition getCompressed (patch : ptr) (h : ptr -> ConfigPatchSpec)
    : (slice Z * option state.error) * (ptr -> ConfigPatchSpec) :=
  if IsEmptyPatch (h patch) then ((None, None), h)
  else
    let compressedData := CompressedData (h patch) in
    if (0 <? len compressedData)%nat then ((compressedData, None), h)
    else
      match GetUncompressedData (h patch) with
      | inr err => ((None, Some err), h)
      | inl buffer =>
          let '(spec, err) := SetUncompressedData buffer (h patch) in
          let h := store patch spec h in
          match err with
          | Some err => ((None, Some err), h)
          | None => ((CompressedData (h patch), None), h)
          end
      end.

(** [SetPatchesCompress] compresses the patches and sets them in the
[ClusterMachineConfigPatches]. *)
Fixpoint SetPatchesCompress (res : ClusterMachineConfigPatchesSpec) (patches : list ptr)
    (h : ptr -> ConfigPatchSpec)
    : option state.error * ClusterMachineConfigPatchesSpec * (ptr -> ConfigPatchSpec) :=
  match patches with
  | [] => (None, res, h)
  | patch :: patches' =>
      let '((compr, err), h) := getCompressed patch h in
      match err with
      | Some err => (Some err, res, h)
      | None =>
          match compr with
          | None => SetPatchesCompress res patches' h
          | Some data =>
              if (length data <? 1024)%nat && IsEmptyPatch (h patch)
              then SetPatchesCompress res patches' h
              else SetPatchesCompress
                     (mkClusterMachineConfigPatchesSpec (CompressedPatches res ++ [data]))
                     patches' h
          end
      end
  end.

End PatchCompaction.

(** *** Copies of labels and annotations *)

(** The loop [for key, value := range src...Raw() { tmp.Set(key, value) }]
of [CopyAllLabels] and [CopyAllAnnotations], over the entries in the order
the run visits them. *)
Definition setLoop (entries : list (string * string)) (tmp : gmap string string)
    : gmap string string :=
  foldl (fun tmp kv => kvutils.Set_ (fst kv) (snd kv) tmp) tmp entries.

(** The loop [for _, key := range keys] of [CopyLabels] and
[CopyAnnotations], reading the values from [src]. *)
Definition pickLoop (src : gmap string string) (keys : list string)
    (tmp : gmap string string) : gmap string string :=
  foldl (fun tmp key =>
           match kvutils.Get src key with
           | Some label => kvutils.Set_ key label tmp
           | None => tmp
           end) tmp keys.

(** [CopyAllLabels] copies all labels from one resource to another;
[entries] is the order in which the labels of [src] are visited. *)
Definition CopyAllLabels_in {P Q : Type} (entries : list (string * string))
    (src : resource.Resource P) (dst : resource.Resource Q) : resource.Resource Q :=
  let md := resource.getMetadata dst in
  resource.withMetadata
    (resource.setLabels (kvutils.Do (setLoop entries) (resource.mdLabels md)) md) dst.

Definition CopyAllLabels {P Q : Type} (src : resource.Resource P)
    (dst : resource.Resource Q) : resource.Resource Q :=
  CopyAllLabels_in
    (map_to_list (kvutils.Raw (resource.mdLabels (resource.getMetadata src)))) src dst.

(** [CopyLabels] copies the labels from one resource to another. *)
Definition CopyLabels {P Q : Type} (src : resource.Resource P)
    (dst : resource.Resource Q) (keys : list string) : resource.Resource Q :=
  let md := resource.getMetadata dst in
  resource.withMetadata
    (resource.setLabels
       (kvutils.Do (pickLoop (resource.mdLabels (resource.getMetadata src)) keys)
                   (resource.mdLabels md)) md) dst.

(** [CopyAllAnnotations] copies all annotations from one resource to
another; [entries] is the order in which the annotations of [src] are
visited. *)
Definition CopyAllAnnotations_in {P Q : Type} (entries : list (string * string))
    (src : resource.Resource P) (dst : resource.Resource Q) : resource.Resource Q :=
  let md := resource.getMetadata dst in
  resource.withMetadata
    (resource.setAnnotations
       (kvutils.Do (setLoop entries) (resource.mdAnnotations md)) md) dst.

Definition CopyAllAnnotations {P Q : Type} (src : resource.Resource P)
    (dst : resource.Resource Q) : resource.Resource Q :=
  CopyAllAnnotations_in
    (map_to_list (kvutils.Raw (resource.mdAnnotations (resource.getMetadata src)))) src dst.

(** [CopyAnnotations] copies annotations from one resource to another. *)
Definition CopyAnnotations {P Q : Type} (src : resource.Resource P)
    (dst : resource.Resource Q) (annotations : list string) : resource.Resource Q :=
  let md := resource.getMetadata dst in
  resource.withMetadata
    (resource.setAnnotations
       (kvutils.Do (pickLoop (resource.mdAnnotations (resource.getMetadata src)) annotations)
                   (resource.mdAnnotations md)) md) dst.

End helpers.

(** An in-memory runtime in the manner of the COSI in-memory state: resources
by id; a missing resource is reported with a not-found error;
[AddFinalizer] and [RemoveFinalizer] update the stored resource and are
idempotent. *)
Module inmem.

Definition notFound (id : string) : state.error :=
  state.errNotFound ("resource " +:+ id +:+ " doesn't exist").

Definition get {T : Type} (id : string) (s : gmap string (resource.Resource T))
    : (resource.Resource T + state.error) * gmap string (resource.Resource T) :=
  match s !! id with
  | Some r => (inl r, s)
  | None => (inr (notFound id), s)
  end.

Definition updateFinalizers {T : Type} (f : list string -> list string)
    (md : resource.Metadata) (s : gmap string (resource.Resource T))
    : option state.error * gmap string (resource.Resource T) :=
  match s !! resource.mdID md with
  | Some r =>
      (None,
       <[resource.mdID md :=
           resource.withMetadata
             (resource.setFinalizers
                (f (resource.mdFinalizers (resource.getMetadata r)))
                (resource.getMetadata r)) r]> s)
  | None => (Some (notFound (resource.mdID md)), s)
  end.

#[global] Instance readerWriter (T : Type)
    : helpers.ReaderWriter (resource.Resource T) (gmap string (resource.Resource T)) := {
  rwGet := get;
  rwRemoveFinalizer md fin :=
    updateFinalizers (filter (fun f => f <> fin)) md;
  rwAddFinalizer md fin :=
    updateFinalizers (fun fins => if resource.Has fins fin then fins else fins ++ [fin]) md
}.

(** Two resources to run [HandleInput] on: an owner, and its dependent
under the same id, without finalizers. *)
Definition owner (phase : resource.Phase) : resource.Resource unit :=
  resource.mkResource
    (resource.mkMetadata "default" "Owners" "m1" (Some 1%N) phase [] ∅ ∅) tt.

Definition dependent (phase : resource.Phase) : resource.Resource unit :=
  resource.mkResource
    (resource.mkMetadata "default" "Dependents" "m1" (Some 1%N) phase [] ∅ ∅) tt.

End inmem.


(** ** Vocabulary of the properties *)
Module Fingerprint.

(** Tokens joined with the delimiter: the bytes that the documentation of
the fingerprint describes as the input of the digest. *)
Fixpoint join (versions : list string) : string :=
  match versions with
  | [] => ""
  | version :: versions' =>
      match versions' with
      | [] => version
      | _ => version +:+ "," +:+ join versions'
      end
  end.

(** Whether the delimiter occurs in a token. *)
Fixpoint hasComma (s : string) : bool :=
  match s with
  | EmptyString => false
  | String c s' => Ascii.eqb c "," || hasComma s'
  end.

Definition commaFree (versions : list string) : bool :=
  forallb (fun v => negb (hasComma v)) versions.

(** A resource differs from another at most in the annotation [key]. *)
Definition sameButAnnotation {Payload : Type} (key : string)
    (r r' : resource.Resource Payload) : Prop :=
  resource.getSpec r' = resource.getSpec r
  /\ resource.setAnnotations ∅ (resource.getMetadata r')
     = resource.setAnnotations ∅ (resource.getMetadata r)
  /\ forall k, k <> key ->
       resource.mdAnnotations (resource.getMetadata r') !! k
       = resource.mdAnnotations (resource.getMetadata r) !! k.

(** Two resources of the same type and id. *)
Definition sameIdentity (a b : resource.Metadata) : Prop :=
  resource.mdType a = resource.mdType b /\ resource.mdID a = resource.mdID b.

End Fingerprint.

Module HandleInputSpec.
Import helpers.

(** The id under which the dependent is looked up. *)
Definition lookupID {S : Type} (main : resource.Resource S)
    (opts : list HandleInputOption) : string :=
  id (foldl (fun options o => o options)
            (mkHandleInputOptions (resource.mdID (resource.getMetadata main))) opts).

Definition tearingDown (md : resource.Metadata) : Prop :=
  resource.mdPhase md = resource.PhaseTearingDown.

Definition running (md : resource.Metadata) : Prop :=
  resource.mdPhase md = resource.PhaseRunning.

End HandleInputSpec.

Module TalosSpec.
Import effect helpers.

(** [strings.Contains]. *)
Fixpoint Contains (s substr : string) : bool :=
  String.prefix substr s
  || match s with
     | EmptyString => false
     | String _ s' => Contains s' substr
     end.

Section Vocabulary.

Context {TalosConfigSpec Config Client SocketOption : Type}.
Variable GetSocketOptions : string -> slice (client.OptionFunc Config SocketOption).
Variable NewTalosClientConfig : resource.Resource TalosConfigSpec -> list string -> Config.

(** The options of an insecure client: no client configuration, TLS
verification skipped, the address as the endpoint. *)
Definition insecureOptions (address : string)
    : list (client.OptionFunc Config SocketOption) :=
  elems (GetSocketOptions address)
  ++ [client.WithTLSConfig (client.mkTLSConfig true); client.WithEndpoints [address]].

(** The options of a client built from the TalosConfig of the cluster; the
address is passed as the endpoint when there are no socket options. *)
Definition secureOptions (address : string)
    (talosConfig : resource.Resource TalosConfigSpec)
    : list (client.OptionFunc Config SocketOption) :=
  elems (GetSocketOptions address)
  ++ [client.WithConfig
        (NewTalosClientConfig talosConfig
           match GetSocketOptions address with
           | None => [address]
           | Some _ => []
           end)].

(** One call of [client.New] with [opts] in state [s]: the client, or the
error of the factory passed through [wrap]. *)
Definition dial {St : Type}
    (hd : handler talosCall
            (talosAnswer (TalosConfigSpec := TalosConfigSpec) (Client := Client)) St)
    (opts : list (client.OptionFunc Config SocketOption))
    (wrap : state.error -> state.error) (s : St)
    : outcome talosCall St (result (option Client * option state.error)) :=
  let '(made, s') := hd (client_New opts) s in
  Outcome
    (Returns match made with
             | inl c => (Some c, None)
             | inr err => (None, Some (wrap err))
             end)
    s' [client_New opts].

(** The store has no status snapshot of the machine, or one whose stage is
not MAINTENANCE. *)
Definition notMaintenance
    (got : resource.Resource omni.MachineStatusSnapshotSpec + state.error) : Prop :=
  match got with
  | inr err => state.IsNotFoundError err = true
  | inl snapshot =>
      exists status, omni.MachineStatus (resource.getSpec snapshot) = Some status
                     /\ machine.Stage status <> machine.MachineStatusEvent_MAINTENANCE
  end.

End Vocabulary.

End TalosSpec.

(** Environments for [GetTalosClient] to run in: no socket options, a
client configuration that is the list of its endpoints, and a client that
is the list of the options it was made with. *)
Module sample.
Import effect helpers.

Definition Config : Type := list string.
Definition Option_ : Type := client.OptionFunc Config Empty_set.
Definition Client : Type := list Option_.

Definition GetSocketOptions (address : string) : slice Option_ := None.

Definition NewTalosClientConfig (talosConfig : resource.Resource unit)
    (endpoints : list string) : Config :=
  endpoints.

Definition LabelCluster : string := "omni.sidero.dev/cluster".
Definition DefaultNamespace : string := "default".

(** A store that has nothing, and a factory that makes every client. *)
Definition empty : handler (talosCall (Config := Config) (SocketOption := Empty_set))
                     (talosAnswer (TalosConfigSpec := unit) (Client := Client)) unit :=
  fun c =>
    match c as c0 return unit -> talosAnswer c0 * unit with
    | GetMachineStatusSnapshot id => fun s => (inr (state.errNotFound "not found"), s)
    | GetTalosConfig ns id => fun s => (inr (state.errNotFound "not found"), s)
    | client_New opts => fun s => (inl opts, s)
    end.

(** A store that cannot be reached. *)
Definition unreachable : handler (talosCall (Config := Config) (SocketOption := Empty_set))
                           (talosAnswer (TalosConfigSpec := unit) (Client := Client)) unit :=
  fun c =>
    match c as c0 return unit -> talosAnswer c0 * unit with
    | GetMachineStatusSnapshot id => fun s => (inr (state.errOther "connection refused"), s)
    | GetTalosConfig ns id => fun s => (inr (state.errOther "connection refused"), s)
    | client_New opts => fun s => (inl opts, s)
    end.

(** A store without status snapshots whose TalosConfig lookups fail. *)
Definition configUnreachable
    : handler (talosCall (Config := Config) (SocketOption := Empty_set))
        (talosAnswer (TalosConfigSpec := unit) (Client := Client)) unit :=
  fun c =>
    match c as c0 return unit -> talosAnswer c0 * unit with
    | GetMachineStatusSnapshot id => fun s => (inr (state.errNotFound "not found"), s)
    | GetTalosConfig ns id => fun s => (inr (state.errOther "connection refused"), s)
    | client_New opts => fun s => (inl opts, s)
    end.

(** A store whose status snapshots carry no machine status. *)
Definition statusless
    : handler (talosCall (Config := Config) (SocketOption := Empty_set))
        (talosAnswer (TalosConfigSpec := unit) (Client := Client)) unit :=
  fun c =>
    match c as c0 return unit -> talosAnswer c0 * unit with
    | GetMachineStatusSnapshot id =>
        fun s =>
          (inl (resource.mkResource
                  (resource.mkMetadata "default" "MachineStatusSnapshots.omni.sidero.dev" id
                     (Some 1%N) resource.PhaseRunning [] ∅ ∅)
                  (omni.mkMachineStatusSnapshotSpec None)), s)
    | GetTalosConfig ns id => fun s => (inr (state.errNotFound "not found"), s)
    | client_New opts => fun s => (inl opts, s)
    end.

(** The machine [m1] of the cluster [c1]. *)
Definition machine1 : resource.Resource unit :=
  resource.mkResource
    (resource.mkMetadata "default" "Machines.omni.sidero.dev" "m1" (Some 1%N)
       resource.PhaseRunning [] {[ LabelCluster := "c1"%string ]} ∅) tt.

(** The machine [m0], which belongs to no cluster. *)
Definition machine0 : resource.Resource unit :=
  resource.mkResource
    (resource.mkMetadata "default" "Machines.omni.sidero.dev" "m0" (Some 1%N)
       resource.PhaseRunning [] ∅ ∅) tt.

Definition GetTalosClient :=
  helpers.GetTalosClient (TalosConfigSpec := unit) (Client := Client) (V := unit)
    GetSocketOptions NewTalosClientConfig LabelCluster DefaultNamespace.

End sample.

Module PatchSpec.
Import helpers.

Section Vocabulary.

Variable GetUncompressedData : ConfigPatchSpec -> bytes + state.error.
Variable SetUncompressedData : bytes -> ConfigPatchSpec -> ConfigPatchSpec * option state.error.
Variable TrimSpace : bytes -> bytes.

(** The compressed bytes that stand for a patch: the compressed
representation it carries if there is one, and otherwise what compressing
its uncompressed bytes stores. *)
Definition canonical (patch : ConfigPatchSpec) : bytes :=
  if (0 <? len (CompressedData patch))%nat then elems (CompressedData patch)
  else
    match GetUncompressedData patch with
    | inl data => elems (CompressedData (fst (SetUncompressedData data patch)))
    | inr _ => []
    end.

(** The error met when the compressed bytes of a patch are obtained: none
for an empty patch or one with a compressed representation; otherwise the
error of reading the uncompressed bytes or of storing them compressed. *)
Definition failure (patch : ConfigPatchSpec) : option state.error :=
  if IsEmptyPatch GetUncompressedData TrimSpace patch then None
  else if (0 <? len (CompressedData patch))%nat then None
  else
    match GetUncompressedData patch with
    | inl data => snd (SetUncompressedData data patch)
    | inr err => Some err
    end.

(** Compression stores a compressed representation that is not empty. *)
Definition compressesToBytes : Prop :=
  forall patch data,
    GetUncompressedData patch = inl data ->
    snd (SetUncompressedData data patch) = None ->
    (0 < len (CompressedData (fst (SetUncompressedData data patch))))%nat.

(** What was compressed can be read back. *)
Definition roundTrips : Prop :=
  forall patch data,
    GetUncompressedData patch = inl data ->
    snd (SetUncompressedData data patch) = None ->
    GetUncompressedData (fst (SetUncompressedData data patch)) = inl data.

(** What one iteration of [SetPatchesCompress] appends, given the bytes
returned by [getCompressed] and the patch as that call left it. *)
Definition appended (compr : slice Z) (patch : ConfigPatchSpec) : option bytes :=
  match compr with
  | None => None
  | Some data =>
      if (length data <? 1024)%nat && IsEmptyPatch GetUncompressedData TrimSpace patch
      then None
      else Some data
  end.

(** The patches [h'] are the patches [h] up to compression: a patch is as
empty, stands for the same compressed bytes and fails the same way in both,
and an empty patch or one with a compressed representation is the same. *)
Definition settled (h h' : ptr -> ConfigPatchSpec) : Prop :=
  forall q,
    IsEmptyPatch GetUncompressedData TrimSpace (h' q)
    = IsEmptyPatch GetUncompressedData TrimSpace (h q)
    /\ canonical (h' q) = canonical (h q)
    /\ failure (h' q) = failure (h q)
    /\ (IsEmptyPatch GetUncompressedData TrimSpace (h q) = true
        \/ (0 < len (CompressedData (h q)))%nat -> h' q = h q).

End Vocabulary.

End PatchSpec.

(** A codec to run [SetPatchesCompress] with: the compressed form is the
magic number of a Zstandard frame followed by the data as they are, and
reading anything else back fails. *)
Module stored.
Import helpers.

Local Open Scope Z_scope.

Definition magic : bytes := [0x28; 0xB5; 0x2F; 0xFD].

Definition compress (data : bytes) : bytes := magic ++ data.

(** Decoding: no input gives no output and no error; any other input has
to start with the magic number. *)
Definition decompress (compressed : bytes) : bytes + state.error :=
  match compressed with
  | [] => inl []
  | 0x28 :: 0xB5 :: 0x2F :: 0xFD :: data => inl data
  | _ => inr (state.errOther "invalid input: magic number mismatch")
  end.

Definition GetUncompressedData (s : ConfigPatchSpec) : bytes + state.error :=
  match CompressedData s with
  | None => inl (bytes_of_string (Data s))
  | Some compressed => decompress compressed
  end.

(** [SetUncompressedData] with compression enabled: the compressed form
replaces the text. *)
Definition SetUncompressedData (data : bytes) (s : ConfigPatchSpec)
    : ConfigPatchSpec * option state.error :=
  (mkConfigPatchSpec "" (Some (compress data)), None).

(** [asciiSpace] of package [bytes]: tab, line feed, vertical tab, form
feed, carriage return and space. *)
Definition asciiSpace (c : Z) : bool :=
  (c =? 9) || (c =? 10) || (c =? 11) || (c =? 12) || (c =? 13) || (c =? 32).

Fixpoint trimLeft (s : bytes) : bytes :=
  match s with
  | c :: s' => if asciiSpace c then trimLeft s' else s
  | [] => []
  end.

(** [bytes.TrimSpace] on input without bytes from [utf8.RuneSelf] on. *)
Definition TrimSpace (s : bytes) : bytes := rev (trimLeft (rev (trimLeft s))).

Definition SetPatchesCompress :=
  helpers.SetPatchesCompress GetUncompressedData SetUncompressedData TrimSpace.

(** Patches to run it on: 0 is white space only (spaces, a line feed, a
tab); 1 is a patch as text; 2 is a patch that carries its compressed form;
3 carries a compressed form of length zero, which reads as nothing; 4
carries bytes that are not a compressed form. *)
Definition patches (p : ptr) : ConfigPatchSpec :=
  match p with
  | 0%nat => mkConfigPatchSpec
               (String " " (String " " (String "010" (String "009" (String " " "")))))
               None
  | 1%nat => mkConfigPatchSpec "machine: {}" None
  | 2%nat => mkConfigPatchSpec "" (Some (compress (bytes_of_string "cluster: {}")))
  | 3%nat => mkConfigPatchSpec "" (Some [])
  | _ => mkConfigPatchSpec "" (Some [1; 2; 3])
  end.

End stored.

(** The codec with compression disabled: [SetUncompressedData] keeps the
data as text and stores no compressed form. *)
Module plain.
Import helpers.

Definition SetUncompressedData (data : bytes) (s : ConfigPatchSpec)
    : ConfigPatchSpec * option state.error :=
  (mkConfigPatchSpec (string_of_bytes data) None, None).

Definition IsEmptyPatch := helpers.IsEmptyPatch stored.GetUncompressedData stored.TrimSpace.

Definition SetPatchesCompress :=
  helpers.SetPatchesCompress stored.GetUncompressedData SetUncompressedData
    stored.TrimSpace.

End plain.

(** A codec whose compressor reports an error, as the signature of
[SetUncompressedData] allows, and leaves the patch as it is. *)
Module faulty.
Import helpers.

Definition SetUncompressedData (data : bytes) (s : ConfigPatchSpec)
    : ConfigPatchSpec * option state.error :=
  (s, Some (state.errOther "zstd: encoder is closed")).

Definition SetPatchesCompress :=
  helpers.SetPatchesCompress stored.GetUncompressedData SetUncompressedData
    stored.TrimSpace.

End faulty.

(** ** The YAML output of omnictl *)
Module output.

(** The line feed that [fmt.Fprintln] and the format ["event: %s\n"] write. *)
Definition newline : string := String (ascii_of_nat 10) EmptyString.

(** [YAML] outputs resources in YAML format. *)
Record YAML : Type := mkYAML {
  needDashes : bool;
  withEvents : bool
}.

(** [NewYAML] initializes YAML resource output. *)
Definition NewYAML : YAML := mkYAML false false.

(** [WriteHeader] implements the [output.Writer] interface; the resource
definition is not looked at. *)
Definition WriteHeader (events : bool) (y : YAML) : YAML * option state.error :=
  (mkYAML (needDashes y) events, None).

(** [Flush] implements the [output.Writer] interface. *)
Definition Flush (y : YAML) : YAML * option state.error := (y, None).

Section Writer.

(** [resource.MarshalYAML], the [String] method of [state.EventType],
[strings.ToLower] and the encoder of package [yaml] are not part of this
package: the writer is read for any such functions.  [Encode] answers the
text that [yaml.NewEncoder(os.Stdout).Encode(out)] writes, and its error. *)
Context {Res Node EventType : Type}.
Variable MarshalYAML : Res -> Node + state.error.
Variable EventType_String : EventType -> string.
Variable ToLower : string -> string.
Variable Encode : Node -> string * option state.error.

(** [WriteResource] implements the [output.Writer] interface.  The writer
is a pointer and [os.Stdout] is shared: both are passed in and handed back,
[stdout] being all that was written so far.  The errors of [fmt.Fprintln]
and [fmt.Fprintf] are dropped, as in the source. *)
Definition WriteResource (r : Res) (event : EventType) (y : YAML) (stdout : string)
    : YAML * string * option state.error :=
  match MarshalYAML r with
  | inr err => (y, stdout, Some err)
  | inl out =>
      let stdout := if needDashes y then stdout +:+ "---" +:+ newline else stdout in
      let y := mkYAML true (withEvents y) in
      let stdout :=
        if withEvents y
        then stdout +:+ "event: " +:+ ToLower (EventType_String event) +:+ newline
        else stdout in
      let '(text, err) := Encode out in
      (y, stdout +:+ text, err)
  end.

End Writer.

End output.

Module YAMLSpec.
Import output.

Section Vocabulary.

Context {Res Node EventType : Type}.
Variable MarshalYAML : Res -> Node + state.error.
Variable EventType_String : EventType -> string.
Variable ToLower : string -> string.
Variable Encode : Node -> string * option state.error.

(** Calls of [WriteResource] made one after another on the same writer,
whatever each of them returns. *)
Definition writes (calls : list (Res * EventType)) (y : YAML) (stdout : string)
    : YAML * string :=
  foldl (fun st c =>
           fst (WriteResource MarshalYAML EventType_String ToLower Encode
                  (fst c) (snd c) (fst st) (snd st)))
    (y, stdout) calls.

(** The document of one call: nothing for a resource that cannot be
marshalled, and otherwise the event line, if events are shown, followed by
what the encoder writes. *)
Definition document (events : bool) (c : Res * EventType) : option string :=
  match MarshalYAML (fst c) with
  | inr _ => None
  | inl out =>
      Some ((if events then "event: " +:+ ToLower (EventType_String (snd c)) +:+ newline
             else "")
            +:+ fst (Encode out))
  end.

(** Documents each after a line of three dashes. *)
Fixpoint dashed (docs : list string) : string :=
  match docs with
  | [] => ""
  | doc :: docs' => "---" +:+ newline +:+ doc +:+ dashed docs'
  end.

(** Documents with a line of three dashes between them. *)
Definition separated (docs : list string) : string :=
  match docs with
  | [] => ""
  | doc :: docs' => doc +:+ dashed docs'
  end.

End Vocabulary.

End YAMLSpec.

(** ** The options of the Omni API client *)
Module omniclient.

(** [interceptor.Options] of the signature interceptor, with the fields the
client sets. *)
Record InterceptorOptions (KeyProvider : Type) : Type := mkInterceptorOptions {
  UserKeyProvider : KeyProvider;
  ContextName : string;
  Identity : string;
  ClientName : string;
  ServiceAccountBase64 : string
}.

Arguments mkInterceptorOptions {KeyProvider} _ _ _ _ _.
Arguments UserKeyProvider {KeyProvider} _.
Arguments ContextName {KeyProvider} _.
Arguments Identity {KeyProvider} _.
Arguments ClientName {KeyProvider} _.
Arguments ServiceAccountBase64 {KeyProvider} _.

(** [Options] is the options for the client.  [AuthInterceptor] is a
pointer, [None] being nil; the slices are taken by their elements. *)
Record Options (Interceptor DialOption OmniOption : Type) : Type := mkOptions {
  AuthInterceptor : option Interceptor;
  AdditionalGRPCDialOptions : list DialOption;
  OmniClientOptions : list OmniOption;
  InsecureSkipTLSVerify : bool
}.

Arguments mkOptions {Interceptor DialOption OmniOption} _ _ _ _.
Arguments AuthInterceptor {Interceptor DialOption OmniOption} _.
Arguments AdditionalGRPCDialOptions {Interceptor DialOption OmniOption} _.
Arguments OmniClientOptions {Interceptor DialOption OmniOption} _.
Arguments InsecureSkipTLSVerify {Interceptor DialOption OmniOption} _.

Section WithInterceptor.

(** [interceptor.New], [client.NewKeyProvider] and the name and tag of
package [version] come from outside this package. *)
Context {KeyProvider Interceptor DialOption OmniOption : Type}.
Variable interceptor_New : InterceptorOptions KeyProvider -> Interceptor.
Variable NewKeyProvider : string -> KeyProvider.
Variable version_Name : string.
Variable version_Tag : string.

(** [Option] is a functional option for the client; the pointer it is
applied to is passed in and handed back. *)
Definition Option_ : Type :=
  Options Interceptor DialOption OmniOption -> Options Interceptor DialOption OmniOption.

(** [WithInsecureSkipTLSVerify] creates the client with insecure TLS
verification. *)
Definition WithInsecureSkipTLSVerify (insecureSkipTLSVerify : bool) : Option_ :=
  fun options =>
    mkOptions (AuthInterceptor options) (AdditionalGRPCDialOptions options)
      (OmniClientOptions options) insecureSkipTLSVerify.

Definition signatureAuthInterceptor (contextName identity serviceAccountBase64 : string)
    : Interceptor :=
  interceptor_New
    (mkInterceptorOptions (NewKeyProvider "omni/keys") contextName identity
       (version_Name +:+ " " +:+ version_Tag) serviceAccountBase64).

(** [WithServiceAccount] creates the client authenticating with the given
service account. *)
Definition WithServiceAccount (serviceAccountBase64 : string) : Option_ :=
  fun options =>
    mkOptions (Some (signatureAuthInterceptor "" "" serviceAccountBase64))
      (AdditionalGRPCDialOptions options) (OmniClientOptions options)
      (InsecureSkipTLSVerify options).

(** [WithUserAccount] is used for accessing Omni by a human. *)
Definition WithUserAccount (contextName identity : string) : Option_ :=
  fun options =>
    mkOptions (Some (signatureAuthInterceptor contextName identity ""))
      (AdditionalGRPCDialOptions options) (OmniClientOptions options)
      (InsecureSkipTLSVerify options).

(** [WithGrpcOpts] adds additional gRPC dial options to the client. *)
Definition WithGrpcOpts (opts : list DialOption) : Option_ :=
  fun options =>
    mkOptions (AuthInterceptor options) (AdditionalGRPCDialOptions options ++ opts)
      (OmniClientOptions options) (InsecureSkipTLSVerify options).

(** [WithOmniClientOptions] adds Omni client options. *)
Definition WithOmniClientOptions (opts : list OmniOption) : Option_ :=
  fun options =>
    mkOptions (AuthInterceptor options) (AdditionalGRPCDialOptions options) opts
      (InsecureSkipTLSVerify options).

End WithInterceptor.

End omniclient.

Module OptionSpec.
Import omniclient.

(** Options applied one after another to the same [Options], as the loop
[for _, opt := range opts { opt(&options) }] of a constructor taking
[opts ...Option] does. *)
Definition applied {Interceptor DialOption OmniOption : Type}
    (opts : list (Option_ (Interceptor := Interceptor) (DialOption := DialOption)
                    (OmniOption := OmniOption)))
    (options : Options Interceptor DialOption OmniOption)
    : Options Interceptor DialOption OmniOption :=
  foldl (fun options opt => opt options) options opts.

End OptionSpec.

(* ------------------------------------------------------------------ *)
(** * Properties *)

Example sha256_abc :
  Hex.EncodeToString (SHA256.Sum256 (bytes_of_string "abc"))
  = "ba7816bf8f01cfea414140de5dae2223b00361a396177a9cb410ff61f20015ad"%string.
Proof. vm_compute. reflexivity. Qed.

Example sha256_constants :
  nth 0 SHA256._K 0%Z = 0x428a2f98%Z /\ nth 63 SHA256._K 0%Z = 0xc67178f2%Z
  /\ length SHA256._K = 64
  /\ nth 0 SHA256.init 0%Z = 0x6a09e667%Z /\ nth 7 SHA256.init 0%Z = 0x5be0cd19%Z.
Proof. vm_compute. repeat split. Qed.

Example sha256_two_blocks :
  Hex.EncodeToString
    (SHA256.Sum256
       (bytes_of_string "abcdbcdecdefdefgefghfghighijhijkijkljklmklmnlmnomnopnopq"))
  = "248d6a61d20638b8e5c026930c3e6039a33ce45964ff2167f6ecedd419db06c1"%string.
Proof. vm_compute. reflexivity. Qed.

Example sha256_empty :
  Hex.EncodeToString (SHA256.Sum256 [])
  = "e3b0c44298fc1c149afbf4c8996fb92427ae41e4649b934ca495991b7852b855"%string.
Proof. vm_compute. reflexivity. Qed.

(** ** Bytes, digests and their hexadecimal form *)
Section Encoding.

Local Open Scope Z_scope.

Lemma bytes_of_string_app (s t : string) :
  bytes_of_string (s +:+ t) = bytes_of_string s ++ bytes_of_string t.
Proof.
  unfold bytes_of_string. induction s as [|c s IH]; simpl; [reflexivity|].
  f_equal. exact IH.
Qed.

Lemma bytes_of_string_inj (s t : string) :
  bytes_of_string s = bytes_of_string t -> s = t.
Proof.
  unfold bytes_of_string. revert t.
  induction s as [|c s IH]; intros [|d t]; simpl; try discriminate; [reflexivity|].
  intros H. injection H as Hc Hs. f_equal.
  - apply N2Z.inj in Hc.
    rewrite <- (ascii_N_embedding c), <- (ascii_N_embedding d). congruence.
  - apply IH. exact Hs.
Qed.

Lemma land_255_isByte (x : Z) : isByte (Z.land x 0xFF).
Proof.
  unfold isByte. change 0xFF with (Z.ones 8).
  rewrite Z.land_ones by lia. apply Z.mod_pos_bound. lia.
Qed.

Lemma Sum256_isByte (data : bytes) : Forall isByte (SHA256.Sum256 data).
Proof.
  unfold SHA256.Sum256. generalize (SHA256.blocks
    (length (data ++ SHA256.padding (Z.of_nat (length data)))) SHA256.init
    (data ++ SHA256.padding (Z.of_nat (length data)))).
  intros ws. unfold SHA256.put_words.
  induction ws as [|w ws IH]; simpl; [constructor|].
  repeat (constructor; [apply land_255_isByte|]). exact IH.
Qed.

Lemma undigit_digit (v : Z) : 0 <= v < 16 -> Hex.undigit (Hex.digit v) = v.
Proof.
  intros Hv.
  assert (Hcases : v = 0 \/ v = 1 \/ v = 2 \/ v = 3 \/ v = 4 \/ v = 5 \/ v = 6 \/ v = 7
                   \/ v = 8 \/ v = 9 \/ v = 10 \/ v = 11 \/ v = 12 \/ v = 13
                   \/ v = 14 \/ v = 15) by lia.
  repeat (destruct Hcases as [-> | Hcases]; [vm_compute; reflexivity|]).
  subst v. vm_compute. reflexivity.
Qed.

Lemma byte_nibbles (v : Z) :
  isByte v -> v = 16 * Z.shiftr v 4 + Z.land v 0x0f
              /\ 0 <= Z.shiftr v 4 < 16 /\ 0 <= Z.land v 0x0f < 16.
Proof.
  unfold isByte. intros Hv.
  rewrite Z.shiftr_div_pow2 by lia.
  change 0x0f with (Z.ones 4). rewrite Z.land_ones by lia.
  change (2 ^ 4) with 16.
  pose proof (Z.div_mod v 16 ltac:(lia)) as Hdm.
  pose proof (Z.mod_pos_bound v 16 ltac:(lia)) as Hm.
  assert (0 <= v / 16 < 16).
  { split; [apply Z.div_pos; lia | apply Z.div_lt_upper_bound; lia]. }
  lia.
Qed.

Lemma EncodeToString_inj (src1 src2 : bytes) :
  Forall isByte src1 -> Forall isByte src2 ->
  Hex.EncodeToString src1 = Hex.EncodeToString src2 -> src1 = src2.
Proof.
  intros H1. revert src2.
  induction H1 as [|v src1 Hv _ IH]; intros src2 H2 Heq.
  - destruct src2; [reflexivity | discriminate].
  - destruct H2 as [|w src2 Hw H2]; [discriminate|].
    simpl in Heq. injection Heq as Hhi Hlo Hrest.
    destruct (byte_nibbles v Hv) as (Ev & Hvh & Hvl).
    destruct (byte_nibbles w Hw) as (Ew & Hwh & Hwl).
    f_equal; [|apply IH; assumption].
    rewrite Ev, Ew.
    rewrite <- (undigit_digit _ Hvh), <- (undigit_digit _ Hvl).
    rewrite <- (undigit_digit _ Hwh), <- (undigit_digit _ Hwl).
    rewrite Hhi, Hlo. reflexivity.
Qed.

End Encoding.

(** ** Fingerprints of inputs *)
Module FingerprintFacts.
Import Fingerprint helpers.

Lemma writeVersions_S (i : nat) (versions : list string) (hash : SHA256.digest) :
  writeVersions (S i) versions hash
  = hash ++ flat_map (fun v => bytes_of_string "," ++ bytes_of_string v) versions.
Proof.
  revert i hash. induction versions as [|v vs IH]; intros i hash; simpl.
  - rewrite app_nil_r. reflexivity.
  - rewrite IH. unfold SHA256.Write. rewrite <- !app_assoc. reflexivity.
Qed.

Lemma join_cons_bytes (v : string) (vs : list string) :
  bytes_of_string (join (v :: vs))
  = bytes_of_string v
    ++ flat_map (fun v => bytes_of_string "," ++ bytes_of_string v) vs.
Proof.
  revert v. induction vs as [|w vs IH]; intros v.
  - simpl. rewrite app_nil_r. reflexivity.
  - change (join (v :: w :: vs)) with (v +:+ "," +:+ join (w :: vs)).
    rewrite !bytes_of_string_app, IH. simpl flat_map.
    rewrite <- ?app_assoc. reflexivity.
Qed.

(** The digest is fed the tokens joined with commas. *)
Lemma writeVersions_join (versions : list string) :
  writeVersions 0 versions SHA256.New = bytes_of_string (join versions).
Proof.
  destruct versions as [|v vs]; [reflexivity|].
  rewrite join_cons_bytes. simpl. rewrite writeVersions_S. reflexivity.
Qed.

Lemma hasComma_app (s t : string) :
  hasComma (s +:+ t) = hasComma s || hasComma t.
Proof.
  induction s as [|c s IH]; simpl; [reflexivity|].
  rewrite IH, orb_assoc. reflexivity.
Qed.

Lemma append_comma_inj (s1 s2 t1 t2 : string) :
  hasComma s1 = false -> hasComma s2 = false ->
  s1 +:+ String "," t1 = s2 +:+ String "," t2 -> s1 = s2 /\ t1 = t2.
Proof.
  revert s2. induction s1 as [|c s1 IH]; intros [|d s2]; cbn; intros H1 H2 Heq.
  - injection Heq as Heq. subst. split; reflexivity.
  - injection Heq as Hd _. subst d. discriminate.
  - injection Heq as Hc _. subst c. discriminate.
  - injection Heq as Hc Heq. subst d.
    apply orb_false_elim in H1 as [_ H1]. apply orb_false_elim in H2 as [_ H2].
    destruct (IH s2 H1 H2 Heq) as [-> ->]. split; reflexivity.
Qed.

Lemma join_inj_cons (v1 v2 : string) (r1 r2 : list string) :
  commaFree (v1 :: r1) = true -> commaFree (v2 :: r2) = true ->
  join (v1 :: r1) = join (v2 :: r2) -> v1 :: r1 = v2 :: r2.
Proof.
  revert v1 v2 r2.
  induction r1 as [|w1 r1 IH]; intros v1 v2 [|w2 r2] H1 H2 Heq;
    simpl in H1, H2;
    repeat match goal with
           | H : _ && _ = true |- _ => apply andb_prop in H as [? ?]
           | H : negb _ = true |- _ => apply negb_true_iff in H
           end.
  - simpl in Heq. congruence.
  - change (join [v1]) with v1 in Heq.
    change (join (v2 :: w2 :: r2)) with (v2 +:+ "," +:+ join (w2 :: r2)) in Heq.
    assert (Hc : hasComma v1 = true).
    { rewrite Heq, !hasComma_app. simpl. apply orb_true_r. }
    congruence.
  - change (join [v2]) with v2 in Heq.
    change (join (v1 :: w1 :: r1)) with (v1 +:+ "," +:+ join (w1 :: r1)) in Heq.
    assert (Hc : hasComma v2 = true).
    { rewrite <- Heq, !hasComma_app. simpl. apply orb_true_r. }
    congruence.
  - change (join (v1 :: w1 :: r1)) with (v1 +:+ "," +:+ join (w1 :: r1)) in Heq.
    change (join (v2 :: w2 :: r2)) with (v2 +:+ "," +:+ join (w2 :: r2)) in Heq.
    apply append_comma_inj in Heq as [-> Heq]; [|assumption..].
    f_equal. apply IH; [| |exact Heq]; simpl;
      repeat (apply andb_true_intro; split); try apply negb_true_iff; assumption.
Qed.

Lemma join_nil_cons (v : string) (r : list string) :
  join (v :: r) = "" -> v :: r = [""].
Proof.
  destruct r as [|w r]; simpl.
  - intros ->. reflexivity.
  - destruct v; simpl; discriminate.
Qed.

(** Joining is injective on comma-free sequences, except that the empty
sequence and the sequence of one empty token are both sent to the
empty string. *)
Lemma join_inj (vs1 vs2 : list string) :
  commaFree vs1 = true -> commaFree vs2 = true ->
  vs1 <> [""] -> vs2 <> [""] ->
  join vs1 = join vs2 -> vs1 = vs2.
Proof.
  intros H1 H2 N1 N2 Heq.
  destruct vs1 as [|v1 r1], vs2 as [|v2 r2].
  - reflexivity.
  - symmetry in Heq. apply join_nil_cons in Heq. contradiction.
  - apply join_nil_cons in Heq. contradiction.
  - apply join_inj_cons; assumption.
Qed.

Lemma UpdateInputsAnnotation_stored {Payload : Type} (out : ptr)
    (versions : list string) (h : heap Payload) :
  resource.mdAnnotations
    (resource.getMetadata (snd (UpdateInputsAnnotation out versions h) out))
    !! InputResourceVersionAnnotation
  = Some (inVersion versions).
Proof.
  unfold UpdateInputsAnnotation, kvutils.Get, kvutils.Set_.
  destruct (resource.mdAnnotations (resource.getMetadata (h out))
              !! InputResourceVersionAnnotation) as [version|] eqn:Hget.
  - destruct (String.eqb version (inVersion versions)) eqn:Heq; simpl.
    + apply String.eqb_eq in Heq. congruence.
    + unfold store. destruct (Nat.eq_dec out out); [|contradiction].
      simpl. apply lookup_insert_eq.
  - simpl. unfold store. destruct (Nat.eq_dec out out); [|contradiction].
    simpl. apply lookup_insert_eq.
Qed.

(** C4 (as stated, refuted): two orderings of the same two tokens, ["a"]
and ["a,a"], feed the digest the same bytes ["a,a,a"], so the change of
order leaves the fingerprint unchanged with certainty. *)
Lemma inVersion_reordering_collides :
  ["a"; "a,a"]%string ≡ₚ ["a,a"; "a"]%string
  /\ ["a"; "a,a"]%string <> ["a,a"; "a"]%string
  /\ inVersion ["a"; "a,a"]%string = inVersion ["a,a"; "a"]%string.
Proof.
  split; [apply perm_swap|]. split; [discriminate|].
  unfold inVersion. do 2 f_equal.
Qed.

(** C4 (amended): the fingerprint stored by [UpdateInputsAnnotation] is a
function of the token sequence alone, so identical sequences give
identical digests on any resources; and two different sequences of
tokens that contain no comma, neither being the single empty token,
feed the digest different bytes, so that equal fingerprints exhibit a
collision of SHA-256 on two explicit distinct inputs. *)
Theorem fingerprint_deterministic_and_sensitive {Payload : Type}
    (h1 h2 : heap Payload) (out1 out2 : ptr) (vs1 vs2 : list string) :
  (vs1 = vs2 ->
     resource.mdAnnotations
       (resource.getMetadata (snd (UpdateInputsAnnotation out1 vs1 h1) out1))
       !! InputResourceVersionAnnotation
     = resource.mdAnnotations
         (resource.getMetadata (snd (UpdateInputsAnnotation out2 vs2 h2) out2))
         !! InputResourceVersionAnnotation
     /\ inVersion vs1 = inVersion vs2)
  /\ (commaFree vs1 = true -> commaFree vs2 = true ->
      vs1 <> [""%string] -> vs2 <> [""%string] -> vs1 <> vs2 ->
      writeVersions 0 vs1 SHA256.New <> writeVersions 0 vs2 SHA256.New
      /\ (inVersion vs1 = inVersion vs2 ->
          SHA256.Sum256 (writeVersions 0 vs1 SHA256.New)
          = SHA256.Sum256 (writeVersions 0 vs2 SHA256.New))).
Proof.
  split.
  - intros ->. rewrite !UpdateInputsAnnotation_stored. split; reflexivity.
  - intros C1 C2 N1 N2 Hne. split.
    + rewrite !writeVersions_join. intros Heq.
      apply bytes_of_string_inj in Heq. apply Hne.
      apply join_inj; assumption.
    + unfold inVersion, SHA256.Sum. intros Heq.
      apply EncodeToString_inj in Heq; [exact Heq | apply Sum256_isByte..].
Qed.

Lemma fingerprint_deterministic_and_sensitive_witness :
  writeVersions 0 ["v1"; "v2"]%string SHA256.New
  <> writeVersions 0 ["v2"; "v1"]%string SHA256.New.
Proof.
  apply (fingerprint_deterministic_and_sensitive
           (fun _ => resource.mkResource
                       (resource.mkMetadata "default" "T" "id" (Some 1%N)
                          resource.PhaseRunning [] ∅ ∅) tt)
           (fun _ => resource.mkResource
                       (resource.mkMetadata "default" "T" "id" (Some 1%N)
                          resource.PhaseRunning [] ∅ ∅) tt)
           0 0 ["v1"; "v2"]%string ["v2"; "v1"]%string);
    [reflexivity | reflexivity | discriminate | discriminate | discriminate].
Defined.

(** The fingerprint of three inputs, as [sha256sum] gives it for [v1,v2,v3]. *)
Example inVersion_v1_v2_v3 :
  inVersion ["v1"; "v2"; "v3"]%string
  = "ab478853252bbf56f2d6b98993bd25e68509835b801e4e9f919f5b8a93d0cd13"%string.
Proof. vm_compute. reflexivity. Qed.

(** The digests of two orderings of distinct comma-free tokens, computed. *)
Example inVersion_order_sensitive :
  inVersion ["v1"; "v2"]%string <> inVersion ["v2"; "v1"]%string.
Proof. vm_compute. discriminate. Qed.

(** C5: [UpdateInputsAnnotation] returns true exactly when the stored
[inputResourceVersion] annotation is absent or differs from the new
digest, false exactly when it equals it, and a second call with the
same tokens on the same resource returns false and changes nothing. *)
Theorem UpdateInputsAnnotation_reports_change {Payload : Type} (out : ptr)
    (versions : list string) (h : heap Payload) :
  let stored :=
    resource.mdAnnotations (resource.getMetadata (h out))
      !! InputResourceVersionAnnotation in
  let r := UpdateInputsAnnotation out versions h in
  (fst r = true <-> stored = None
                    \/ exists v, stored = Some v /\ v <> inVersion versions)
  /\ (fst r = false <-> stored = Some (inVersion versions))
  /\ UpdateInputsAnnotation out versions (snd r) = (false, snd r).
Proof.
  intros stored r.
  assert (Hsnd : UpdateInputsAnnotation out versions (snd r) = (false, snd r)).
  { pose proof (UpdateInputsAnnotation_stored out versions h) as Hst.
    fold r in Hst. unfold UpdateInputsAnnotation at 1. unfold kvutils.Get.
    rewrite Hst, String.eqb_refl. reflexivity. }
  subst r. unfold UpdateInputsAnnotation, kvutils.Get in *. fold stored in Hsnd |- *.
  destruct stored as [version|].
  - destruct (String.eqb version (inVersion versions)) eqn:Heq; simpl.
    + apply String.eqb_eq in Heq. subst version.
      repeat split; try discriminate; try reflexivity; try exact Hsnd.
      intros [Hn | (v & Hv & Hne)]; [discriminate | congruence].
    + apply String.eqb_neq in Heq.
      repeat split; try discriminate; try reflexivity; try exact Hsnd.
      * intros _. right. exists version. split; [reflexivity | exact Heq].
      * intros Hs. congruence.
  - simpl. repeat split; try discriminate; try reflexivity; try exact Hsnd.
    intros _. left. reflexivity.
Qed.

Lemma UpdateInputsAnnotation_sameButAnnotation {Payload : Type} (out : ptr)
    (versions : list string) (h : heap Payload) :
  (forall q, q <> out -> snd (UpdateInputsAnnotation out versions h) q = h q)
  /\ sameButAnnotation InputResourceVersionAnnotation (h out)
       (snd (UpdateInputsAnnotation out versions h) out).
Proof.
  assert (Hrefl : sameButAnnotation InputResourceVersionAnnotation (h out) (h out)).
  { repeat split. }
  assert (Hset : forall r : resource.Resource Payload,
             r = resource.withMetadata
                   (resource.setAnnotations
                      (kvutils.Set_ InputResourceVersionAnnotation (inVersion versions)
                         (resource.mdAnnotations (resource.getMetadata (h out))))
                      (resource.getMetadata (h out))) (h out) ->
             (forall q, q <> out -> store out r h q = h q)
             /\ sameButAnnotation InputResourceVersionAnnotation (h out)
                  (store out r h out)).
  { intros r ->. unfold store. split.
    - intros q Hq. destruct (Nat.eq_dec q out); [contradiction | reflexivity].
    - destruct (Nat.eq_dec out out); [|contradiction].
      repeat split. intros k Hk. simpl. unfold kvutils.Set_.
      apply lookup_insert_ne. congruence. }
  unfold UpdateInputsAnnotation, kvutils.Get.
  destruct (resource.mdAnnotations (resource.getMetadata (h out))
              !! InputResourceVersionAnnotation) as [version|].
  - destruct (String.eqb version (inVersion versions)); simpl.
    + split; [reflexivity | exact Hrefl].
    + apply Hset. reflexivity.
  - simpl. apply Hset. reflexivity.
Qed.

(** C9: [UpdateInputsAnnotation] and [UpdateInputsVersions] write to the
output resource only, and there at most the annotation
[inputResourceVersion]: its spec, its labels, the rest of its metadata
and every other annotation are unchanged, and every other object, among
them every input that is not the output itself, is left as it was. *)
Theorem UpdateInputs_frame {Payload : Type} (out : ptr) (versions : list string)
    (inputs : list ptr) (h : heap Payload) :
  let h1 := snd (UpdateInputsAnnotation out versions h) in
  let h2 := snd (UpdateInputsVersions out inputs h) in
  (forall q, q <> out -> h1 q = h q)
  /\ sameButAnnotation InputResourceVersionAnnotation (h out) (h1 out)
  /\ resource.mdLabels (resource.getMetadata (h1 out))
     = resource.mdLabels (resource.getMetadata (h out))
  /\ (forall q, q <> out -> h2 q = h q)
  /\ (forall input, In input inputs -> input <> out -> h2 input = h input)
  /\ sameButAnnotation InputResourceVersionAnnotation (h out) (h2 out)
  /\ resource.mdLabels (resource.getMetadata (h2 out))
     = resource.mdLabels (resource.getMetadata (h out)).
Proof.
  intros h1 h2.
  destruct (UpdateInputsAnnotation_sameButAnnotation out versions h) as [F1 S1].
  destruct (UpdateInputsAnnotation_sameButAnnotation out
              (map (fun input => versionToken (resource.getMetadata (h input))) inputs) h)
    as [F2 S2].
  fold h1 in F1, S1. change (snd (UpdateInputsAnnotation out _ h)) with h2 in F2, S2.
  assert (L : forall r r' : resource.Resource Payload,
             sameButAnnotation InputResourceVersionAnnotation r r' ->
             resource.mdLabels (resource.getMetadata r')
             = resource.mdLabels (resource.getMetadata r)).
  { intros r r' (_ & Hmd & _).
    apply (f_equal resource.mdLabels) in Hmd. exact Hmd. }
  repeat split; try apply S1; try apply S2; auto.
Qed.

Lemma UpdateInputs_frame_witness :
  let r (id : string) :=
    resource.mkResource
      (resource.mkMetadata "default" "T" id (Some 3%N) resource.PhaseRunning []
         {[ "k"%string := "v"%string ]} {[ "note"%string := "kept"%string ]}) tt in
  let h : heap unit := fun p => if Nat.eq_dec p 0 then r "out" else r "in" in
  snd (UpdateInputsVersions 0 [1; 2] h) 1 = h 1
  /\ resource.mdAnnotations
       (resource.getMetadata (snd (UpdateInputsVersions 0 [1; 2] h) 0)) !! "note"%string
     = Some "kept"%string.
Proof.
  intros r h.
  destruct (UpdateInputs_frame 0 [] [1; 2] h)
    as (_ & _ & _ & _ & Hin & (_ & _ & Hann) & _).
  split.
  - apply Hin; [simpl; auto | discriminate].
  - rewrite Hann; [reflexivity | discriminate].
Defined.

End FingerprintFacts.

(** ** User labels *)
Module LabelFacts.
Import helpers.

Section WithPrefix.

Variable SystemLabelPrefix : string.

Lemma clearLoop_lookup (entries : list (string * string))
    (tmp : gmap string string) (k : string) :
  clearLoop SystemLabelPrefix entries tmp !! k
  = if HasPrefix k SystemLabelPrefix then tmp !! k
    else if decide (k ∈ entries.*1) then None else tmp !! k.
Proof.
  unfold clearLoop. revert tmp.
  induction entries as [|[k0 v0] entries IH]; intros tmp; simpl.
  - destruct (HasPrefix k SystemLabelPrefix); [reflexivity|].
    reflexivity.
  - rewrite IH. clear IH.
    destruct (HasPrefix k SystemLabelPrefix) eqn:Hk.
    + destruct (HasPrefix k0 SystemLabelPrefix) eqn:Hk0; [reflexivity|].
      unfold kvutils.Delete. apply lookup_delete_ne. congruence.
    + destruct (decide (k ∈ entries.*1)) as [Hin|Hin].
      * rewrite decide_True; [reflexivity | apply elem_of_cons; auto].
      * destruct (decide (k = k0)) as [->|Hne].
        -- rewrite decide_True by apply list_elem_of_here.
           rewrite Hk. unfold kvutils.Delete. apply lookup_delete_eq.
        -- rewrite decide_False.
           ++ destruct (HasPrefix k0 SystemLabelPrefix); [reflexivity|].
              unfold kvutils.Delete. apply lookup_delete_ne. congruence.
           ++ intros [?|?]%elem_of_cons; contradiction.
Qed.

Lemma copyLoop_lookup (entries : list (string * string))
    (tmp : gmap string string) (k : string) :
  NoDup entries.*1 ->
  copyLoop SystemLabelPrefix entries tmp !! k
  = if HasPrefix k SystemLabelPrefix then tmp !! k
    else match (list_to_map entries : gmap string string) !! k with
         | Some v => Some v
         | None => tmp !! k
         end.
Proof.
  unfold copyLoop. revert tmp.
  induction entries as [|[k0 v0] entries IH]; intros tmp Hnd; simpl.
  - rewrite lookup_empty. destruct (HasPrefix k SystemLabelPrefix); reflexivity.
  - apply NoDup_cons in Hnd as [Hk0 Hnd]. rewrite IH by exact Hnd. clear IH.
    destruct (HasPrefix k SystemLabelPrefix) eqn:Hk.
    + destruct (HasPrefix k0 SystemLabelPrefix) eqn:Hk0'; [reflexivity|].
      unfold kvutils.Set_. apply lookup_insert_ne. congruence.
    + destruct (decide (k = k0)) as [->|Hne].
      * rewrite lookup_insert_eq.
        rewrite (not_elem_of_list_to_map_1 entries k0 Hk0).
        rewrite Hk. unfold kvutils.Set_. apply lookup_insert_eq.
      * rewrite lookup_insert_ne by congruence.
        destruct (list_to_map entries !! k); [reflexivity|].
        destruct (HasPrefix k0 SystemLabelPrefix); [reflexivity|].
        unfold kvutils.Set_. apply lookup_insert_ne. congruence.
Qed.

(** The labels left by [CopyUserLabels], whatever the order in which Go
visits the two maps. *)
Lemma CopyUserLabels_in_lookup {Payload : Type}
    (cleared copied : list (string * string))
    (target : resource.Resource Payload) (labels : gmap string string) (k : string) :
  cleared ≡ₚ map_to_list (resource.mdLabels (resource.getMetadata target)) ->
  copied ≡ₚ map_to_list labels ->
  resource.mdLabels
    (resource.getMetadata (CopyUserLabels_in SystemLabelPrefix cleared copied target labels))
    !! k
  = if HasPrefix k SystemLabelPrefix
    then resource.mdLabels (resource.getMetadata target) !! k
    else labels !! k.
Proof.
  intros Hc Hl.
  assert (Hclear :
    resource.mdLabels
      (resource.getMetadata (ClearUserLabels_in SystemLabelPrefix cleared target)) !! k
    = if HasPrefix k SystemLabelPrefix
      then resource.mdLabels (resource.getMetadata target) !! k else None).
  { unfold ClearUserLabels_in, kvutils.Do. simpl. rewrite clearLoop_lookup.
    destruct (HasPrefix k SystemLabelPrefix); [reflexivity|].
    destruct (decide (k ∈ cleared.*1)) as [|Hn]; [reflexivity|].
    destruct (resource.mdLabels (resource.getMetadata target) !! k) as [v|] eqn:Hv;
      [|reflexivity].
    exfalso. apply Hn. rewrite Hc.
    apply list_elem_of_fmap. exists (k, v). split; [reflexivity|].
    apply elem_of_map_to_list. exact Hv. }
  unfold CopyUserLabels_in. destruct (decide (size labels = 0)) as [Hz|Hz].
  - rewrite Hclear. apply map_size_empty_inv in Hz. subst labels.
    rewrite lookup_empty. reflexivity.
  - unfold kvutils.Do. cbn [resource.getMetadata resource.withMetadata
      resource.mdLabels resource.setLabels].
    rewrite copyLoop_lookup.
    + rewrite Hclear.
      destruct (HasPrefix k SystemLabelPrefix); [reflexivity|].
      assert (Hmap : (list_to_map copied : gmap string string) = labels).
      { symmetry. apply list_to_map_flip. symmetry. exact Hl. }
      rewrite Hmap. destruct (labels !! k); reflexivity.
    + rewrite Hl. apply NoDup_fst_map_to_list.
Qed.

Lemma CopyUserLabels_in_shape {Payload : Type}
    (cleared copied : list (string * string))
    (target : resource.Resource Payload) (labels : gmap string string) :
  CopyUserLabels_in SystemLabelPrefix cleared copied target labels
  = resource.withMetadata
      (resource.setLabels
         (resource.mdLabels
            (resource.getMetadata
               (CopyUserLabels_in SystemLabelPrefix cleared copied target labels)))
         (resource.getMetadata target)) target.
Proof.
  unfold CopyUserLabels_in, ClearUserLabels_in.
  destruct (decide (size labels = 0)); reflexivity.
Qed.

(** What [CopyUserLabels] leaves, for any prefix and any order in which
the two maps are visited. *)
Lemma CopyUserLabels_in_replaces {Payload : Type}
    (cleared copied : list (string * string))
    (target : resource.Resource Payload) (labels : gmap string string) :
  cleared ≡ₚ map_to_list (resource.mdLabels (resource.getMetadata target)) ->
  copied ≡ₚ map_to_list labels ->
  let before := resource.mdLabels (resource.getMetadata target) in
  let result := CopyUserLabels_in SystemLabelPrefix cleared copied target labels in
  let after := resource.mdLabels (resource.getMetadata result) in
  (forall k, HasPrefix k SystemLabelPrefix = true -> after !! k = before !! k)
  /\ (forall k, HasPrefix k SystemLabelPrefix = false ->
                labels !! k = None -> after !! k = None)
  /\ (forall k, HasPrefix k SystemLabelPrefix = false -> after !! k = labels !! k)
  /\ result = resource.withMetadata
                (resource.setLabels after (resource.getMetadata target)) target
  /\ result = CopyUserLabels SystemLabelPrefix target labels.
Proof.
  intros Hc Hl before result after.
  assert (Hlook : forall k, after !! k
            = if HasPrefix k SystemLabelPrefix then before !! k else labels !! k).
  { intros k. apply CopyUserLabels_in_lookup; assumption. }
  split; [intros k Hk; rewrite Hlook, Hk; reflexivity|].
  split; [intros k Hk Hn; rewrite Hlook, Hk; exact Hn|].
  split; [intros k Hk; rewrite Hlook, Hk; reflexivity|].
  split; [apply CopyUserLabels_in_shape|].
  assert (Hsame : after
            = resource.mdLabels
                (resource.getMetadata (CopyUserLabels SystemLabelPrefix target labels))).
  { apply map_eq. intros k. rewrite Hlook. unfold CopyUserLabels.
    rewrite (CopyUserLabels_in_lookup _ _ target labels k); reflexivity. }
  subst result. rewrite CopyUserLabels_in_shape. fold after. rewrite Hsame.
  unfold CopyUserLabels. symmetry. apply CopyUserLabels_in_shape.
Qed.

End WithPrefix.

(** C6 (amended): for every prefix, [CopyUserLabels] keeps every label with
the system prefix as it was, removes every other label that the input map
does not have, and leaves as labels without the system prefix exactly the
entries of the input map without it; nothing but the labels changes, and
the result does not depend on the order in which the maps are visited.
With the prefix of the program, [omni.sidero.dev/], replacing [{a: 1}] by
[{b: 2}] next to the system label [omni.sidero.dev/x = y] leaves exactly
[{b: 2, omni.sidero.dev/x: y}]. *)
Theorem CopyUserLabels_replaces_user_labels {Payload : Type} (prefix : string)
    (cleared copied : list (string * string))
    (target : resource.Resource Payload) (labels : gmap string string) :
  cleared ≡ₚ map_to_list (resource.mdLabels (resource.getMetadata target)) ->
  copied ≡ₚ map_to_list labels ->
  let before := resource.mdLabels (resource.getMetadata target) in
  let result := CopyUserLabels_in prefix cleared copied target labels in
  let after := resource.mdLabels (resource.getMetadata result) in
  (forall k, HasPrefix k prefix = true -> after !! k = before !! k)
  /\ (forall k, HasPrefix k prefix = false -> labels !! k = None -> after !! k = None)
  /\ (forall k, HasPrefix k prefix = false -> after !! k = labels !! k)
  /\ result = resource.withMetadata
                (resource.setLabels after (resource.getMetadata target)) target
  /\ result = CopyUserLabels prefix target labels
  /\ (before = {[ "a" := "1"; "omni.sidero.dev/x" := "y" ]}%string ->
      labels = {[ "b" := "2" ]}%string ->
      resource.mdLabels
        (resource.getMetadata
           (CopyUserLabels_in omni.SystemLabelPrefix cleared copied target labels))
      = {[ "b" := "2"; "omni.sidero.dev/x" := "y" ]}%string).
Proof.
  intros Hc Hl before result after.
  destruct (CopyUserLabels_in_replaces prefix cleared copied target labels Hc Hl)
    as (Hsys & Hgone & Huser & Hshape & Hrun).
  repeat (split; [assumption|]).
  intros Hbefore Hlabels. apply map_eq. intros k.
  rewrite (CopyUserLabels_in_lookup omni.SystemLabelPrefix cleared copied target labels k Hc Hl).
  fold before. rewrite Hbefore, Hlabels.
  destruct (HasPrefix k omni.SystemLabelPrefix) eqn:Hk.
  - assert (k <> "a"%string) by (intros ->; discriminate Hk).
    assert (k <> "b"%string) by (intros ->; discriminate Hk).
    rewrite !lookup_insert_ne by congruence. reflexivity.
  - assert (k <> "omni.sidero.dev/x"%string) by (intros ->; discriminate Hk).
    destruct (decide (k = "b"%string)) as [->|Hkb].
    + rewrite lookup_singleton_eq, lookup_insert_eq. reflexivity.
    + rewrite lookup_insert_ne by congruence.
      rewrite !lookup_singleton_ne by congruence. reflexivity.
Qed.

Lemma CopyUserLabels_replaces_user_labels_witness :
  let target :=
    resource.mkResource
      (resource.mkMetadata "default" "T" "id" (Some 1%N) resource.PhaseRunning []
         {[ "a" := "1"; "omni.sidero.dev/x" := "y" ]}%string ∅) tt in
  resource.mdLabels
    (resource.getMetadata
       (CopyUserLabels omni.SystemLabelPrefix target {[ "b" := "2" ]}%string))
  = {[ "b" := "2"; "omni.sidero.dev/x" := "y" ]}%string.
Proof.
  intros target.
  destruct (CopyUserLabels_replaces_user_labels omni.SystemLabelPrefix
              (map_to_list (resource.mdLabels (resource.getMetadata target)))
              (map_to_list ({[ "b" := "2" ]}%string : gmap string string))
              target {[ "b" := "2" ]}%string)
    as (_ & _ & _ & _ & _ & Hex); [reflexivity | reflexivity |].
  apply Hex; reflexivity.
Defined.

(** C6 (as stated, refuted): the key [sidero.dev/x] does not start with the
prefix [omni.sidero.dev/], so the label of the example is a user label:
it is removed with [a], and the result is [{b: 2}]. *)
Lemma sidero_dev_label_removed :
  let target :=
    resource.mkResource
      (resource.mkMetadata "default" "T" "id" (Some 1%N) resource.PhaseRunning []
         {[ "a" := "1"; "sidero.dev/x" := "y" ]}%string ∅) tt in
  let after :=
    resource.mdLabels
      (resource.getMetadata
         (CopyUserLabels omni.SystemLabelPrefix target {[ "b" := "2" ]}%string)) in
  HasPrefix "sidero.dev/x" omni.SystemLabelPrefix = false
  /\ after !! "sidero.dev/x"%string = None
  /\ after = {[ "b" := "2" ]}%string
  /\ after <> {[ "b" := "2"; "sidero.dev/x" := "y" ]}%string.
Proof.
  intros target after.
  assert (Hafter : after = {[ "b" := "2" ]}%string) by (vm_compute; reflexivity).
  split; [reflexivity|]. split; [rewrite Hafter; reflexivity|]. split; [exact Hafter|].
  rewrite Hafter. intros Heq.
  apply (f_equal (fun m : gmap string string => m !! "sidero.dev/x"%string)) in Heq.
  vm_compute in Heq. discriminate Heq.
Qed.

End LabelFacts.

(** ** HandleInput *)
Module HandleInputFacts.
Import effect helpers HandleInputSpec.

Section WithReaderWriter.

Context {T S St : Type} `{RW : ReaderWriter (resource.Resource T) St}.

Implicit Types (main : resource.Resource S) (dep : resource.Resource T).

Lemma running_not_tearingDown (md : resource.Metadata) :
  running md <-> ~ tearingDown md.
Proof.
  unfold running, tearingDown. destruct (resource.mdPhase md); split; congruence.
Qed.

Ltac phases :=
  repeat match goal with
         | H : running _ |- _ => apply running_not_tearingDown in H
         | |- context [bool_decide (resource.mdPhase ?md = resource.PhaseTearingDown)] =>
             fold (tearingDown md)
         end;
  repeat match goal with
         | H : tearingDown ?md |- context [bool_decide (tearingDown ?md)] =>
             rewrite (bool_decide_eq_true_2 _ H)
         | H : ~ tearingDown ?md |- context [bool_decide (tearingDown ?md)] =>
             rewrite (bool_decide_eq_false_2 _ H)
         end.

(** What a run of [HandleInput] does, by the answers of the runtime. *)
Lemma run_HandleInput (finalizer : string) main (opts : list HandleInputOption) (s : St) :
  run rwHandler (HandleInput (T := T) finalizer main opts) s
  = let i := lookupID main opts in
    let '(got, s1) := rwGet i s in
    after (ReaderGetByID i)
      match got with
      | inr err =>
          Outcome (None, if state.IsNotFoundError err then None else Some err) s1 []
      | inl dep =>
          let md := resource.getMetadata dep in
          if bool_decide (tearingDown md)
             || bool_decide (tearingDown (resource.getMetadata main))
          then
            let '(err, s2) := rwRemoveFinalizer md finalizer s1 in
            let settled :=
              (if bool_decide (tearingDown md) then None else Some dep, None) in
            after (RemoveFinalizer md finalizer)
              (Outcome
                 match err with
                 | Some err =>
                     if state.IsNotFoundError err then settled else (None, Some err)
                 | None => settled
                 end s2 [])
          else if resource.Has (resource.mdFinalizers md) finalizer
          then Outcome (Some dep, None) s1 []
          else
            let '(err, s2) := rwAddFinalizer md finalizer s1 in
            after (AddFinalizer md finalizer)
              (Outcome
                 match err with
                 | Some err => (None, Some err)
                 | None => (Some dep, None)
                 end s2 [])
      end.
Proof.
  unfold HandleInput, lookupID, tearingDown. cbn [bind call run rwHandler].
  destruct (rwGet _ s) as [[dep|err] s1]; cbn [bind run].
  - destruct (bool_decide _ || bool_decide _); cbn [bind run rwHandler].
    + destruct (rwRemoveFinalizer _ finalizer s1) as [[err|] s2].
      * destruct (state.IsNotFoundError err); cbn [negb run];
          [destruct (bool_decide _)|]; reflexivity.
      * destruct (bool_decide _); reflexivity.
    + destruct (resource.Has _ finalizer); cbn [negb bind run rwHandler];
        [reflexivity|].
      destruct (rwAddFinalizer _ finalizer s1) as [[err|] s2]; reflexivity.
  - destruct (state.IsNotFoundError err); reflexivity.
Qed.

(** C1: the state machine of one call.  The dependent is looked up under
the id of the owner unless [WithID] gives another one.  If it does
not exist, the result is the zero value and a nil error.  If it
exists and the dependent or the owner is tearing down, the finalizer
is removed from the dependent, a not-found answer counting as
success, and the result is the zero value if the dependent itself is
tearing down and the dependent otherwise.  If both are running, the
finalizer is added unless already present and the result is the
dependent.  Any other error of the runtime is returned with the zero
value. *)
Theorem HandleInput_state_machine (finalizer : string) main
    (opts : list HandleInputOption) (s : St) :
  let i := lookupID main opts in
  let o := run rwHandler (HandleInput (T := T) finalizer main opts) s in
  let got := fst (rwGet i s) in
  let s1 := snd (rwGet i s) in
  (lookupID main [] = resource.mdID (resource.getMetadata main)
   /\ forall other, lookupID main [WithID other] = other)
  /\ (forall err, got = inr err -> state.IsNotFoundError err = true ->
        o = Outcome (None, None) s1 [ReaderGetByID i])
  /\ (forall err, got = inr err -> state.IsNotFoundError err = false ->
        o = Outcome (None, Some err) s1 [ReaderGetByID i])
  /\ (forall dep, got = inl dep ->
        tearingDown (resource.getMetadata dep)
        \/ tearingDown (resource.getMetadata main) ->
        let md := resource.getMetadata dep in
        let removed := fst (rwRemoveFinalizer md finalizer s1) in
        let s2 := snd (rwRemoveFinalizer md finalizer s1) in
        calls o = [ReaderGetByID i; RemoveFinalizer md finalizer]
        /\ final o = s2
        /\ (removed = None
            \/ (exists err, removed = Some err /\ state.IsNotFoundError err = true) ->
            (tearingDown md -> returned o = (None, None))
            /\ (running md -> returned o = (Some dep, None)))
        /\ (forall err, removed = Some err -> state.IsNotFoundError err = false ->
              returned o = (None, Some err)))
  /\ (forall dep, got = inl dep ->
        running (resource.getMetadata dep) ->
        running (resource.getMetadata main) ->
        let md := resource.getMetadata dep in
        let added := fst (rwAddFinalizer md finalizer s1) in
        let s2 := snd (rwAddFinalizer md finalizer s1) in
        (resource.Has (resource.mdFinalizers md) finalizer = true ->
           o = Outcome (Some dep, None) s1 [ReaderGetByID i])
        /\ (resource.Has (resource.mdFinalizers md) finalizer = false ->
              calls o = [ReaderGetByID i; AddFinalizer md finalizer]
              /\ final o = s2
              /\ (added = None -> returned o = (Some dep, None))
              /\ (forall err, added = Some err -> returned o = (None, Some err)))).
Proof.
  intros i o got s1. subst o. rewrite run_HandleInput. cbv zeta. fold i.
  subst got s1. destruct (rwGet i s) as [got s1]. cbn [fst snd].
  split; [split; [reflexivity | intros other; reflexivity]|].
  split; [intros err -> ->; reflexivity|].
  split; [intros err -> ->; reflexivity|].
  split.
  - intros dep -> Htd. set (md := resource.getMetadata dep) in *.
    assert (Hor : bool_decide (tearingDown md)
                  || bool_decide (tearingDown (resource.getMetadata main)) = true).
    { apply orb_true_iff. destruct Htd as [H|H]; [left|right];
        apply bool_decide_eq_true_2; exact H. }
    rewrite Hor.
    destruct (rwRemoveFinalizer md finalizer s1) as [removed s2]. cbn [fst snd].
    split; [reflexivity|]. split; [reflexivity|]. split.
    + intros Hok. cbn [after returned].
      assert (Hsettled :
        match removed with
        | Some err =>
            if state.IsNotFoundError err
            then (if bool_decide (tearingDown md) then None else Some dep, None)
            else (None, Some err)
        | None => (if bool_decide (tearingDown md) then None else Some dep, None)
        end = (if bool_decide (tearingDown md) then None else Some dep,
               @None state.error)).
      { destruct Hok as [->|(err & -> & ->)]; reflexivity. }
      rewrite Hsettled. split; intros Hmd; phases; reflexivity.
    + intros err -> Herr. cbn [after returned]. rewrite Herr. reflexivity.
  - intros dep -> Hdep Hmain. set (md := resource.getMetadata dep) in *.
    phases. cbn [orb].
    split.
    + intros ->. reflexivity.
    + intros ->. destruct (rwAddFinalizer md finalizer s1) as [added s2].
      cbn [fst snd after calls final returned].
      split; [reflexivity|]. split; [reflexivity|].
      split; [intros ->; reflexivity | intros err ->; reflexivity].
Qed.

(** C10: [AddFinalizer] is called only when the dependent exists, both
the dependent and the owner are running and the finalizer is not
yet on the dependent, and then for this dependent and this finalizer;
when the dependent or the owner is tearing down, no call of a run is
an [AddFinalizer]. *)
Theorem AddFinalizer_only_when_both_running (finalizer : string) main
    (opts : list HandleInputOption) (s : St) :
  let i := lookupID main opts in
  let o := run rwHandler (HandleInput (T := T) finalizer main opts) s in
  (forall md fin, In (AddFinalizer md fin) (calls o) ->
     exists dep,
       fst (rwGet i s) = inl dep
       /\ running (resource.getMetadata dep)
       /\ running (resource.getMetadata main)
       /\ resource.Has (resource.mdFinalizers (resource.getMetadata dep)) finalizer = false
       /\ md = resource.getMetadata dep /\ fin = finalizer)
  /\ (forall dep, fst (rwGet i s) = inl dep ->
        tearingDown (resource.getMetadata dep)
        \/ tearingDown (resource.getMetadata main) ->
        forall md fin, ~ In (AddFinalizer md fin) (calls o)).
Proof.
  intros i o.
  assert (Honly : forall md fin, In (AddFinalizer md fin) (calls o) ->
     exists dep,
       fst (rwGet i s) = inl dep
       /\ running (resource.getMetadata dep)
       /\ running (resource.getMetadata main)
       /\ resource.Has (resource.mdFinalizers (resource.getMetadata dep)) finalizer = false
       /\ md = resource.getMetadata dep /\ fin = finalizer).
  { intros md fin. subst o. rewrite run_HandleInput. cbv zeta. fold i.
    destruct (rwGet i s) as [[dep|err] s1]; cbn [fst];
      [|cbn; intros [H|[]]; discriminate].
    destruct (bool_decide (tearingDown (resource.getMetadata dep))) eqn:Hd;
      [|destruct (bool_decide (tearingDown (resource.getMetadata main))) eqn:Hm];
      cbn [orb].
    - destruct (rwRemoveFinalizer _ finalizer s1) as [removed s2].
      cbn. intros [H|[H|[]]]; discriminate.
    - destruct (rwRemoveFinalizer _ finalizer s1) as [removed s2].
      cbn. intros [H|[H|[]]]; discriminate.
    - apply bool_decide_eq_false_1 in Hd, Hm.
      apply running_not_tearingDown in Hd, Hm.
      destruct (resource.Has _ finalizer) eqn:Hhas;
        [cbn; intros [H|[]]; discriminate|].
      destruct (rwAddFinalizer _ finalizer s1) as [added s2].
      cbn. intros [H|[H|[]]]; [discriminate|].
      injection H as <- <-. exists dep. repeat split; assumption. }
  split; [exact Honly|].
  intros dep Hget Htd md fin Hin.
  destruct (Honly md fin Hin) as (dep' & Hget' & Hd & Hm & _).
  rewrite Hget in Hget'. injection Hget' as <-.
  apply running_not_tearingDown in Hd, Hm. destruct Htd; contradiction.
Qed.

End WithReaderWriter.

Lemma HandleInput_state_machine_witness :
  let s : gmap string (resource.Resource unit) :=
    {[ "m1"%string := inmem.dependent resource.PhaseTearingDown ]} in
  returned (run rwHandler
              (HandleInput (T := unit) "fin" (inmem.owner resource.PhaseRunning) []) s)
  = (None, None).
Proof.
  intros s.
  destruct (HandleInput_state_machine (T := unit) "fin"
              (inmem.owner resource.PhaseRunning) [] s)
    as (_ & _ & _ & Htd & _).
  destruct (Htd (inmem.dependent resource.PhaseTearingDown) eq_refl
              (or_introl eq_refl)) as (_ & _ & Hok & _).
  apply Hok; [left; reflexivity | reflexivity].
Defined.

Lemma AddFinalizer_only_when_both_running_witness :
  let s : gmap string (resource.Resource unit) :=
    {[ "m1"%string := inmem.dependent resource.PhaseRunning ]} in
  exists dep : resource.Resource unit,
    fst (rwGet "m1" s) = inl dep /\ running (resource.getMetadata dep).
Proof.
  intros s.
  destruct (AddFinalizer_only_when_both_running (T := unit) "fin"
              (inmem.owner resource.PhaseRunning) [] s) as [Honly _].
  destruct (Honly (resource.getMetadata (inmem.dependent resource.PhaseRunning)) "fin"%string)
    as (dep & Hget & Hrun & _).
  - vm_compute. right. left. reflexivity.
  - exists dep. split; assumption.
Defined.

(** A run on the in-memory runtime: the finalizer is added to the stored
dependent, and the dependent is returned as it was read. *)
Example HandleInput_adds_finalizer :
  let s : gmap string (resource.Resource unit) :=
    {[ "m1"%string := inmem.dependent resource.PhaseRunning ]} in
  let o := run rwHandler
             (HandleInput (T := unit) "fin" (inmem.owner resource.PhaseRunning) []) s in
  returned o = (Some (inmem.dependent resource.PhaseRunning), None)
  /\ (resource.mdFinalizers <$> (resource.getMetadata <$> final o !! "m1"%string))
     = Some ["fin"%string].
Proof. vm_compute. split; reflexivity. Qed.

End HandleInputFacts.

(** ** GetTalosClient *)
Module TalosFacts.
Import effect helpers TalosSpec.

Lemma append_assoc (a b c : string) : a +:+ b +:+ c = (a +:+ b) +:+ c.
Proof.
  induction a as [|x a IH]; [reflexivity|].
  change (String x (a +:+ b +:+ c) = String x ((a +:+ b) +:+ c)). rewrite IH. reflexivity.
Qed.

Lemma prefix_app (b c : string) : String.prefix b (b +:+ c) = true.
Proof.
  induction b as [|x b IH]; [destruct c; reflexivity|].
  change (String x b +:+ c) with (String x (b +:+ c)). cbn [String.prefix].
  destruct (ascii_dec x x); [exact IH | contradiction].
Qed.

Lemma Contains_app (a b c : string) : Contains (a +:+ b +:+ c) b = true.
Proof.
  induction a as [|x a IH].
  - change ("" +:+ b +:+ c) with (b +:+ c).
    destruct (b +:+ c) eqn:E; cbn [Contains]; rewrite <- E, prefix_app; reflexivity.
  - change (String x a +:+ b +:+ c) with (String x (a +:+ b +:+ c)).
    cbn [Contains]. rewrite IH. apply orb_true_r.
Qed.

Section WithEnvironment.

Context {TalosConfigSpec Config Client SocketOption V St : Type}.
Variable GetSocketOptions : string -> slice (client.OptionFunc Config SocketOption).
Variable NewTalosClientConfig : resource.Resource TalosConfigSpec -> list string -> Config.
Variable LabelCluster : string.
Variable DefaultNamespace : string.
Variable hd : handler (talosCall (Config := Config) (SocketOption := SocketOption))
                (talosAnswer (TalosConfigSpec := TalosConfigSpec) (Client := Client)) St.

Local Abbreviation GetTalosClient :=
  (GetTalosClient GetSocketOptions NewTalosClientConfig LabelCluster DefaultNamespace (V := V)).
Local Abbreviation insecure address := (dial hd (insecureOptions GetSocketOptions address) (fun err => err)).

Lemma run_createInsecureClient (address : string) (s : St) :
  run hd (createInsecureClient GetSocketOptions address) s = insecure address s.
Proof.
  unfold createInsecureClient, dial, insecureOptions. cbn [bind call run].
  destruct (hd (client_New _) s) as [[c|err] s']; reflexivity.
Qed.

(** What a run of [GetTalosClient] does for a machine, by the answers of
the store and of the client factory. *)
Lemma run_GetTalosClient (address : string) (m : resource.Resource V) (s : St) :
  run hd (GetTalosClient address (Some m)) s
  = let md := resource.getMetadata m in
    let '(got, s1) := hd (GetMachineStatusSnapshot (resource.mdID md)) s in
    let withCluster :=
      match resource.mdLabels md !! LabelCluster with
      | None => insecure address s1
      | Some clusterName =>
          let '(cfg, s2) := hd (GetTalosConfig DefaultNamespace clusterName) s1 in
          after (GetTalosConfig DefaultNamespace clusterName)
            match cfg with
            | inr err =>
                if state.IsNotFoundError err then insecure address s2
                else Outcome
                       (Returns
                          (None,
                           Some (state.Errorf_w
                                   ("cluster '" +:+ clusterName
                                      +:+ "' failed to get talosconfig: ") err)))
                       s2 []
            | inl talosConfig =>
                dial hd (secureOptions GetSocketOptions NewTalosClientConfig address talosConfig)
                  (state.Errorf_w
                     ("failed to create client to machine '" +:+ resource.mdID md +:+ "': "))
                  s2
            end
      end in
    after (GetMachineStatusSnapshot (resource.mdID md))
      match got with
      | inr err =>
          if state.IsNotFoundError err then withCluster
          else Outcome (Returns (None, Some err)) s1 []
      | inl snapshot =>
          match omni.MachineStatus (resource.getSpec snapshot) with
          | None => Outcome (Panics "runtime error: invalid memory address or nil pointer dereference") s1 []
          | Some status =>
              if bool_decide (machine.Stage status = machine.MachineStatusEvent_MAINTENANCE)
              then insecure address s1
              else withCluster
          end
      end.
Proof.
  assert (Hcluster :
    forall s1,
      run hd
        match kvutils.Get (resource.mdLabels (resource.getMetadata m)) LabelCluster with
        | None => createInsecureClient GetSocketOptions address
        | Some clusterName =>
            got <- call (R := talosAnswer) (GetTalosConfig DefaultNamespace clusterName) ;;
            match got with
            | inr err =>
                if negb (state.IsNotFoundError err)
                then Ret (Returns
                            (None,
                             Some (state.Errorf_w
                                     ("cluster '" +:+ clusterName
                                        +:+ "' failed to get talosconfig: ") err)))
                else createInsecureClient GetSocketOptions address
            | inl talosConfig =>
                made <- call (R := talosAnswer)
                          (client_New
                             (elems (GetSocketOptions address)
                              ++ [client.WithConfig
                                    (NewTalosClientConfig talosConfig
                                       match GetSocketOptions address with
                                       | None => [address]
                                       | Some _ => []
                                       end)])) ;;
                match made with
                | inr err =>
                    Ret (Returns
                           (None,
                            Some (state.Errorf_w
                                    ("failed to create client to machine '"
                                       +:+ resource.mdID (resource.getMetadata m) +:+ "': ")
                                    err)))
                | inl result => Ret (Returns (Some result, None))
                end
            end
        end s1
      = match resource.mdLabels (resource.getMetadata m) !! LabelCluster with
        | None => insecure address s1
        | Some clusterName =>
            let '(cfg, s2) := hd (GetTalosConfig DefaultNamespace clusterName) s1 in
            after (GetTalosConfig DefaultNamespace clusterName)
              match cfg with
              | inr err =>
                  if state.IsNotFoundError err then insecure address s2
                  else Outcome
                         (Returns
                            (None,
                             Some (state.Errorf_w
                                     ("cluster '" +:+ clusterName
                                        +:+ "' failed to get talosconfig: ") err)))
                         s2 []
              | inl talosConfig =>
                  dial hd
                    (secureOptions GetSocketOptions NewTalosClientConfig address talosConfig)
                    (state.Errorf_w
                       ("failed to create client to machine '"
                          +:+ resource.mdID (resource.getMetadata m) +:+ "': "))
                    s2
              end
        end).
  { intros s1. unfold kvutils.Get.
    destruct (resource.mdLabels (resource.getMetadata m) !! LabelCluster) as [clusterName|];
      [|apply run_createInsecureClient].
    cbn [bind call run].
    destruct (hd (GetTalosConfig DefaultNamespace clusterName) s1) as [[talosConfig|err] s2].
    - cbn [bind run]. unfold dial, secureOptions.
      destruct (hd (client_New _) s2) as [[c|err] s3]; reflexivity.
    - destruct (state.IsNotFoundError err); cbn [negb];
        [rewrite run_createInsecureClient|]; reflexivity. }
  unfold helpers.GetTalosClient. cbn [bind call run]. cbv zeta.
  destruct (hd (GetMachineStatusSnapshot _) s) as [[snapshot|err] s1].
  - destruct (omni.MachineStatus (resource.getSpec snapshot)) as [status|]; [|reflexivity].
    destruct (bool_decide _);
      [rewrite run_createInsecureClient | rewrite Hcluster]; reflexivity.
  - destruct (state.IsNotFoundError err); cbn [negb]; [rewrite Hcluster|]; reflexivity.
Qed.

(** The ladder of [GetTalosClient] where the read of the stage does not
panic, first match wins: without a machine resource the client is insecure
([client.New] with TLS verification skipped and the address as endpoint);
so it is for a machine whose status snapshot reports the stage
MAINTENANCE; otherwise (no snapshot, or another stage) so it is for a
machine without the cluster label, and for a machine with the label whose
TalosConfig is not found; and otherwise the client is built with the
configuration made from the TalosConfig of the cluster. *)
Theorem GetTalosClient_ladder (address : string) (m : resource.Resource V) (s : St) :
  let md := resource.getMetadata m in
  let snapshotCall := GetMachineStatusSnapshot (resource.mdID md) in
  let got := fst (hd snapshotCall s) in
  let s1 := snd (hd snapshotCall s) in
  run hd (GetTalosClient address None) s = insecure address s
  /\ (forall snapshot status,
        got = inl snapshot ->
        omni.MachineStatus (resource.getSpec snapshot) = Some status ->
        machine.Stage status = machine.MachineStatusEvent_MAINTENANCE ->
        run hd (GetTalosClient address (Some m)) s
        = after snapshotCall (insecure address s1))
  /\ (notMaintenance got ->
      resource.mdLabels md !! LabelCluster = None ->
      run hd (GetTalosClient address (Some m)) s
      = after snapshotCall (insecure address s1))
  /\ (notMaintenance got ->
      forall clusterName, resource.mdLabels md !! LabelCluster = Some clusterName ->
      let configCall := GetTalosConfig DefaultNamespace clusterName in
      let cfg := fst (hd configCall s1) in
      let s2 := snd (hd configCall s1) in
      (forall err, cfg = inr err -> state.IsNotFoundError err = true ->
         run hd (GetTalosClient address (Some m)) s
         = after snapshotCall (after configCall (insecure address s2)))
      /\ (forall talosConfig, cfg = inl talosConfig ->
            run hd (GetTalosClient address (Some m)) s
            = after snapshotCall
                (after configCall
                   (dial hd
                      (secureOptions GetSocketOptions NewTalosClientConfig address talosConfig)
                      (state.Errorf_w
                         ("failed to create client to machine '"
                            +:+ resource.mdID md +:+ "': "))
                      s2)))).
Proof.
  intros md snapshotCall got s1.
  split; [apply run_createInsecureClient|].
  rewrite run_GetTalosClient. cbv zeta. fold md snapshotCall.
  subst got s1. destruct (hd snapshotCall s) as [got s1]. cbn [fst snd].
  assert (Hskip : forall X (a b : X), notMaintenance got ->
            match got with
            | inr err => if state.IsNotFoundError err then a else b
            | inl snapshot =>
                match omni.MachineStatus (resource.getSpec snapshot) with
                | None => b
                | Some status =>
                    if bool_decide
                         (machine.Stage status = machine.MachineStatusEvent_MAINTENANCE)
                    then b else a
                end
            end = a).
  { intros X a b Hnm. destruct got as [snapshot|err]; cbn in Hnm.
    - destruct Hnm as (status & -> & Hstage).
      rewrite bool_decide_eq_false_2 by exact Hstage. reflexivity.
    - rewrite Hnm. reflexivity. }
  split; [|split].
  - intros snapshot status -> -> Hstage.
    rewrite bool_decide_eq_true_2 by exact Hstage. reflexivity.
  - intros Hnm Hlabel. rewrite Hlabel.
    destruct got as [snapshot|err]; cbn in Hnm.
    + destruct Hnm as (status & -> & Hstage).
      rewrite bool_decide_eq_false_2 by exact Hstage. reflexivity.
    + rewrite Hnm. reflexivity.
  - intros Hnm clusterName Hlabel. rewrite Hlabel. cbv zeta.
    destruct (hd (GetTalosConfig DefaultNamespace clusterName) s1) as [cfg s2].
    cbn [fst snd]. split.
    + intros err -> Herr. rewrite Herr.
      destruct got as [snapshot|err0]; cbn in Hnm.
      * destruct Hnm as (status & -> & Hstage).
        rewrite bool_decide_eq_false_2 by exact Hstage. reflexivity.
      * rewrite Hnm. reflexivity.
    + intros talosConfig ->.
      destruct got as [snapshot|err0]; cbn in Hnm.
      * destruct Hnm as (status & -> & Hstage).
        rewrite bool_decide_eq_false_2 by exact Hstage. reflexivity.
      * rewrite Hnm. reflexivity.
Qed.

(** C7 (amended): a failure of the snapshot lookup other than not-found
aborts the call with the error of the store as it is, without a client
being built; such a failure of the TalosConfig lookup aborts it with an
error that wraps the error of the store and names the cluster; and a
failure of the final client construction is returned wrapped in an error
that names the machine id. *)
Theorem GetTalosClient_errors (address : string) (m : resource.Resource V) (s : St) :
  let md := resource.getMetadata m in
  let snapshotCall := GetMachineStatusSnapshot (resource.mdID md) in
  let got := fst (hd snapshotCall s) in
  let s1 := snd (hd snapshotCall s) in
  let o := run hd (GetTalosClient address (Some m)) s in
  (forall err, got = inr err -> state.IsNotFoundError err = false ->
     o = Outcome (Returns (None, Some err)) s1 [snapshotCall])
  /\ (notMaintenance got ->
      forall clusterName, resource.mdLabels md !! LabelCluster = Some clusterName ->
      let configCall := GetTalosConfig DefaultNamespace clusterName in
      let cfg := fst (hd configCall s1) in
      let s2 := snd (hd configCall s1) in
      (forall err, cfg = inr err -> state.IsNotFoundError err = false ->
         let wrapped :=
           state.Errorf_w ("cluster '" +:+ clusterName +:+ "' failed to get talosconfig: ")
                          err in
         o = Outcome (Returns (None, Some wrapped)) s2 [snapshotCall; configCall]
         /\ Contains (state.Error wrapped) clusterName = true)
      /\ (forall talosConfig, cfg = inl talosConfig ->
          let opts := secureOptions GetSocketOptions NewTalosClientConfig address talosConfig in
          forall err, fst (hd (client_New opts) s2) = inr err ->
          let wrapped :=
            state.Errorf_w ("failed to create client to machine '"
                              +:+ resource.mdID md +:+ "': ") err in
          o = Outcome (Returns (None, Some wrapped)) (snd (hd (client_New opts) s2))
                [snapshotCall; configCall; client_New opts]
          /\ Contains (state.Error wrapped) (resource.mdID md) = true)).
Proof.
  intros md snapshotCall got s1 o.
  split.
  - intros err Hgot Herr. subst o. rewrite run_GetTalosClient. cbv zeta.
    fold md snapshotCall. subst got s1.
    destruct (hd snapshotCall s) as [got s1]. cbn [fst snd] in *. subst got.
    rewrite Herr. reflexivity.
  - intros Hnm clusterName Hlabel configCall cfg s2. split.
    + intros err Hcfg Herr wrapped. split.
      * subst o. rewrite run_GetTalosClient. cbv zeta. fold md snapshotCall.
        subst got s1 cfg s2. destruct (hd snapshotCall s) as [got s1]. cbn [fst snd] in *.
        rewrite Hlabel. fold configCall.
        destruct (hd configCall s1) as [cfg s2]. cbn [fst snd] in *. subst cfg.
        rewrite Herr.
        destruct got as [snapshot|err0]; cbn in Hnm.
        -- destruct Hnm as (status & -> & Hstage).
           rewrite bool_decide_eq_false_2 by exact Hstage. reflexivity.
        -- rewrite Hnm. reflexivity.
      * subst wrapped. unfold state.Errorf_w. cbn [state.Error].
        replace (("cluster '" +:+ clusterName +:+ "' failed to get talosconfig: ")
                   +:+ state.Error err)
          with ("cluster '" +:+ clusterName
                  +:+ ("' failed to get talosconfig: " +:+ state.Error err)).
        -- apply Contains_app.
        -- rewrite <- !append_assoc. reflexivity.
    + intros talosConfig Hcfg opts err Hnew wrapped. split.
      * subst o. rewrite run_GetTalosClient. cbv zeta. fold md snapshotCall.
        subst got s1 cfg s2. destruct (hd snapshotCall s) as [got s1]. cbn [fst snd] in *.
        rewrite Hlabel. fold configCall.
        destruct (hd configCall s1) as [cfg s2]. cbn [fst snd] in *. subst cfg.
        unfold dial. fold opts.
        destruct (hd (client_New opts) s2) as [made s3]. cbn [fst snd] in *. subst made.
        destruct got as [snapshot|err0]; cbn in Hnm.
        -- destruct Hnm as (status & -> & Hstage).
           rewrite bool_decide_eq_false_2 by exact Hstage. reflexivity.
        -- rewrite Hnm. reflexivity.
      * subst wrapped. unfold state.Errorf_w. cbn [state.Error].
        replace (("failed to create client to machine '" +:+ resource.mdID md +:+ "': ")
                   +:+ state.Error err)
          with ("failed to create client to machine '" +:+ resource.mdID md
                  +:+ ("': " +:+ state.Error err)).
        -- apply Contains_app.
        -- rewrite <- !append_assoc. reflexivity.
Qed.

End WithEnvironment.

Lemma GetTalosClient_ladder_witness :
  returned (run sample.empty (sample.GetTalosClient "10.5.0.2" (Some sample.machine1)) tt)
  = Returns (Some [client.WithTLSConfig (client.mkTLSConfig true);
                   client.WithEndpoints ["10.5.0.2"%string]], None).
Proof.
  destruct (GetTalosClient_ladder (V := unit) sample.GetSocketOptions
              sample.NewTalosClientConfig sample.LabelCluster sample.DefaultNamespace
              sample.empty "10.5.0.2" sample.machine1 tt)
    as (_ & _ & _ & Hlabel).
  destruct (Hlabel eq_refl "c1"%string eq_refl) as [Habsent _].
  unfold sample.GetTalosClient. rewrite (Habsent (state.errNotFound "not found") eq_refl eq_refl).
  reflexivity.
Defined.

(** C7 (as stated, refuted): when the snapshot lookup for the machine [m1]
of the cluster [c1] fails, the call returns the error of the store as it
is; its text names neither the machine nor the cluster. *)
Lemma snapshot_failure_not_wrapped :
  exists err,
    returned (run sample.unreachable
                (sample.GetTalosClient "10.5.0.2" (Some sample.machine1)) tt)
    = Returns (None, Some err)
    /\ err = state.errOther "connection refused"
    /\ Contains (state.Error err) "m1" = false
    /\ Contains (state.Error err) "c1" = false.
Proof. eexists. repeat split. Qed.

Lemma GetTalosClient_errors_witness :
  returned (run sample.configUnreachable
              (sample.GetTalosClient "10.5.0.2" (Some sample.machine1)) tt)
  = Returns
      (None,
       Some (state.errWrap "cluster 'c1' failed to get talosconfig: connection refused"
               (state.errOther "connection refused"))).
Proof.
  destruct (GetTalosClient_errors (V := unit) sample.GetSocketOptions
              sample.NewTalosClientConfig sample.LabelCluster sample.DefaultNamespace
              sample.configUnreachable "10.5.0.2" sample.machine1 tt) as [_ Hconfig].
  destruct (Hconfig eq_refl "c1"%string eq_refl) as [Hfailed _].
  destruct (Hfailed (state.errOther "connection refused") eq_refl eq_refl) as [Hrun _].
  unfold sample.GetTalosClient. rewrite Hrun. reflexivity.
Defined.

(** A status snapshot without machine status makes the read of its stage a
nil pointer dereference. *)
Example GetTalosClient_statusless_panics :
  returned (run sample.statusless
              (sample.GetTalosClient "10.5.0.2" (Some sample.machine1)) tt)
  = Panics "runtime error: invalid memory address or nil pointer dereference".
Proof. reflexivity. Qed.

(** C2 (code defect): the machine [m0] has no cluster label, so the ladder
gives it an insecure client, and so does the code when the store has no
snapshot of it.  When the store has a snapshot of it that carries no
machine status, the read of the stage is a nil pointer dereference: the
call panics after the lookup of the snapshot and makes no client. *)
Lemma GetTalosClient_unlabelled_statusless_panics :
  let insecure : list sample.Option_ :=
    [client.WithTLSConfig (client.mkTLSConfig true);
     client.WithEndpoints ["10.5.0.2"%string]] in
  resource.mdLabels (resource.getMetadata sample.machine0) !! sample.LabelCluster = None
  /\ run sample.empty (sample.GetTalosClient "10.5.0.2" (Some sample.machine0)) tt
     = Outcome (Returns (Some insecure, None)) tt
         [GetMachineStatusSnapshot "m0"; client_New insecure]
  /\ run sample.statusless (sample.GetTalosClient "10.5.0.2" (Some sample.machine0)) tt
     = Outcome (Panics "runtime error: invalid memory address or nil pointer dereference")
         tt [GetMachineStatusSnapshot "m0"].
Proof. repeat split. Qed.

End TalosFacts.

(** ** SetPatchesCompress *)
Module PatchFacts.
Import helpers PatchSpec.

Section WithCodec.

Variable GetUncompressedData : ConfigPatchSpec -> bytes + state.error.
Variable SetUncompressedData : bytes -> ConfigPatchSpec -> ConfigPatchSpec * option state.error.
Variable TrimSpace : bytes -> bytes.

Local Abbreviation IsEmptyPatch := (helpers.IsEmptyPatch GetUncompressedData TrimSpace).
Local Abbreviation getCompressed :=
  (helpers.getCompressed GetUncompressedData SetUncompressedData TrimSpace).
Local Abbreviation SetPatchesCompress :=
  (helpers.SetPatchesCompress GetUncompressedData SetUncompressedData TrimSpace).
Local Abbreviation canonical := (PatchSpec.canonical GetUncompressedData SetUncompressedData).
Local Abbreviation failure :=
  (PatchSpec.failure GetUncompressedData SetUncompressedData TrimSpace).
Local Abbreviation appended := (PatchSpec.appended GetUncompressedData TrimSpace).
Local Abbreviation settled :=
  (PatchSpec.settled GetUncompressedData SetUncompressedData TrimSpace).

Implicit Types (h : ptr -> ConfigPatchSpec) (res : ClusterMachineConfigPatchesSpec).

Lemma store_same {A : Type} (p : ptr) (a : A) (f : ptr -> A) : store p a f p = a.
Proof. unfold store. destruct (Nat.eq_dec p p); [reflexivity | contradiction]. Qed.

Lemma store_other {A : Type} (p q : ptr) (a : A) (f : ptr -> A) :
  q <> p -> store p a f q = f q.
Proof. intros Hq. unfold store. destruct (Nat.eq_dec q p); [contradiction | reflexivity]. Qed.

(** One iteration of the loop. *)
Lemma SetPatchesCompress_cons res (patch : ptr) (patches : list ptr) h :
  SetPatchesCompress res (patch :: patches) h
  = let r := getCompressed patch h in
    match snd (fst r) with
    | Some err => (Some err, res, snd r)
    | None =>
        SetPatchesCompress
          match appended (fst (fst r)) (snd r patch) with
          | None => res
          | Some data => mkClusterMachineConfigPatchesSpec (CompressedPatches res ++ [data])
          end patches (snd r)
    end.
Proof.
  cbn [helpers.SetPatchesCompress]. cbv zeta.
  destruct (getCompressed patch h) as [[compr [err|]] h1]; cbn [fst snd]; [reflexivity|].
  destruct compr as [data|]; cbn [PatchSpec.appended]; [|reflexivity].
  destruct ((length data <? 1024)%nat && IsEmptyPatch (h1 patch)); reflexivity.
Qed.

(** [getCompressed] answers the error of the patch and writes to no other
patch; it leaves alone an empty patch and a patch that carries a compressed
representation, which it returns as it is. *)
Lemma getCompressed_frame (patch : ptr) h :
  snd (fst (getCompressed patch h)) = failure (h patch)
  /\ (forall q, q <> patch -> snd (getCompressed patch h) q = h q)
  /\ (IsEmptyPatch (h patch) = true -> getCompressed patch h = ((None, None), h))
  /\ (IsEmptyPatch (h patch) = false -> (0 < len (CompressedData (h patch)))%nat ->
      getCompressed patch h = ((CompressedData (h patch), None), h)).
Proof.
  unfold helpers.getCompressed, PatchSpec.failure.
  destruct (IsEmptyPatch (h patch)) eqn:Hempty.
  { repeat split; try reflexivity; discriminate. }
  destruct (0 <? len (CompressedData (h patch)))%nat eqn:Hlen.
  { repeat split; try reflexivity; discriminate. }
  apply Nat.ltb_ge in Hlen.
  destruct (GetUncompressedData (h patch)) as [buffer|err].
  - destruct (SetUncompressedData buffer (h patch)) as [spec [err|]]; cbn [fst snd];
      (split; [reflexivity|]); (split; [intros q Hq; apply store_other; exact Hq|]);
      (split; [discriminate | intros _ Hpos; lia]).
  - cbn [fst snd]. split; [reflexivity|]. split; [reflexivity|].
    split; [discriminate | intros _ Hpos; lia].
Qed.


Lemma IsEmptyPatch_true (patch : ConfigPatchSpec) :
  IsEmptyPatch patch = true
  <-> exists data, GetUncompressedData patch = inl data /\ TrimSpace data = [].
Proof.
  unfold helpers.IsEmptyPatch. destruct (GetUncompressedData patch) as [data|err].
  - rewrite Nat.eqb_eq. split.
    + intros Hlen. exists data. split; [reflexivity|].
      destruct (TrimSpace data); [reflexivity | discriminate].
    + intros (data' & [= <-] & ->). reflexivity.
  - split; [discriminate | intros (data & Hd & _); discriminate].
Qed.

Section Sound.

Hypothesis compresses : compressesToBytes GetUncompressedData SetUncompressedData.
Hypothesis reads_back : roundTrips GetUncompressedData SetUncompressedData.

(** When the patch does not fail: what the iteration appends, and the
patches it leaves. *)
Lemma getCompressed_settled (patch : ptr) h :
  failure (h patch) = None ->
  let r := getCompressed patch h in
  snd (fst r) = None
  /\ appended (fst (fst r)) (snd r patch)
     = (if IsEmptyPatch (h patch) then None else Some (canonical (h patch)))
  /\ settled h (snd r).
Proof.
  intros Hok r.
  destruct (getCompressed_frame patch h) as (Herr & Hframe & Hempty & Hcarried).
  fold r in Herr, Hframe. split; [congruence|].
  assert (Hrefl : settled h h) by (intros q; repeat split).
  destruct (IsEmptyPatch (h patch)) eqn:He.
  { subst r. rewrite (Hempty eq_refl). cbn [fst snd PatchSpec.appended].
    split; [reflexivity | exact Hrefl]. }
  destruct (0 <? len (CompressedData (h patch)))%nat eqn:Hlen.
  { apply Nat.ltb_lt in Hlen. subst r. rewrite (Hcarried eq_refl Hlen).
    cbn [fst snd]. split; [|exact Hrefl].
    unfold PatchSpec.canonical. apply Nat.ltb_lt in Hlen. rewrite Hlen.
    destruct (CompressedData (h patch)) as [data|]; [|discriminate].
    cbn [PatchSpec.appended elems]. rewrite He, andb_false_r. reflexivity. }
  assert (Hcanon := eq_refl (canonical (h patch))).
  unfold PatchSpec.canonical in Hcanon at 2. rewrite Hlen in Hcanon.
  pose proof Hok as Hfail.
  unfold PatchSpec.failure in Hok. rewrite He, Hlen in Hok.
  subst r. unfold helpers.getCompressed in *. rewrite He, Hlen in *.
  pose proof He as Hdata. unfold helpers.IsEmptyPatch in Hdata.
  destruct (GetUncompressedData (h patch)) as [data|err] eqn:Hget; [|discriminate].
  pose proof (compresses (h patch) data Hget Hok) as Hpos.
  pose proof (reads_back (h patch) data Hget Hok) as Hback.
  destruct (SetUncompressedData data (h patch)) as [spec err]. cbn [fst snd] in *.
  subst err. cbn [fst snd]. rewrite !store_same.
  assert (Hspec_empty : IsEmptyPatch spec = false).
  { unfold helpers.IsEmptyPatch. rewrite Hback. exact Hdata. }
  assert (Hspec_len : (0 <? len (CompressedData spec))%nat = true)
    by (apply Nat.ltb_lt; exact Hpos).
  split.
  - rewrite Hcanon. destruct (CompressedData spec) as [compr|]; [|cbn in Hpos; lia].
    cbn [PatchSpec.appended elems]. rewrite Hspec_empty, andb_false_r. reflexivity.
  - intros q. destruct (Nat.eq_dec q patch) as [->|Hq].
    + rewrite store_same. split; [congruence|]. split; [|split].
      * rewrite Hcanon. unfold PatchSpec.canonical. rewrite Hspec_len. reflexivity.
      * rewrite Hfail. unfold PatchSpec.failure.
        rewrite Hspec_empty, Hspec_len. reflexivity.
      * apply Nat.ltb_ge in Hlen. intros [Hc|Hc]; [congruence | lia].
    + rewrite store_other by exact Hq. repeat split.
Qed.

Lemma settled_trans h h1 h2 : settled h h1 -> settled h1 h2 -> settled h h2.
Proof.
  intros H1 H2 q. destruct (H1 q) as (E1 & C1 & F1 & U1), (H2 q) as (E2 & C2 & F2 & U2).
  split; [congruence|]. split; [congruence|]. split; [congruence|].
  intros Hc. rewrite U2, U1; [reflexivity | exact Hc |].
  rewrite (U1 Hc). exact Hc.
Qed.

(** The whole loop when no patch fails. *)
Lemma SetPatchesCompress_ok (patches : list ptr) res h :
  Forall (fun patch => failure (h patch) = None) patches ->
  exists h',
    SetPatchesCompress res patches h
    = (None,
       mkClusterMachineConfigPatchesSpec
         (CompressedPatches res
          ++ map (fun patch => canonical (h patch))
               (filter (fun patch => IsEmptyPatch (h patch) = false) patches)),
       h')
    /\ settled h h'.
Proof.
  intros Hok. revert res h Hok.
  induction patches as [|patch patches IH]; intros res h Hok.
  - exists h. cbn. rewrite app_nil_r. destruct res. split; [reflexivity|].
    intros q. repeat split.
  - apply Forall_cons in Hok as [Hpatch Hok].
    destruct (getCompressed_settled patch h Hpatch) as (Herr & Happ & Hset).
    rewrite SetPatchesCompress_cons. cbv zeta. rewrite Herr, Happ.
    assert (Hok1 : Forall (fun q => failure (snd (getCompressed patch h) q) = None) patches).
    { eapply Forall_impl; [exact Hok|]. intros q Hq. cbn beta.
      destruct (Hset q) as (_ & _ & -> & _). exact Hq. }
    assert (Hsame :
      map (fun q => canonical (snd (getCompressed patch h) q))
        (filter (fun q => IsEmptyPatch (snd (getCompressed patch h) q) = false) patches)
      = map (fun q => canonical (h q))
          (filter (fun q => IsEmptyPatch (h q) = false) patches)).
    { clear -Hset. induction patches as [|q patches IHp]; [reflexivity|].
      destruct (Hset q) as (He & Hc & _).
      rewrite !filter_cons, He.
      destruct (decide (IsEmptyPatch (h q) = false)); cbn [map]; congruence. }
    rewrite filter_cons.
    destruct (IsEmptyPatch (h patch)) eqn:He.
    + destruct (IH res _ Hok1) as (h' & Hrun & Hset').
      exists h'. rewrite Hrun, Hsame.
      rewrite decide_False by discriminate.
      split; [reflexivity | eapply settled_trans; eassumption].
    + destruct (IH (mkClusterMachineConfigPatchesSpec
                      (CompressedPatches res ++ [canonical (h patch)])) _ Hok1)
        as (h' & Hrun & Hset').
      exists h'. rewrite Hrun, Hsame.
      rewrite decide_True by reflexivity. cbn [CompressedPatches map].
      rewrite <- app_assoc. split; [reflexivity | eapply settled_trans; eassumption].
Qed.

(** The whole loop when a patch fails. *)
Lemma SetPatchesCompress_fails (done : list ptr) (patch : ptr) (rest : list ptr)
    res h (err : state.error) :
  Forall (fun q => failure (h q) = None) done ->
  failure (h patch) = Some err ->
  exists h',
    SetPatchesCompress res (done ++ patch :: rest) h
    = (Some err,
       mkClusterMachineConfigPatchesSpec
         (CompressedPatches res
          ++ map (fun q => canonical (h q))
               (filter (fun q => IsEmptyPatch (h q) = false) done)),
       h').
Proof.
  intros Hok. revert res h Hok.
  induction done as [|d done IH]; intros res h Hok Hfail.
  - cbn [app]. rewrite SetPatchesCompress_cons. cbv zeta.
    destruct (getCompressed_frame patch h) as (Herr & _). rewrite Herr, Hfail.
    eexists. cbn. rewrite app_nil_r. destruct res. reflexivity.
  - apply Forall_cons in Hok as [Hd Hok].
    destruct (getCompressed_settled d h Hd) as (Herr & Happ & Hset).
    cbn [app]. rewrite SetPatchesCompress_cons. cbv zeta. rewrite Herr, Happ.
    assert (Hok1 : Forall (fun q => failure (snd (getCompressed d h) q) = None) done).
    { eapply Forall_impl; [exact Hok|]. intros q Hq. cbn beta.
      destruct (Hset q) as (_ & _ & -> & _). exact Hq. }
    assert (Hfail1 : failure (snd (getCompressed d h) patch) = Some err).
    { destruct (Hset patch) as (_ & _ & -> & _). exact Hfail. }
    assert (Hsame :
      map (fun q => canonical (snd (getCompressed d h) q))
        (filter (fun q => IsEmptyPatch (snd (getCompressed d h) q) = false) done)
      = map (fun q => canonical (h q))
          (filter (fun q => IsEmptyPatch (h q) = false) done)).
    { clear -Hset. induction done as [|q done IHd]; [reflexivity|].
      destruct (Hset q) as (He & Hc & _).
      rewrite !filter_cons, He.
      destruct (decide (IsEmptyPatch (h q) = false)); cbn [map]; congruence. }
    rewrite filter_cons.
    destruct (IsEmptyPatch (h d)) eqn:He.
    + destruct (IH res _ Hok1 Hfail1) as (h' & Hrun).
      exists h'. rewrite Hrun, Hsame. rewrite decide_False by discriminate. reflexivity.
    + destruct (IH (mkClusterMachineConfigPatchesSpec
                      (CompressedPatches res ++ [canonical (h d)])) _ Hok1 Hfail1)
        as (h' & Hrun).
      exists h'. rewrite Hrun, Hsame. rewrite decide_True by reflexivity.
      cbn [CompressedPatches map]. rewrite <- app_assoc. reflexivity.
Qed.

End Sound.

End WithCodec.

Lemma stored_compresses :
  compressesToBytes stored.GetUncompressedData stored.SetUncompressedData.
Proof. intros patch data _ _. cbn. lia. Qed.

Lemma stored_roundTrips : roundTrips stored.GetUncompressedData stored.SetUncompressedData.
Proof. intros patch data _ _. reflexivity. Qed.

(** C8 (as stated, refuted): the compressed representation of patch 4 cannot
be decompressed, and yet [SetPatchesCompress] returns no error and appends
the representation as it is. *)
Lemma decompression_failure_not_returned :
  stored.GetUncompressedData (stored.patches 4)
  = inr (state.errOther "invalid input: magic number mismatch")
  /\ fst (stored.SetPatchesCompress (mkClusterMachineConfigPatchesSpec []) [4]
            stored.patches)
     = (None, mkClusterMachineConfigPatchesSpec [[1; 2; 3]%Z]).
Proof. split; reflexivity. Qed.

End PatchFacts.

(** ** Copies of labels and annotations *)
Module CopyFacts.
Import helpers.

Lemma setLoop_lookup (entries : list (string * string)) (tmp : gmap string string)
    (k : string) :
  NoDup entries.*1 ->
  setLoop entries tmp !! k
  = match (list_to_map entries : gmap string string) !! k with
    | Some v => Some v
    | None => tmp !! k
    end.
Proof.
  unfold setLoop. revert tmp.
  induction entries as [|[k0 v0] entries IH]; intros tmp Hnd; simpl.
  - rewrite lookup_empty. reflexivity.
  - apply NoDup_cons in Hnd as [Hk0 Hnd]. rewrite IH by exact Hnd. clear IH.
    unfold kvutils.Set_. destruct (decide (k = k0)) as [->|Hne].
    + rewrite lookup_insert_eq, (not_elem_of_list_to_map_1 entries k0 Hk0), lookup_insert_eq.
      reflexivity.
    + rewrite !lookup_insert_ne by congruence. reflexivity.
Qed.

(** The map left by the loop over all entries of [src], in any order. *)
Lemma setLoop_union (entries : list (string * string)) (src tmp : gmap string string) :
  entries ≡ₚ map_to_list src -> setLoop entries tmp = src ∪ tmp.
Proof.
  intros Hperm. apply map_eq. intros k.
  rewrite setLoop_lookup by (rewrite Hperm; apply NoDup_fst_map_to_list).
  assert (Hmap : (list_to_map entries : gmap string string) = src).
  { symmetry. apply list_to_map_flip. symmetry. exact Hperm. }
  rewrite Hmap, lookup_union. destruct (src !! k), (tmp !! k); reflexivity.
Qed.

Lemma pickLoop_lookup (src : gmap string string) (keys : list string)
    (tmp : gmap string string) (k : string) :
  pickLoop src keys tmp !! k
  = if decide (k ∈ keys)
    then match src !! k with Some v => Some v | None => tmp !! k end
    else tmp !! k.
Proof.
  unfold pickLoop. revert tmp.
  induction keys as [|k0 keys IH]; intros tmp; simpl.
  - reflexivity.
  - rewrite IH. clear IH. unfold kvutils.Get, kvutils.Set_.
    destruct (decide (k = k0)) as [->|Hne].
    + rewrite (decide_True (P := k0 ∈ k0 :: keys)) by apply list_elem_of_here.
      destruct (src !! k0) as [v|] eqn:Hv.
      * rewrite lookup_insert_eq. destruct (decide (k0 ∈ keys)); reflexivity.
      * destruct (decide (k0 ∈ keys)); reflexivity.
    + assert (Hmem : k ∈ k0 :: keys <-> k ∈ keys).
      { rewrite elem_of_cons. split; [intros [?|?]; [contradiction | assumption] | auto]. }
      assert (Htmp : (match src !! k0 with
                      | Some label => <[k0:=label]> tmp
                      | None => tmp
                      end) !! k = tmp !! k).
      { destruct (src !! k0); [apply lookup_insert_ne; congruence | reflexivity]. }
      rewrite Htmp.
      destruct (decide (k ∈ keys)) as [Hin|Hin].
      * rewrite decide_True by (apply Hmem; exact Hin). reflexivity.
      * rewrite decide_False by (rewrite Hmem; exact Hin). reflexivity.
Qed.

Lemma withMetadata_setLabels_id {P : Type} (r : resource.Resource P) :
  resource.withMetadata
    (resource.setLabels (resource.mdLabels (resource.getMetadata r)) (resource.getMetadata r)) r
  = r.
Proof. destruct r as [[] ?]. reflexivity. Qed.

Lemma setLabels_setLabels {P : Type} (a b : gmap string string) (r : resource.Resource P) :
  resource.withMetadata
    (resource.setLabels a
       (resource.getMetadata
          (resource.withMetadata (resource.setLabels b (resource.getMetadata r)) r)))
    (resource.withMetadata (resource.setLabels b (resource.getMetadata r)) r)
  = resource.withMetadata (resource.setLabels a (resource.getMetadata r)) r.
Proof. reflexivity. Qed.

(** X1: [CopyAllLabels] leaves on the target the labels of the source
together with those labels of the target whose key the source does not
have, the source winning on a shared key; nothing else of the target
changes, the order in which Go visits the source map does not matter, and
copying a second time changes nothing. *)
Theorem CopyAllLabels_union {P Q : Type} (entries : list (string * string))
    (src : resource.Resource P) (dst : resource.Resource Q) :
  entries ≡ₚ map_to_list (resource.mdLabels (resource.getMetadata src)) ->
  CopyAllLabels_in entries src dst
  = resource.withMetadata
      (resource.setLabels
         (resource.mdLabels (resource.getMetadata src)
          ∪ resource.mdLabels (resource.getMetadata dst))
         (resource.getMetadata dst)) dst
  /\ CopyAllLabels_in entries src dst = CopyAllLabels src dst
  /\ CopyAllLabels src (CopyAllLabels src dst) = CopyAllLabels src dst.
Proof.
  intros Hperm.
  assert (Hany : forall (R : Type) (d : resource.Resource R) ents,
             ents ≡ₚ map_to_list (resource.mdLabels (resource.getMetadata src)) ->
             CopyAllLabels_in ents src d
             = resource.withMetadata
                 (resource.setLabels
                    (resource.mdLabels (resource.getMetadata src)
                     ∪ resource.mdLabels (resource.getMetadata d))
                    (resource.getMetadata d)) d).
  { intros R d ents Hents. unfold CopyAllLabels_in, kvutils.Do.
    rewrite (setLoop_union ents _ _ Hents). reflexivity. }
  split; [apply Hany; exact Hperm|]. split.
  - unfold CopyAllLabels. rewrite !Hany by (exact Hperm || reflexivity). reflexivity.
  - unfold CopyAllLabels. rewrite !Hany by reflexivity.
    rewrite setLabels_setLabels. do 2 f_equal. cbn.
    apply map_eq. intros k. rewrite !lookup_union.
    destruct (resource.mdLabels (resource.getMetadata src) !! k),
      (resource.mdLabels (resource.getMetadata dst) !! k); reflexivity.
Qed.

Lemma CopyAllLabels_union_witness :
  resource.mdLabels
    (resource.getMetadata
       (CopyAllLabels
          (resource.mkResource
             (resource.mkMetadata "default" "A" "a" (Some 1%N) resource.PhaseRunning []
                {[ "k" := "new"; "s" := "1" ]}%string ∅) tt)
          (resource.mkResource
             (resource.mkMetadata "default" "B" "b" (Some 1%N) resource.PhaseRunning []
                {[ "k" := "old"; "d" := "2" ]}%string ∅) tt)))
  = ({[ "k" := "new"; "s" := "1" ]} ∪ {[ "k" := "old"; "d" := "2" ]})%string.
Proof.
  unfold CopyAllLabels.
  destruct (CopyAllLabels_union
              (map_to_list ({[ "k" := "new"; "s" := "1" ]}%string : gmap string string))
              (resource.mkResource
                 (resource.mkMetadata "default" "A" "a" (Some 1%N) resource.PhaseRunning []
                    {[ "k" := "new"; "s" := "1" ]}%string ∅) tt)
              (resource.mkResource
                 (resource.mkMetadata "default" "B" "b" (Some 1%N) resource.PhaseRunning []
                    {[ "k" := "old"; "d" := "2" ]}%string ∅) tt))
    as [Hunion _]; [reflexivity|].
  cbn [kvutils.Raw resource.getMetadata resource.mdLabels] in *.
  rewrite Hunion. reflexivity.
Defined.

(** X2: after [CopyLabels], a listed key that the source has carries the
value of the source; a listed key that the source does not have keeps
whatever the target had (it is not removed); a key that is not listed is
untouched; and nothing but the labels of the target changes. *)
Theorem CopyLabels_lookup {P Q : Type} (src : resource.Resource P)
    (dst : resource.Resource Q) (keys : list string) :
  let after := resource.mdLabels (resource.getMetadata (CopyLabels src dst keys)) in
  let from := resource.mdLabels (resource.getMetadata src) in
  let before := resource.mdLabels (resource.getMetadata dst) in
  (forall k v, k ∈ keys -> from !! k = Some v -> after !! k = Some v)
  /\ (forall k, k ∈ keys -> from !! k = None -> after !! k = before !! k)
  /\ (forall k, k ∉ keys -> after !! k = before !! k)
  /\ CopyLabels src dst keys
     = resource.withMetadata (resource.setLabels after (resource.getMetadata dst)) dst.
Proof.
  intros after from before.
  assert (Hlook : forall k, after !! k
            = if decide (k ∈ keys)
              then match from !! k with Some v => Some v | None => before !! k end
              else before !! k).
  { intros k. apply pickLoop_lookup. }
  split; [intros k v Hin Hv; rewrite Hlook, decide_True, Hv by exact Hin; reflexivity|].
  split; [intros k Hin Hv; rewrite Hlook, decide_True, Hv by exact Hin; reflexivity|].
  split; [intros k Hin; rewrite Hlook, decide_False by exact Hin; reflexivity|].
  reflexivity.
Qed.

Lemma CopyLabels_lookup_witness :
  resource.mdLabels
    (resource.getMetadata
       (CopyLabels
          (resource.mkResource
             (resource.mkMetadata "default" "A" "a" (Some 1%N) resource.PhaseRunning []
                {[ "k" := "new" ]}%string ∅) tt)
          (resource.mkResource
             (resource.mkMetadata "default" "B" "b" (Some 1%N) resource.PhaseRunning []
                {[ "gone" := "kept" ]}%string ∅) tt)
          ["k"; "gone"]%string))
  !! "gone"%string = Some "kept"%string.
Proof.
  destruct (CopyLabels_lookup
              (resource.mkResource
                 (resource.mkMetadata "default" "A" "a" (Some 1%N) resource.PhaseRunning []
                    {[ "k" := "new" ]}%string ∅) tt)
              (resource.mkResource
                 (resource.mkMetadata "default" "B" "b" (Some 1%N) resource.PhaseRunning []
                    {[ "gone" := "kept" ]}%string ∅) tt)
              ["k"; "gone"]%string) as (_ & Hmissing & _).
  rewrite Hmissing; [reflexivity | | reflexivity].
  apply elem_of_cons. right. apply list_elem_of_here.
Defined.

(** X3: [CopyAllLabels] does what [CopyLabels] does when given all the keys
of the source, in whatever order. *)
Theorem CopyAllLabels_is_CopyLabels {P Q : Type} (entries : list (string * string))
    (src : resource.Resource P) (dst : resource.Resource Q) :
  entries ≡ₚ map_to_list (resource.mdLabels (resource.getMetadata src)) ->
  CopyLabels src dst entries.*1 = CopyAllLabels src dst.
Proof.
  intros Hperm. unfold CopyAllLabels, CopyAllLabels_in, CopyLabels, kvutils.Do, kvutils.Raw.
  do 2 f_equal. rewrite (setLoop_union _ _ _ (reflexivity _)).
  apply map_eq. intros k. rewrite pickLoop_lookup, lookup_union.
  destruct (resource.mdLabels (resource.getMetadata src) !! k) as [v|] eqn:Hv.
  - rewrite decide_True.
    + destruct (resource.mdLabels (resource.getMetadata dst) !! k); reflexivity.
    + rewrite Hperm. apply list_elem_of_fmap. exists (k, v).
      split; [reflexivity | apply elem_of_map_to_list; exact Hv].
  - destruct (decide (k ∈ entries.*1));
      destruct (resource.mdLabels (resource.getMetadata dst) !! k); reflexivity.
Qed.

Lemma CopyAllLabels_is_CopyLabels_witness :
  let src := resource.mkResource
               (resource.mkMetadata "default" "A" "a" (Some 1%N) resource.PhaseRunning []
                  {[ "k" := "new"; "s" := "1" ]}%string ∅) tt in
  let dst := resource.mkResource
               (resource.mkMetadata "default" "B" "b" (Some 1%N) resource.PhaseRunning []
                  {[ "k" := "old" ]}%string ∅) tt in
  CopyLabels src dst
    (map_to_list ({[ "k" := "new"; "s" := "1" ]}%string : gmap string string)).*1
  = CopyAllLabels src dst.
Proof.
  intros src dst.
  apply (CopyAllLabels_is_CopyLabels
           (map_to_list ({[ "k" := "new"; "s" := "1" ]}%string : gmap string string))
           src dst).
  reflexivity.
Defined.

(** X4: [CopyAllAnnotations] leaves on the target the annotations of the
source together with those of the target whose key the source does not
have, and [CopyAnnotations] copies the listed annotations that the source
has and leaves every other annotation of the target as it was; neither
touches the labels or anything else of the target. *)
Theorem CopyAnnotations_lookup {P Q : Type} (entries : list (string * string))
    (src : resource.Resource P) (dst : resource.Resource Q) (annotations : list string) :
  entries ≡ₚ map_to_list (resource.mdAnnotations (resource.getMetadata src)) ->
  let from := resource.mdAnnotations (resource.getMetadata src) in
  let before := resource.mdAnnotations (resource.getMetadata dst) in
  CopyAllAnnotations_in entries src dst
  = resource.withMetadata
      (resource.setAnnotations (from ∪ before) (resource.getMetadata dst)) dst
  /\ CopyAllAnnotations_in entries src dst = CopyAllAnnotations src dst
  /\ (exists after,
        CopyAnnotations src dst annotations
        = resource.withMetadata (resource.setAnnotations after (resource.getMetadata dst)) dst
        /\ forall k, after !! k
             = if decide (k ∈ annotations)
               then match from !! k with Some v => Some v | None => before !! k end
               else before !! k)
  /\ resource.mdLabels (resource.getMetadata (CopyAllAnnotations src dst))
     = resource.mdLabels (resource.getMetadata dst)
  /\ resource.mdLabels (resource.getMetadata (CopyAnnotations src dst annotations))
     = resource.mdLabels (resource.getMetadata dst).
Proof.
  intros Hperm from before.
  assert (Hany : forall ents,
             ents ≡ₚ map_to_list from ->
             CopyAllAnnotations_in ents src dst
             = resource.withMetadata
                 (resource.setAnnotations (from ∪ before) (resource.getMetadata dst)) dst).
  { intros ents Hents. unfold CopyAllAnnotations_in, kvutils.Do.
    rewrite (setLoop_union ents _ _ Hents). reflexivity. }
  split; [apply Hany; exact Hperm|]. split.
  - unfold CopyAllAnnotations. rewrite !Hany by (exact Hperm || reflexivity). reflexivity.
  - split; [|split; reflexivity].
    eexists. split; [reflexivity|]. intros k. apply pickLoop_lookup.
Qed.

Lemma CopyAnnotations_lookup_witness :
  let src := resource.mkResource
               (resource.mkMetadata "default" "A" "a" (Some 1%N) resource.PhaseRunning []
                  ∅ {[ "k" := "new" ]}%string) tt in
  let dst := resource.mkResource
               (resource.mkMetadata "default" "B" "b" (Some 1%N) resource.PhaseRunning []
                  ∅ {[ "k" := "old"; "d" := "2" ]}%string) tt in
  resource.mdAnnotations (resource.getMetadata (CopyAllAnnotations src dst))
  = ({[ "k" := "new" ]} ∪ {[ "k" := "old"; "d" := "2" ]})%string.
Proof.
  intros src dst.
  destruct (CopyAnnotations_lookup
              (map_to_list ({[ "k" := "new" ]}%string : gmap string string)) src dst [])
    as (Hunion & Hsame & _); [reflexivity|].
  rewrite <- Hsame, Hunion. reflexivity.
Defined.

Section UserLabels.

Variable SystemLabelPrefix : string.

Lemma ClearUserLabels_in_lookup {P : Type} (entries : list (string * string))
    (res : resource.Resource P) (k : string) :
  entries ≡ₚ map_to_list (resource.mdLabels (resource.getMetadata res)) ->
  resource.mdLabels (resource.getMetadata (ClearUserLabels_in SystemLabelPrefix entries res))
    !! k
  = if HasPrefix k SystemLabelPrefix
    then resource.mdLabels (resource.getMetadata res) !! k else None.
Proof.
  intros Hperm. unfold ClearUserLabels_in, kvutils.Do. cbn.
  rewrite LabelFacts.clearLoop_lookup.
  destruct (HasPrefix k SystemLabelPrefix); [reflexivity|].
  destruct (decide (k ∈ entries.*1)) as [|Hn]; [reflexivity|].
  destruct (resource.mdLabels (resource.getMetadata res) !! k) as [v|] eqn:Hv; [|reflexivity].
  exfalso. apply Hn. rewrite Hperm. apply list_elem_of_fmap. exists (k, v).
  split; [reflexivity | apply elem_of_map_to_list; exact Hv].
Qed.

Lemma filter_system_lookup (m : gmap string string) (k : string) :
  filter (fun kv => HasPrefix (fst kv) SystemLabelPrefix = true) m !! k
  = if HasPrefix k SystemLabelPrefix then m !! k else None.
Proof.
  destruct (m !! k) as [v|] eqn:Hv.
  - destruct (HasPrefix k SystemLabelPrefix) eqn:Hk.
    + apply map_lookup_filter_Some. split; [exact Hv | exact Hk].
    + apply map_lookup_filter_None. right. intros v' _ Hk'.
      cbv beta in Hk'. cbn [fst] in Hk'. congruence.
  - assert (Hnone : filter (fun kv => HasPrefix (fst kv) SystemLabelPrefix = true) m !! k
                    = None) by (apply map_lookup_filter_None; left; exact Hv).
    rewrite Hnone. destruct (HasPrefix k SystemLabelPrefix); reflexivity.
Qed.

(** X5: [ClearUserLabels] leaves exactly the labels with the system
prefix, each with its value, whatever the order in which the labels are
visited; it changes nothing but the labels, nothing at all when every
label has the system prefix, and nothing more when run again. *)
Theorem ClearUserLabels_keeps_system {P : Type} (entries : list (string * string))
    (res : resource.Resource P) :
  entries ≡ₚ map_to_list (resource.mdLabels (resource.getMetadata res)) ->
  let before := resource.mdLabels (resource.getMetadata res) in
  let kept := filter (fun kv => HasPrefix (fst kv) SystemLabelPrefix = true) before in
  ClearUserLabels_in SystemLabelPrefix entries res
  = resource.withMetadata (resource.setLabels kept (resource.getMetadata res)) res
  /\ ClearUserLabels_in SystemLabelPrefix entries res = ClearUserLabels SystemLabelPrefix res
  /\ ((forall k v, before !! k = Some v -> HasPrefix k SystemLabelPrefix = true) ->
      ClearUserLabels SystemLabelPrefix res = res)
  /\ ClearUserLabels SystemLabelPrefix (ClearUserLabels SystemLabelPrefix res)
     = ClearUserLabels SystemLabelPrefix res.
Proof.
  intros Hperm before kept.
  assert (Hkept : forall k, kept !! k
            = if HasPrefix k SystemLabelPrefix then before !! k else None).
  { intros k. apply filter_system_lookup. }
  assert (Hany : forall (r : resource.Resource P) ents,
             ents ≡ₚ map_to_list (resource.mdLabels (resource.getMetadata r)) ->
             ClearUserLabels_in SystemLabelPrefix ents r
             = resource.withMetadata
                 (resource.setLabels
                    (filter (fun kv => HasPrefix (fst kv) SystemLabelPrefix = true)
                       (resource.mdLabels (resource.getMetadata r)))
                    (resource.getMetadata r)) r).
  { intros r ents Hents.
    change (ClearUserLabels_in SystemLabelPrefix ents r)
      with (resource.withMetadata
              (resource.setLabels
                 (resource.mdLabels
                    (resource.getMetadata (ClearUserLabels_in SystemLabelPrefix ents r)))
                 (resource.getMetadata r)) r).
    do 2 f_equal. apply map_eq. intros k.
    rewrite (ClearUserLabels_in_lookup ents r k Hents), filter_system_lookup.
    reflexivity. }
  split; [apply Hany; exact Hperm|]. split; [|split].
  - unfold ClearUserLabels. rewrite !Hany by (exact Hperm || reflexivity). reflexivity.
  - intros Hall. unfold ClearUserLabels. rewrite Hany by reflexivity.
    assert (Hsame : kept = before).
    { apply map_eq. intros k. rewrite Hkept.
      destruct (before !! k) as [v|] eqn:Hv.
      - rewrite (Hall k v Hv). reflexivity.
      - destruct (HasPrefix k SystemLabelPrefix); reflexivity. }
    fold before. fold kept. rewrite Hsame. apply withMetadata_setLabels_id.
  - unfold ClearUserLabels. rewrite !Hany by reflexivity.
    rewrite setLabels_setLabels. cbn [resource.getMetadata resource.withMetadata
      resource.mdLabels resource.setLabels].
    fold before. fold kept.
    assert (Hsame : filter (fun kv => HasPrefix (fst kv) SystemLabelPrefix = true) kept = kept).
    { apply map_eq. intros k. rewrite filter_system_lookup, Hkept.
      destruct (HasPrefix k SystemLabelPrefix); reflexivity. }
    rewrite Hsame. reflexivity.
Qed.

Lemma CopyUserLabels_labels {P : Type} (target : resource.Resource P)
    (labels : gmap string string) :
  exists after,
    CopyUserLabels SystemLabelPrefix target labels
    = resource.withMetadata (resource.setLabels after (resource.getMetadata target)) target
    /\ forall k, after !! k
         = if HasPrefix k SystemLabelPrefix
           then resource.mdLabels (resource.getMetadata target) !! k
           else labels !! k.
Proof.
  eexists. split; [apply LabelFacts.CopyUserLabels_in_shape|].
  intros k. apply LabelFacts.CopyUserLabels_in_lookup; reflexivity.
Qed.

(** X6: how [CopyUserLabels] composes.  With an empty map it is
[ClearUserLabels]; entries of the input map whose key has the system prefix
are never copied, so that they can be dropped from the input; clearing the
user labels of the target beforehand makes no difference; and running it a
second time with the same map changes nothing. *)
Theorem CopyUserLabels_composes {P : Type} (target : resource.Resource P)
    (labels : gmap string string) :
  CopyUserLabels SystemLabelPrefix target ∅ = ClearUserLabels SystemLabelPrefix target
  /\ CopyUserLabels SystemLabelPrefix target labels
     = CopyUserLabels SystemLabelPrefix target
         (filter (fun kv => HasPrefix (fst kv) SystemLabelPrefix = false) labels)
  /\ CopyUserLabels SystemLabelPrefix (ClearUserLabels SystemLabelPrefix target) labels
     = CopyUserLabels SystemLabelPrefix target labels
  /\ CopyUserLabels SystemLabelPrefix (CopyUserLabels SystemLabelPrefix target labels) labels
     = CopyUserLabels SystemLabelPrefix target labels.
Proof.
  destruct (CopyUserLabels_labels target labels) as (after & Hshape & Hafter).
  split; [reflexivity|]. split; [|split].
  - destruct (CopyUserLabels_labels target
                (filter (fun kv => HasPrefix (fst kv) SystemLabelPrefix = false) labels))
      as (after' & Hshape' & Hafter').
    rewrite Hshape, Hshape'.
    assert (Hsame : after = after').
    { apply map_eq. intros k. rewrite Hafter, Hafter'.
      destruct (HasPrefix k SystemLabelPrefix) eqn:Hk; [reflexivity|].
      destruct (labels !! k) as [v|] eqn:Hv; symmetry.
      - apply map_lookup_filter_Some. split; [exact Hv | exact Hk].
      - apply map_lookup_filter_None. left. exact Hv. }
    rewrite Hsame. reflexivity.
  - destruct (CopyUserLabels_labels (ClearUserLabels SystemLabelPrefix target) labels)
      as (after' & Hshape' & Hafter').
    rewrite Hshape, Hshape'. unfold ClearUserLabels, ClearUserLabels_in.
    rewrite setLabels_setLabels.
    assert (Hsame : after' = after).
    { apply map_eq. intros k. rewrite Hafter, Hafter'. unfold ClearUserLabels, kvutils.Raw.
      rewrite (ClearUserLabels_in_lookup _ target k (reflexivity _)).
      destruct (HasPrefix k SystemLabelPrefix); reflexivity. }
    rewrite Hsame. reflexivity.
  - destruct (CopyUserLabels_labels (CopyUserLabels SystemLabelPrefix target labels) labels)
      as (after' & Hshape' & Hafter').
    rewrite Hshape', Hshape, setLabels_setLabels.
    assert (Hsame : after' = after).
    { apply map_eq. intros k. rewrite Hafter'. rewrite Hshape. cbn. rewrite Hafter.
      destruct (HasPrefix k SystemLabelPrefix); reflexivity. }
    rewrite Hsame. reflexivity.
Qed.

End UserLabels.

Lemma ClearUserLabels_keeps_system_witness :
  let res := resource.mkResource
               (resource.mkMetadata "default" "T" "id" (Some 1%N) resource.PhaseRunning []
                  {[ "a" := "1"; "sidero.dev/x" := "y" ]}%string ∅) tt in
  ClearUserLabels "sidero.dev/" (ClearUserLabels "sidero.dev/" res)
  = ClearUserLabels "sidero.dev/" res.
Proof.
  intros res.
  destruct (ClearUserLabels_keeps_system "sidero.dev/"
              (map_to_list (resource.mdLabels (resource.getMetadata res))) res)
    as (_ & _ & _ & Hidem); [reflexivity|].
  exact Hidem.
Defined.

End CopyFacts.

(** ** Version tokens *)
Module TokenFacts.
Import helpers Fingerprint.

Lemma string_of_uint_no_comma (d : Decimal.uint) :
  hasComma (NilEmpty.string_of_uint d) = false.
Proof. induction d; cbn; try assumption; reflexivity. Qed.

Lemma Version_String_no_comma (v : resource.Version) :
  hasComma (resource.Version_String v) = false.
Proof. destruct v as [n|]; [apply string_of_uint_no_comma | reflexivity]. Qed.

Lemma Version_String_inj (v w : resource.Version) :
  resource.Version_String v = resource.Version_String w -> v = w.
Proof.
  destruct v as [n|], w as [m|]; cbn; intros Heq.
  - f_equal. apply DecimalN.Unsigned.to_uint_inj.
    apply (f_equal NilEmpty.uint_of_string) in Heq.
    rewrite !NilEmpty.usu in Heq. congruence.
  - exfalso. destruct (N.to_uint n); discriminate.
  - exfalso. destruct (N.to_uint m); discriminate.
  - reflexivity.
Qed.

(** The part of a token before the version. *)
Lemma versionToken_split (md : resource.Metadata) :
  versionToken md
  = (resource.mdType md +:+ "/" +:+ resource.mdID md +:+ "@")
      +:+ resource.Version_String (resource.mdVersion md).
Proof.
  unfold versionToken. rewrite <- !TalosFacts.append_assoc. reflexivity.
Qed.

Lemma join_tokens_inj (mds1 mds2 : list resource.Metadata) :
  Forall2 sameIdentity mds1 mds2 ->
  join (map versionToken mds1) = join (map versionToken mds2) ->
  map resource.mdVersion mds1 = map resource.mdVersion mds2.
Proof.
  intros Hsame. induction Hsame as [|a b mds1 mds2 [Hty Hid] Hrest IH]; [reflexivity|].
  intros Heq. cbn [map] in *.
  rewrite (versionToken_split a), (versionToken_split b), Hty, Hid in Heq.
  destruct Hrest as [|a' b' mds1 mds2 Hab Hrest].
  - cbn in Heq. apply String.app_inj in Heq. apply Version_String_inj in Heq.
    rewrite Heq. reflexivity.
  - cbn [map] in Heq, IH |- *.
    change (join (?t :: versionToken ?x :: ?r))
      with (t +:+ "," +:+ join (versionToken x :: r)) in Heq.
    rewrite <- !TalosFacts.append_assoc in Heq.
    repeat apply String.app_inj in Heq.
    apply FingerprintFacts.append_comma_inj in Heq as [Hv Hjoin];
      [|apply Version_String_no_comma..].
    apply Version_String_inj in Hv. rewrite Hv. f_equal. apply IH. exact Hjoin.
Qed.

(** X7: when the inputs keep their types and ids and the version of at
least one of them changes, [UpdateInputsVersions] feeds the digest
different bytes, whatever characters the ids contain; so the fingerprint it
stores changes, unless SHA-256 collides on these two inputs. *)
Theorem UpdateInputsVersions_version_sensitive {Payload : Type} (out : ptr)
    (inputs : list ptr) (h1 h2 : heap Payload) :
  Forall (fun input => sameIdentity (resource.getMetadata (h1 input))
                                    (resource.getMetadata (h2 input))) inputs ->
  (exists input, In input inputs
                 /\ resource.mdVersion (resource.getMetadata (h1 input))
                    <> resource.mdVersion (resource.getMetadata (h2 input))) ->
  let tokens (h : heap Payload) :=
    map (fun input => versionToken (resource.getMetadata (h input))) inputs in
  let stored (h : heap Payload) :=
    resource.mdAnnotations
      (resource.getMetadata (snd (UpdateInputsVersions out inputs h) out))
      !! InputResourceVersionAnnotation in
  writeVersions 0 (tokens h1) SHA256.New <> writeVersions 0 (tokens h2) SHA256.New
  /\ (stored h1 = stored h2 ->
      SHA256.Sum256 (writeVersions 0 (tokens h1) SHA256.New)
      = SHA256.Sum256 (writeVersions 0 (tokens h2) SHA256.New)).
Proof.
  intros Hsame (input & Hin & Hne) tokens stored. split.
  - rewrite !FingerprintFacts.writeVersions_join. intros Heq.
    apply bytes_of_string_inj in Heq. subst tokens. cbv beta in Heq.
    rewrite <- !(map_map (fun input => resource.getMetadata (_ input)) versionToken) in Heq.
    apply join_tokens_inj in Heq.
    + rewrite !map_map in Heq. apply Hne.
      clear -Heq Hin. induction inputs as [|p inputs IH]; [destruct Hin|].
      cbn [map] in Heq. injection Heq as Hp Hrest.
      destruct Hin as [->|Hin]; [exact Hp | apply IH; assumption].
    + clear -Hsame. induction Hsame as [|p inputs Hp _ IH]; cbn [map]; constructor;
        assumption.
  - subst stored. cbv beta. unfold UpdateInputsVersions.
    rewrite !FingerprintFacts.UpdateInputsAnnotation_stored. intros [= Heq].
    unfold inVersion, SHA256.Sum in Heq.
    apply EncodeToString_inj in Heq; [exact Heq | apply Sum256_isByte..].
Qed.

Lemma UpdateInputsVersions_version_sensitive_witness :
  let r (version : N) :=
    resource.mkResource
      (resource.mkMetadata "default" "Clusters.omni.sidero.dev" "a,b" (Some version)
         resource.PhaseRunning [] ∅ ∅) tt in
  writeVersions 0 [versionToken (resource.getMetadata (r 1%N))] SHA256.New
  <> writeVersions 0 [versionToken (resource.getMetadata (r 2%N))] SHA256.New.
Proof.
  intros r.
  apply (UpdateInputsVersions_version_sensitive 0 [1] (fun _ => r 1%N) (fun _ => r 2%N)).
  - repeat constructor.
  - exists 1. split; [left; reflexivity | discriminate].
Defined.

(** X8: a second [UpdateInputsVersions] with the same inputs returns false
and leaves every object as it is, also when the output is itself one of
the inputs: the token of a resource does not depend on its annotations. *)
Theorem UpdateInputsVersions_twice {Payload : Type} (out : ptr) (inputs : list ptr)
    (h : heap Payload) :
  let h' := snd (UpdateInputsVersions out inputs h) in
  (forall p, versionToken (resource.getMetadata (h' p))
             = versionToken (resource.getMetadata (h p)))
  /\ UpdateInputsVersions out inputs h' = (false, h').
Proof.
  intros h'.
  assert (Htok : forall p, versionToken (resource.getMetadata (h' p))
                           = versionToken (resource.getMetadata (h p))).
  { intros p. subst h'. unfold UpdateInputsVersions.
    destruct (FingerprintFacts.UpdateInputsAnnotation_sameButAnnotation out
                (map (fun input => versionToken (resource.getMetadata (h input))) inputs) h)
      as [Hframe (_ & Hmd & _)].
    destruct (Nat.eq_dec p out) as [->|Hp]; [|rewrite Hframe by exact Hp; reflexivity].
    pose proof (f_equal resource.mdType Hmd) as Hty.
    pose proof (f_equal resource.mdID Hmd) as Hid.
    pose proof (f_equal resource.mdVersion Hmd) as Hver.
    cbn [resource.mdType resource.mdID resource.mdVersion resource.setAnnotations]
      in Hty, Hid, Hver.
    rewrite !versionToken_split, Hty, Hid, Hver. reflexivity. }
  split; [exact Htok|].
  unfold UpdateInputsVersions at 1.
  assert (Hmap : map (fun input => versionToken (resource.getMetadata (h' input))) inputs
                 = map (fun input => versionToken (resource.getMetadata (h input))) inputs).
  { apply map_ext. intros p. apply Htok. }
  rewrite Hmap.
  pose proof (FingerprintFacts.UpdateInputsAnnotation_stored out
                (map (fun input => versionToken (resource.getMetadata (h input))) inputs) h)
    as Hst.
  change (snd (UpdateInputsAnnotation out _ h)) with h' in Hst.
  unfold UpdateInputsAnnotation at 1. unfold kvutils.Get.
  rewrite Hst, String.eqb_refl. reflexivity.
Qed.

End TokenFacts.

(** ** More on HandleInput *)
Module HandleInputMore.
Import effect helpers HandleInputSpec.

Section WithReaderWriter.

Context {T S St : Type} `{RW : ReaderWriter (resource.Resource T) St}.

Implicit Types (main : resource.Resource S) (dep : resource.Resource T).

(** X9: a call of [HandleInput] starts with the lookup of the dependent and
makes at most one more call.  That call is a [RemoveFinalizer] exactly when
the dependent was found and it or the owner is tearing down, and it is then
for the metadata of the dependent as read and for the given finalizer; no
call makes both a [RemoveFinalizer] and an [AddFinalizer]. *)
Theorem HandleInput_calls (finalizer : string) main (opts : list HandleInputOption)
    (s : St) :
  let i := lookupID main opts in
  let o := run rwHandler (HandleInput (T := T) finalizer main opts) s in
  let got := fst (rwGet i s) in
  (exists rest, calls o = ReaderGetByID i :: rest /\ length rest <= 1)
  /\ (forall md fin, In (RemoveFinalizer md fin) (calls o) <->
        exists dep, got = inl dep
                    /\ (tearingDown (resource.getMetadata dep)
                        \/ tearingDown (resource.getMetadata main))
                    /\ md = resource.getMetadata dep /\ fin = finalizer)
  /\ (forall md fin md' fin',
        In (RemoveFinalizer md fin) (calls o) -> ~ In (AddFinalizer md' fin') (calls o)).
Proof.
  intros i o got. subst o got. rewrite HandleInputFacts.run_HandleInput. cbv zeta. fold i.
  destruct (rwGet i s) as [[dep|err] s1]; cbn [fst].
  2:{ split; [exists []; split; [reflexivity | cbn; lia]|]. split.
      - intros md fin. split.
        + cbn. intros [H|[]]. discriminate.
        + intros (dep & Hd & _). discriminate.
      - intros md fin md' fin'. cbn. intros [H|[]]. discriminate. }
  destruct (bool_decide (tearingDown (resource.getMetadata dep))) eqn:Hd;
    [|destruct (bool_decide (tearingDown (resource.getMetadata main))) eqn:Hm]; cbn [orb].
  1,2: assert (Htd : tearingDown (resource.getMetadata dep)
                     \/ tearingDown (resource.getMetadata main))
    by first [left; exact (bool_decide_eq_true_1 _ Hd)
             | right; exact (bool_decide_eq_true_1 _ Hm)].
  1,2: destruct (rwRemoveFinalizer (resource.getMetadata dep) finalizer s1) as [removed s2];
    cbn [after calls];
    (split; [eexists; split; [reflexivity | cbn; lia]|]); split;
    [ intros md fin; split;
      [ intros [H|[H|[]]]; [discriminate|]; injection H as <- <-;
        exists dep; split; [reflexivity|]; split; [exact Htd | split; reflexivity]
      | intros (dep' & Heq & _ & -> & ->); injection Heq as <-; right; left; reflexivity ]
    | intros md fin md' fin' _; unfold not; intros [H|[H|[]]]; discriminate ].
  apply bool_decide_eq_false_1 in Hd, Hm.
  assert (Hnone : forall md fin, ~ exists dep' : resource.Resource T,
             inl dep = inl dep' (B := state.error)
             /\ (tearingDown (resource.getMetadata dep')
                 \/ tearingDown (resource.getMetadata main))
             /\ md = resource.getMetadata dep' /\ fin = finalizer).
  { intros md fin (dep' & [= <-] & [H|H] & _); contradiction. }
  destruct (resource.Has _ finalizer).
  - cbn [after calls].
    split; [exists []; split; [reflexivity | cbn; lia]|]. split.
    + intros md fin. split; [intros [H|[]]; discriminate | intros H; destruct (Hnone md fin H)].
    + intros md fin md' fin' [H|[]]. discriminate.
  - destruct (rwAddFinalizer (resource.getMetadata dep) finalizer s1) as [added s2].
    cbn [after calls].
    split; [eexists; split; [reflexivity | cbn; lia]|]. split.
    + intros md fin. split;
        [intros [H|[H|[]]]; discriminate | intros H; destruct (Hnone md fin H)].
    + intros md fin md' fin' [H|[H|[]]]; discriminate.
Qed.

(** X10: [HandleInput] never returns a resource together with an error.  A
resource that it returns is the dependent as it was read, and the
dependent is then running.  An error that it returns is the answer of one
of its calls; for the lookup and for [RemoveFinalizer] it is never a
not-found error, while a not-found answer of [AddFinalizer] is returned
like any other error. *)
Theorem HandleInput_result (finalizer : string) main (opts : list HandleInputOption)
    (s : St) :
  let i := lookupID main opts in
  let o := run rwHandler (HandleInput (T := T) finalizer main opts) s in
  let got := fst (rwGet i s) in
  let s1 := snd (rwGet i s) in
  (forall dep e, returned o = (Some dep, e) ->
     e = None /\ got = inl dep /\ running (resource.getMetadata dep))
  /\ (forall x err, returned o = (x, Some err) ->
        x = None
        /\ (got = inr err /\ state.IsNotFoundError err = false
            \/ exists dep, got = inl dep
                 /\ (fst (rwRemoveFinalizer (resource.getMetadata dep) finalizer s1) = Some err
                     /\ state.IsNotFoundError err = false
                     /\ In (RemoveFinalizer (resource.getMetadata dep) finalizer) (calls o)
                     \/ fst (rwAddFinalizer (resource.getMetadata dep) finalizer s1) = Some err
                        /\ In (AddFinalizer (resource.getMetadata dep) finalizer) (calls o))))
  /\ (forall dep err,
        got = inl dep ->
        running (resource.getMetadata dep) -> running (resource.getMetadata main) ->
        resource.Has (resource.mdFinalizers (resource.getMetadata dep)) finalizer = false ->
        fst (rwAddFinalizer (resource.getMetadata dep) finalizer s1) = Some err ->
        returned o = (None, Some err)).
Proof.
  intros i o got s1. subst o got s1. rewrite HandleInputFacts.run_HandleInput. cbv zeta.
  fold i. destruct (rwGet i s) as [[dep|err] s1]; cbn [fst snd].
  2:{ cbn [after returned]. split; [|split].
      - intros dep e [= ]. 
      - intros x e. destruct (state.IsNotFoundError err) eqn:Herr; intros [= <- <-].
        split; [reflexivity|]. left. split; [reflexivity | exact Herr].
      - intros dep e [= ]. }
  destruct (bool_decide (tearingDown (resource.getMetadata dep))) eqn:Hd;
    [|destruct (bool_decide (tearingDown (resource.getMetadata main))) eqn:Hm]; cbn [orb].
  - destruct (rwRemoveFinalizer (resource.getMetadata dep) finalizer s1)
      as [[removed|] s2] eqn:Hrem; cbn [after returned calls fst].
    + destruct (state.IsNotFoundError removed) eqn:Herr.
      * split; [intros dep' e [= ]|]. split; [intros x e [= ]|].
        intros dep' e [= <-] Hrun. apply (bool_decide_eq_true_1 _) in Hd.
        apply HandleInputFacts.running_not_tearingDown in Hrun. contradiction.
      * split; [intros dep' e [= ]|]. split.
        -- intros x e [= <- <-]. split; [reflexivity|]. right. exists dep.
           split; [reflexivity|]. left. rewrite Hrem. cbn.
           repeat split; [exact Herr | right; left; reflexivity].
        -- intros dep' e [= <-] Hrun. apply (bool_decide_eq_true_1 _) in Hd.
           apply HandleInputFacts.running_not_tearingDown in Hrun. contradiction.
    + split; [intros dep' e [= ]|]. split; [intros x e [= ]|].
      intros dep' e [= <-] Hrun. apply (bool_decide_eq_true_1 _) in Hd.
      apply HandleInputFacts.running_not_tearingDown in Hrun. contradiction.
  - apply bool_decide_eq_false_1 in Hd. apply (bool_decide_eq_true_1 _) in Hm.
    assert (Hdrun : running (resource.getMetadata dep))
      by (apply HandleInputFacts.running_not_tearingDown; exact Hd).
    destruct (rwRemoveFinalizer (resource.getMetadata dep) finalizer s1)
      as [[removed|] s2] eqn:Hrem; cbn [after returned calls fst].
    + destruct (state.IsNotFoundError removed) eqn:Herr.
      * split; [intros dep' e [= <- <-]; repeat split; assumption|].
        split; [intros x e [= ]|].
        intros dep' e _ _ Hrun. apply HandleInputFacts.running_not_tearingDown in Hrun.
        contradiction.
      * split; [intros dep' e [= ]|]. split.
        -- intros x e [= <- <-]. split; [reflexivity|]. right. exists dep.
           split; [reflexivity|]. left. rewrite Hrem. cbn.
           repeat split; [exact Herr | right; left; reflexivity].
        -- intros dep' e _ _ Hrun. apply HandleInputFacts.running_not_tearingDown in Hrun.
           contradiction.
    + split; [intros dep' e [= <- <-]; repeat split; assumption|].
      split; [intros x e [= ]|].
      intros dep' e _ _ Hrun. apply HandleInputFacts.running_not_tearingDown in Hrun.
      contradiction.
  - apply bool_decide_eq_false_1 in Hd, Hm.
    assert (Hdrun : running (resource.getMetadata dep))
      by (apply HandleInputFacts.running_not_tearingDown; exact Hd).
    destruct (resource.Has _ finalizer) eqn:Hhas.
    + cbn [after returned]. split; [intros dep' e [= <- <-]; repeat split; assumption|].
      split; [intros x e [= ]|]. intros dep' e [= <-] _ _ Hfalse. congruence.
    + destruct (rwAddFinalizer (resource.getMetadata dep) finalizer s1)
        as [[added|] s2] eqn:Hadd; cbn [after returned calls fst].
      * split; [intros dep' e [= ]|]. split.
        -- intros x e [= <- <-]. split; [reflexivity|]. right. exists dep.
           split; [reflexivity|]. right. rewrite Hadd. cbn.
           split; [reflexivity | right; left; reflexivity].
        -- intros dep' e [= <-] _ _ _. rewrite Hadd. cbn. intros [= <-]. reflexivity.
      * split; [intros dep' e [= <- <-]; repeat split; assumption|].
        split; [intros x e [= ]|].
        intros dep' e [= <-] _ _ _. rewrite Hadd. cbn. discriminate.
Qed.

(** X11: the options are applied from left to right, so the last [WithID]
decides the id under which the dependent is looked up, and the id of the
owner is then not used. *)
Theorem WithID_last_wins main (main' : resource.Resource S)
    (opts : list HandleInputOption) (other : string) :
  lookupID main (opts ++ [WithID other]) = other
  /\ (resource.mdPhase (resource.getMetadata main)
      = resource.mdPhase (resource.getMetadata main') ->
      forall finalizer (s : St),
        run rwHandler (HandleInput (T := T) finalizer main (opts ++ [WithID other])) s
        = run rwHandler (HandleInput (T := T) finalizer main' (opts ++ [WithID other])) s).
Proof.
  assert (Hid : forall m : resource.Resource S, lookupID m (opts ++ [WithID other]) = other).
  { intros m. unfold lookupID. rewrite foldl_app. reflexivity. }
  split; [apply Hid|].
  intros Hphase finalizer s. rewrite !HandleInputFacts.run_HandleInput. cbv zeta.
  rewrite !Hid. unfold tearingDown. rewrite Hphase. reflexivity.
Qed.

End WithReaderWriter.

Lemma HandleInput_result_witness :
  let s : gmap string (resource.Resource unit) := ∅ in
  let rw : ReaderWriter (resource.Resource unit) (gmap string (resource.Resource unit)) :=
    {| rwGet id s := (inl (inmem.dependent resource.PhaseRunning), s);
       rwRemoveFinalizer md fin s := (None, s);
       rwAddFinalizer md fin s := (Some (inmem.notFound (resource.mdID md)), s) |} in
  returned (run (rwHandler (H := rw))
              (HandleInput (T := unit) "fin" (inmem.owner resource.PhaseRunning) []) s)
  = (None, Some (inmem.notFound "m1")).
Proof.
  intros s rw.
  destruct (HandleInput_result (RW := rw) "fin" (inmem.owner resource.PhaseRunning) [] s)
    as (_ & _ & Hadd).
  apply (Hadd (inmem.dependent resource.PhaseRunning)); reflexivity.
Defined.

Lemma WithID_last_wins_witness :
  lookupID (inmem.owner resource.PhaseRunning) [WithID "a"; WithID "b"] = "b"%string.
Proof.
  destruct (WithID_last_wins (T := unit) (St := gmap string (resource.Resource unit))
              (inmem.owner resource.PhaseRunning) (inmem.owner resource.PhaseRunning)
              [WithID "a"] "b") as [Hid _].
  exact Hid.
Defined.

End HandleInputMore.

(** ** More on GetTalosClient *)
Module TalosMore.
Import effect helpers TalosSpec.

Section WithEnvironment.

Context {TalosConfigSpec Config Client SocketOption V St : Type}.
Variable GetSocketOptions : string -> slice (client.OptionFunc Config SocketOption).
Variable NewTalosClientConfig : resource.Resource TalosConfigSpec -> list string -> Config.
Variable LabelCluster : string.
Variable DefaultNamespace : string.
Variable hd : handler (talosCall (Config := Config) (SocketOption := SocketOption))
                (talosAnswer (TalosConfigSpec := TalosConfigSpec) (Client := Client)) St.

Local Abbreviation GetTalosClient :=
  (GetTalosClient GetSocketOptions NewTalosClientConfig LabelCluster DefaultNamespace (V := V)).

Ltac cases address m s :=
  rewrite (TalosFacts.run_GetTalosClient GetSocketOptions NewTalosClientConfig LabelCluster
             DefaultNamespace hd address m s);
  cbv zeta; unfold dial;
  repeat match goal with
    | |- context [hd ?c ?s] =>
        is_var s; let got := fresh "got" in let s' := fresh "s" in
        let E := fresh "E" in
        destruct (hd c s) as [got s'] eqn:E; cbn [fst snd]
    | |- context [match ?x with inl _ => _ | inr _ => _ end] =>
        is_var x; destruct x
    | |- context [state.IsNotFoundError ?e] =>
        let E := fresh "Enf" in destruct (state.IsNotFoundError e) eqn:E
    | |- context [omni.MachineStatus ?x] =>
        let E := fresh "Est" in destruct (omni.MachineStatus x) eqn:E
    | |- context [bool_decide ?P] =>
        let E := fresh "Estage" in destruct (bool_decide P) eqn:E
    | |- context [resource.mdLabels ?md !! LabelCluster] =>
        let E := fresh "Elabel" in destruct (resource.mdLabels md !! LabelCluster) eqn:E
    end;
  cbn [after calls returned final].

(** X12: [GetTalosClient] makes at most three calls.  When it calls the
client factory, that is its last call and the only such call, and the
options are the insecure ones or those built from a TalosConfig.  It looks
for a TalosConfig only for a machine with the cluster label, under the
default namespace and the name of that label, and only after a snapshot
lookup that did not report the MAINTENANCE stage. *)
Theorem GetTalosClient_calls (address : string)
    (machineResource : option (resource.Resource V)) (s : St) :
  let o := run hd (GetTalosClient address machineResource) s in
  length (calls o) <= 3
  /\ (forall opts, In (client_New opts) (calls o) ->
        (exists front, calls o = front ++ [client_New opts]
                       /\ forall opts', ~ In (client_New opts') front)
        /\ (opts = insecureOptions GetSocketOptions address
            \/ exists talosConfig,
                 opts = secureOptions GetSocketOptions NewTalosClientConfig address
                          talosConfig))
  /\ (forall ns clusterName, In (GetTalosConfig ns clusterName) (calls o) ->
        exists m,
          machineResource = Some m /\ ns = DefaultNamespace
          /\ resource.mdLabels (resource.getMetadata m) !! LabelCluster = Some clusterName
          /\ notMaintenance
               (fst (hd (GetMachineStatusSnapshot
                           (resource.mdID (resource.getMetadata m))) s))).
Proof.
  intros o. subst o. destruct machineResource as [m|].
  2:{ cbn [helpers.GetTalosClient]. rewrite TalosFacts.run_createInsecureClient.
      unfold dial. destruct (hd _ s) as [made s']. cbn [calls].
      split; [cbn; lia|]. split.
      - intros opts [H|[]]. injection H as <-. split; [|left; reflexivity].
        exists []. split; [reflexivity | intros opts' []].
      - intros ns c [H|[]]. discriminate. }
  cases address m s.
  all: split; [cbn; lia|]; split;
    [ intros opts Hin; cbn in Hin
    | intros ns cn Hin; cbn in Hin ].
  all: repeat match goal with
         | H : _ \/ _ |- _ => destruct H as [H|H]
         | H : False |- _ => destruct H
         | H : GetMachineStatusSnapshot _ = _ |- _ => discriminate H
         | H : GetTalosConfig _ _ = client_New _ |- _ => discriminate H
         | H : client_New _ = GetTalosConfig _ _ |- _ => discriminate H
         | H : client_New _ = client_New _ |- _ => injection H as <-
         | H : GetTalosConfig _ _ = GetTalosConfig _ _ |- _ => injection H as <- <-
         end.
  all: try (split;
            [ first
                [ exists [GetMachineStatusSnapshot (resource.mdID (resource.getMetadata m))];
                  split; [reflexivity|]; intros opts' [H|[]]; discriminate
                | eexists [GetMachineStatusSnapshot _; GetTalosConfig _ _];
                  split; [reflexivity|]; intros opts' [H|[H|[]]]; discriminate ]
            | first [left; reflexivity | right; eexists; reflexivity] ]).
  all: exists m; split; [reflexivity|]; split; [reflexivity|]; split; [assumption|];
    unfold notMaintenance;
    match goal with E : hd (GetMachineStatusSnapshot _) _ = _ |- _ => rewrite E end;
    cbn [fst];
    first [ assumption
          | eexists; split; [eassumption|];
            eapply bool_decide_eq_false_1; eassumption ].
Qed.

(** X13: when the store answers the snapshot lookup with a snapshot that
has no machine status, [GetTalosClient] panics on the read of the stage:
it returns neither a client nor an error, and has made no other call. *)
Theorem GetTalosClient_nil_status_panics (address : string) (m : resource.Resource V)
    (s : St) (snapshot : resource.Resource omni.MachineStatusSnapshotSpec) :
  let lookup := GetMachineStatusSnapshot (resource.mdID (resource.getMetadata m)) in
  fst (hd lookup s) = inl snapshot ->
  omni.MachineStatus (resource.getSpec snapshot) = None ->
  run hd (GetTalosClient address (Some m)) s
  = Outcome (Panics "runtime error: invalid memory address or nil pointer dereference")
      (snd (hd lookup s)) [lookup].
Proof.
  intros lookup Hgot Hnil. subst lookup.
  rewrite (TalosFacts.run_GetTalosClient GetSocketOptions NewTalosClientConfig LabelCluster
             DefaultNamespace hd address m s).
  cbv zeta. destruct (hd _ s) as [got s1]. cbn [fst snd] in *. subst got.
  rewrite Hnil. reflexivity.
Qed.

(** X14: a call of [GetTalosClient] that returns gives either a client or
an error, never both and never neither.  A client that it returns is the
answer of the client factory to its last call. *)
Theorem GetTalosClient_client_or_error (address : string)
    (machineResource : option (resource.Resource V)) (s : St)
    (made : option Client) (err : option state.error) :
  let o := run hd (GetTalosClient address machineResource) s in
  returned o = Returns (made, err) ->
  (made = None <-> err <> None)
  /\ (forall c, made = Some c ->
        exists front opts s',
          calls o = front ++ [client_New opts]
          /\ hd (client_New opts) s' = (inl c, final o)).
Proof.
  intros o. subst o. destruct machineResource as [m|].
  2:{ cbn [helpers.GetTalosClient]. rewrite TalosFacts.run_createInsecureClient.
      unfold dial. destruct (hd _ s) as [[c|e] s'] eqn:E; cbn [returned calls final];
        intros [= <- <-]; (split; [split; [discriminate | congruence]|]);
        intros c' [= <-].
      exists []; eexists; exists s. split; [reflexivity | exact E]. }
  cases address m s.
  all: intros [= <- <-]; (split; [split; [discriminate || congruence | congruence]|]);
    intros c' [= <-].
  all: first
         [ exists [GetMachineStatusSnapshot (resource.mdID (resource.getMetadata m))];
           eexists _, _; split; [reflexivity | eassumption]
         | eexists [GetMachineStatusSnapshot _; GetTalosConfig _ _];
           eexists _, _; split; [reflexivity | eassumption] ].
Qed.

End WithEnvironment.

Lemma GetTalosClient_nil_status_panics_witness :
  run sample.statusless (sample.GetTalosClient "10.5.0.2" (Some sample.machine1)) tt
  = Outcome (Panics "runtime error: invalid memory address or nil pointer dereference") tt
      [GetMachineStatusSnapshot "m1"].
Proof.
  apply (GetTalosClient_nil_status_panics sample.GetSocketOptions
           sample.NewTalosClientConfig sample.LabelCluster sample.DefaultNamespace
           sample.statusless "10.5.0.2" sample.machine1 tt
           (resource.mkResource
              (resource.mkMetadata "default" "MachineStatusSnapshots.omni.sidero.dev" "m1"
                 (Some 1%N) resource.PhaseRunning [] ∅ ∅)
              (omni.mkMachineStatusSnapshotSpec None))); reflexivity.
Defined.

Lemma GetTalosClient_client_or_error_witness :
  exists front opts,
    calls (run sample.empty (sample.GetTalosClient "10.5.0.2" (Some sample.machine1)) tt)
    = front ++ [client_New opts].
Proof.
  destruct (GetTalosClient_client_or_error sample.GetSocketOptions
              sample.NewTalosClientConfig sample.LabelCluster sample.DefaultNamespace
              sample.empty "10.5.0.2" (Some sample.machine1) tt
              (Some [client.WithTLSConfig (client.mkTLSConfig true);
                     client.WithEndpoints ["10.5.0.2"%string]]) None eq_refl)
    as [_ Hlast].
  destruct (Hlast _ eq_refl) as (front & opts & s' & Hcalls & _).
  exists front, opts. exact Hcalls.
Defined.

End TalosMore.

(** ** More on SetPatchesCompress *)
Module PatchMore.
Import helpers PatchSpec.

Section WithCodec.

Variable GetUncompressedData : ConfigPatchSpec -> bytes + state.error.
Variable SetUncompressedData : bytes -> ConfigPatchSpec -> ConfigPatchSpec * option state.error.
Variable TrimSpace : bytes -> bytes.

Local Abbreviation IsEmptyPatch := (helpers.IsEmptyPatch GetUncompressedData TrimSpace).
Local Abbreviation getCompressed :=
  (helpers.getCompressed GetUncompressedData SetUncompressedData TrimSpace).
Local Abbreviation SetPatchesCompress :=
  (helpers.SetPatchesCompress GetUncompressedData SetUncompressedData TrimSpace).
Local Abbreviation canonical := (PatchSpec.canonical GetUncompressedData SetUncompressedData).
Local Abbreviation failure :=
  (PatchSpec.failure GetUncompressedData SetUncompressedData TrimSpace).
Local Abbreviation settled :=
  (PatchSpec.settled GetUncompressedData SetUncompressedData TrimSpace).

Implicit Types (h : ptr -> ConfigPatchSpec) (res : ClusterMachineConfigPatchesSpec).

(** One call of [getCompressed] writes at most to its patch, and not even to
that one when it is empty or carries a compressed representation. *)
Lemma getCompressed_keeps (patch : ptr) h (q : ptr) :
  q <> patch \/ IsEmptyPatch (h q) = true \/ (0 < len (CompressedData (h q)))%nat ->
  snd (getCompressed patch h) q = h q.
Proof.
  destruct (PatchFacts.getCompressed_frame GetUncompressedData SetUncompressedData
              TrimSpace patch h) as (_ & Hframe & Hempty & Hcarried).
  destruct (Nat.eq_dec q patch) as [->|Hq]; [|intros _; apply Hframe; exact Hq].
  intros [Hne|Hkept]; [contradiction|].
  destruct (IsEmptyPatch (h patch)) eqn:He; [rewrite Hempty; reflexivity|].
  destruct Hkept as [Hc|Hc]; [discriminate|].
  rewrite Hcarried; [reflexivity .. | exact Hc].
Qed.

Lemma SetPatchesCompress_keeps (patches : list ptr) res h (q : ptr) :
  ~ In q patches \/ IsEmptyPatch (h q) = true \/ (0 < len (CompressedData (h q)))%nat ->
  snd (SetPatchesCompress res patches h) q = h q.
Proof.
  revert res h. induction patches as [|patch patches IH]; intros res h Hq; [reflexivity|].
  rewrite PatchFacts.SetPatchesCompress_cons. cbv zeta.
  assert (Hstep : snd (getCompressed patch h) q = h q).
  { apply getCompressed_keeps. destruct Hq as [Hq|Hq]; [left | right; exact Hq].
    intros ->. apply Hq. left. reflexivity. }
  destruct (snd (fst (getCompressed patch h))); cbn [snd]; [exact Hstep|].
  rewrite IH; [exact Hstep|]. rewrite Hstep.
  destruct Hq as [Hq|Hq]; [left | right; exact Hq].
  intros Hin. apply Hq. right. exact Hin.
Qed.

(** X15: [SetPatchesCompress] only ever appends, and at most one entry for
each patch, also when it returns an error.  It writes to no patch outside
its input, and to no patch that is empty or carries a compressed
representation. *)
Theorem SetPatchesCompress_extends (patches : list ptr) res h :
  let r := SetPatchesCompress res patches h in
  (exists added,
     CompressedPatches (snd (fst r)) = CompressedPatches res ++ added
     /\ length added <= length patches)
  /\ (forall q,
        ~ In q patches \/ IsEmptyPatch (h q) = true
        \/ (0 < len (CompressedData (h q)))%nat ->
        snd r q = h q).
Proof.
  intros r. subst r. split; [|intros q; apply SetPatchesCompress_keeps].
  revert res h. induction patches as [|patch patches IH]; intros res h.
  - exists []. cbn. rewrite app_nil_r. split; [reflexivity | lia].
  - rewrite PatchFacts.SetPatchesCompress_cons. cbv zeta.
    destruct (snd (fst (getCompressed patch h))).
    + exists []. cbn. rewrite app_nil_r. split; [reflexivity | lia].
    + destruct (PatchSpec.appended _ _ _ _) as [data|].
      * destruct (IH (mkClusterMachineConfigPatchesSpec (CompressedPatches res ++ [data]))
                    (snd (getCompressed patch h))) as (added & -> & Hlen).
        exists (data :: added). cbn [CompressedPatches length].
        rewrite <- app_assoc. split; [reflexivity | lia].
      * destruct (IH res (snd (getCompressed patch h))) as (added & -> & Hlen).
        exists added. split; [reflexivity | cbn; lia].
Qed.

(** X16: a call on the patches [before ++ rest] is the call on [before]
followed, when that returned no error, by the call on [rest] with the
output and the patches as the first call left them; when the first call
returned an error, nothing is done for [rest]. *)
Theorem SetPatchesCompress_app (before rest : list ptr) res h :
  SetPatchesCompress res (before ++ rest) h
  = let r := SetPatchesCompress res before h in
    match fst (fst r) with
    | Some err => r
    | None => SetPatchesCompress (snd (fst r)) rest (snd r)
    end.
Proof.
  revert res h. induction before as [|patch before IH]; intros res h; [reflexivity|].
  rewrite <- app_comm_cons, !PatchFacts.SetPatchesCompress_cons. cbv zeta.
  destruct (snd (fst (getCompressed patch h))); [reflexivity|].
  apply IH.
Qed.

Section Sound.

Hypothesis compresses : compressesToBytes GetUncompressedData SetUncompressedData.
Hypothesis reads_back : roundTrips GetUncompressedData SetUncompressedData.

Lemma getCompressed_compacts (patch : ptr) h :
  failure (h patch) = None ->
  IsEmptyPatch (snd (getCompressed patch h) patch) = true
  \/ (0 < len (CompressedData (snd (getCompressed patch h) patch)))%nat.
Proof.
  intros Hok. unfold PatchSpec.failure in Hok. unfold helpers.getCompressed.
  destruct (IsEmptyPatch (h patch)) eqn:He; [left; exact He|].
  destruct (0 <? len (CompressedData (h patch)))%nat eqn:Hlen;
    [right; apply Nat.ltb_lt; exact Hlen|].
  destruct (GetUncompressedData (h patch)) as [data|err] eqn:Hget; [|discriminate].
  pose proof (compresses (h patch) data Hget Hok) as Hpos.
  destruct (SetUncompressedData data (h patch)) as [spec err]. cbn [fst snd] in *.
  subst err. cbn [snd]. rewrite PatchFacts.store_same. right. exact Hpos.
Qed.

Lemma SetPatchesCompress_compacts (patches : list ptr) res h (q : ptr) :
  Forall (fun patch => failure (h patch) = None) patches ->
  In q patches ->
  IsEmptyPatch (snd (SetPatchesCompress res patches h) q) = true
  \/ (0 < len (CompressedData (snd (SetPatchesCompress res patches h) q)))%nat.
Proof.
  revert res h. induction patches as [|patch patches IH]; intros res h Hok Hq;
    [destruct Hq|].
  apply Forall_cons in Hok as [Hpatch Hok].
  destruct (PatchFacts.getCompressed_settled GetUncompressedData SetUncompressedData
              TrimSpace compresses reads_back patch h Hpatch) as (Herr & _ & Hset).
  rewrite PatchFacts.SetPatchesCompress_cons. cbv zeta. rewrite Herr.
  assert (Hok1 : Forall (fun p => failure (snd (getCompressed patch h) p) = None) patches).
  { eapply Forall_impl; [exact Hok|]. intros p Hp. cbn beta.
    destruct (Hset p) as (_ & _ & -> & _). exact Hp. }
  destruct (in_dec Nat.eq_dec q patches) as [Hin|Hout].
  - apply IH; assumption.
  - destruct Hq as [<-|Hq]; [|contradiction].
    rewrite SetPatchesCompress_keeps by (left; exact Hout).
    apply getCompressed_compacts. exact Hpatch.
Qed.

(** X17: with a compression that stores bytes and reads back what it
stored, a call in which no patch fails leaves the patches compacted: every
patch of the input that is not empty carries afterwards a compressed
representation, the one that was appended for it.  So a second call on the
same patches, for any output, returns no error, writes to no patch, and
appends the entries that the first call appended. *)
Theorem SetPatchesCompress_again (patches : list ptr) res res' h :
  Forall (fun patch => failure (h patch) = None) patches ->
  let first := SetPatchesCompress res patches h in
  let second := SetPatchesCompress res' patches (snd first) in
  fst (fst first) = None
  /\ fst (fst second) = None
  /\ (forall q, snd second q = snd first q)
  /\ (exists added,
        CompressedPatches (snd (fst first)) = CompressedPatches res ++ added
        /\ CompressedPatches (snd (fst second)) = CompressedPatches res' ++ added)
  /\ (forall q, In q patches -> IsEmptyPatch (h q) = false ->
        (0 < len (CompressedData (snd first q)))%nat
        /\ elems (CompressedData (snd first q)) = canonical (h q)).
Proof.
  intros Hok first second.
  destruct (PatchFacts.SetPatchesCompress_ok GetUncompressedData SetUncompressedData
              TrimSpace compresses reads_back patches res h Hok) as (h1 & Hrun & Hset).
  assert (Hok1 : Forall (fun p => failure (h1 p) = None) patches).
  { eapply Forall_impl; [exact Hok|]. intros p Hp. cbn beta.
    destruct (Hset p) as (_ & _ & -> & _). exact Hp. }
  assert (Hcompact : forall q, In q patches ->
            IsEmptyPatch (h1 q) = true \/ (0 < len (CompressedData (h1 q)))%nat).
  { intros q Hq.
    pose proof (SetPatchesCompress_compacts patches res h q Hok Hq) as Hc.
    rewrite Hrun in Hc. exact Hc. }
  destruct (PatchFacts.SetPatchesCompress_ok GetUncompressedData SetUncompressedData
              TrimSpace compresses reads_back patches res' h1 Hok1) as (h2 & Hrun2 & Hset2).
  assert (Hsame :
    map (fun q => canonical (h1 q)) (filter (fun q => IsEmptyPatch (h1 q) = false) patches)
    = map (fun q => canonical (h q)) (filter (fun q => IsEmptyPatch (h q) = false) patches)).
  { clear -Hset. induction patches as [|q patches IHp]; [reflexivity|].
    destruct (Hset q) as (He & Hc & _).
    rewrite !filter_cons, He.
    destruct (decide (IsEmptyPatch (h q) = false)); cbn [map]; congruence. }
  subst second first. rewrite Hrun. cbn [fst snd]. rewrite Hrun2. cbn [fst snd].
  split; [reflexivity|]. split; [reflexivity|]. split.
  - intros q. destruct (in_dec Nat.eq_dec q patches) as [Hin|Hout].
    + apply (Hset2 q). apply Hcompact. exact Hin.
    + pose proof (SetPatchesCompress_keeps patches res' h1 q (or_introl Hout)) as Hk.
      rewrite Hrun2 in Hk. exact Hk.
  - split.
    + eexists. cbn [CompressedPatches]. split; [reflexivity|]. rewrite Hsame. reflexivity.
    + intros q Hq Hne. destruct (Hset q) as (He & Hc & _).
      assert (Hpos : (0 < len (CompressedData (h1 q)))%nat).
      { destruct (Hcompact q Hq) as [Hempty|Hpos]; [congruence | exact Hpos]. }
      split; [exact Hpos|]. rewrite <- Hc. unfold PatchSpec.canonical.
      apply Nat.ltb_lt in Hpos. rewrite Hpos. reflexivity.
Qed.

End Sound.

End WithCodec.

Lemma SetPatchesCompress_again_witness :
  fst (fst (stored.SetPatchesCompress (mkClusterMachineConfigPatchesSpec []) [0; 1; 2; 1]
              (snd (stored.SetPatchesCompress (mkClusterMachineConfigPatchesSpec [])
                      [0; 1; 2; 1] stored.patches))))
  = None.
Proof.
  destruct (SetPatchesCompress_again stored.GetUncompressedData stored.SetUncompressedData
              stored.TrimSpace PatchFacts.stored_compresses PatchFacts.stored_roundTrips
              [0; 1; 2; 1] (mkClusterMachineConfigPatchesSpec [])
              (mkClusterMachineConfigPatchesSpec []) stored.patches)
    as (_ & Hsecond & _).
  - repeat constructor.
  - exact Hsecond.
Defined.

End PatchMore.

(** ** What SetPatchesCompress appends, and what it returns on failure *)
Module PatchClaims.
Import helpers PatchSpec.

Section WithCodec.

Variable GetUncompressedData : ConfigPatchSpec -> bytes + state.error.
Variable SetUncompressedData : bytes -> ConfigPatchSpec -> ConfigPatchSpec * option state.error.
Variable TrimSpace : bytes -> bytes.

Local Abbreviation IsEmptyPatch := (helpers.IsEmptyPatch GetUncompressedData TrimSpace).
Local Abbreviation getCompressed :=
  (helpers.getCompressed GetUncompressedData SetUncompressedData TrimSpace).
Local Abbreviation SetPatchesCompress :=
  (helpers.SetPatchesCompress GetUncompressedData SetUncompressedData TrimSpace).
Local Abbreviation canonical := (PatchSpec.canonical GetUncompressedData SetUncompressedData).
Local Abbreviation failure :=
  (PatchSpec.failure GetUncompressedData SetUncompressedData TrimSpace).

Implicit Types (h : ptr -> ConfigPatchSpec) (res : ClusterMachineConfigPatchesSpec).

(** The loop over a list in two parts. *)
Lemma run_app (done rest : list ptr) res h :
  SetPatchesCompress res (done ++ rest) h
  = match fst (fst (SetPatchesCompress res done h)) with
    | Some err => SetPatchesCompress res done h
    | None =>
        SetPatchesCompress (snd (fst (SetPatchesCompress res done h))) rest
          (snd (SetPatchesCompress res done h))
    end.
Proof.
  revert res h. induction done as [|d done IH]; intros res h; [reflexivity|].
  rewrite <- app_comm_cons, !PatchFacts.SetPatchesCompress_cons. cbv zeta.
  destruct (snd (fst (getCompressed d h))); [reflexivity | apply IH].
Qed.

(** The output only grows. *)
Lemma run_grows (patches : list ptr) res h :
  exists added,
    CompressedPatches (snd (fst (SetPatchesCompress res patches h)))
    = CompressedPatches res ++ added.
Proof.
  revert res h. induction patches as [|patch patches IH]; intros res h.
  - exists []. cbn. rewrite app_nil_r. reflexivity.
  - rewrite PatchFacts.SetPatchesCompress_cons. cbv zeta.
    destruct (snd (fst (getCompressed patch h))).
    + exists []. cbn. rewrite app_nil_r. reflexivity.
    + destruct (PatchSpec.appended _ _ _ _) as [data|].
      * destruct (IH (mkClusterMachineConfigPatchesSpec (CompressedPatches res ++ [data]))
                    (snd (getCompressed patch h))) as (added & ->).
        exists (data :: added). cbn [CompressedPatches]. rewrite <- app_assoc. reflexivity.
      * apply IH.
Qed.

(** One iteration for a patch that carries a compressed representation and
is not found empty: the representation is appended as it is, and no patch
is written to. *)
Lemma run_carried (patch : ptr) (patches : list ptr) res h :
  IsEmptyPatch (h patch) = false ->
  (0 < len (CompressedData (h patch)))%nat ->
  SetPatchesCompress res (patch :: patches) h
  = SetPatchesCompress
      (mkClusterMachineConfigPatchesSpec
         (CompressedPatches res ++ [elems (CompressedData (h patch))]))
      patches h.
Proof.
  intros He Hpos.
  destruct (PatchFacts.getCompressed_frame GetUncompressedData SetUncompressedData
              TrimSpace patch h) as (_ & _ & _ & Hcarried).
  rewrite PatchFacts.SetPatchesCompress_cons. cbv zeta. rewrite (Hcarried He Hpos).
  cbn [fst snd]. destruct (CompressedData (h patch)) as [data|]; [|cbn in Hpos; lia].
  cbn [PatchSpec.appended elems]. rewrite He, andb_false_r. reflexivity.
Qed.



(** C8 (amended): when the compressed bytes of a patch cannot be obtained,
because the patch, as the iterations before it left it, is not found empty,
carries no compressed representation, and reading its uncompressed bytes or
storing them compressed fails, [SetPatchesCompress] returns that error, for
every codec.  The output is then what the patches before it made of it:
what was there and what they appended stays, and the patches after it are
not looked at.  A patch that carries a compressed representation which
cannot be decompressed does not fail: it is appended as it is. *)
Theorem SetPatchesCompress_error (done : list ptr) (patch : ptr) (rest : list ptr)
    res h (err : state.error) :
  let before := SetPatchesCompress res done h in
  fst (fst before) = None ->
  IsEmptyPatch (snd before patch) = false ->
  len (CompressedData (snd before patch)) = 0 ->
  (GetUncompressedData (snd before patch) = inr err
   \/ exists data, GetUncompressedData (snd before patch) = inl data
                   /\ snd (SetUncompressedData data (snd before patch)) = Some err) ->
  (exists h',
     SetPatchesCompress res (done ++ patch :: rest) h = (Some err, snd (fst before), h')
     /\ forall q, q <> patch -> h' q = snd before q)
  /\ (exists added, CompressedPatches (snd (fst before)) = CompressedPatches res ++ added)
  /\ (~ In patch done -> snd before patch = h patch)
  /\ (forall q e output later,
        GetUncompressedData (h q) = inr e ->
        (0 < len (CompressedData (h q)))%nat ->
        SetPatchesCompress output (q :: later) h
        = SetPatchesCompress
            (mkClusterMachineConfigPatchesSpec
               (CompressedPatches output ++ [elems (CompressedData (h q))]))
            later h).
Proof.
  intros before Hdone He Hlen Hfails.
  assert (Hfail : failure (snd before patch) = Some err).
  { unfold PatchSpec.failure. rewrite He.
    replace (0 <? len (CompressedData (snd before patch)))%nat with false
      by (symmetry; apply Nat.ltb_ge; lia).
    destruct Hfails as [->|(data & -> & Hset)]; [reflexivity | exact Hset]. }
  split; [|split; [apply run_grows|split]].
  - rewrite run_app. fold before. rewrite Hdone.
    rewrite PatchFacts.SetPatchesCompress_cons. cbv zeta.
    destruct (PatchFacts.getCompressed_frame GetUncompressedData SetUncompressedData
                TrimSpace patch (snd before)) as (Herr & Hframe & _).
    rewrite Herr, Hfail. eexists. split; [reflexivity | exact Hframe].
  - intros Hout. apply PatchMore.SetPatchesCompress_keeps. left. exact Hout.
  - intros q e output later Hget Hpos. apply run_carried; [|exact Hpos].
    unfold helpers.IsEmptyPatch. rewrite Hget. reflexivity.
Qed.

End WithCodec.



Lemma SetPatchesCompress_error_witness :
  exists h',
    faulty.SetPatchesCompress (mkClusterMachineConfigPatchesSpec []) [2; 1; 0]
      stored.patches
    = (Some (state.errOther "zstd: encoder is closed"),
       mkClusterMachineConfigPatchesSpec [stored.compress (bytes_of_string "cluster: {}")],
       h').
Proof.
  destruct (SetPatchesCompress_error stored.GetUncompressedData
              faulty.SetUncompressedData stored.TrimSpace
              [2] 1 [0] (mkClusterMachineConfigPatchesSpec []) stored.patches
              (state.errOther "zstd: encoder is closed"))
    as ((h' & Hrun & _) & _).
  - reflexivity.
  - reflexivity.
  - reflexivity.
  - right. eexists. split; reflexivity.
  - exists h'. exact Hrun.
Defined.

End PatchClaims.

(** ** The YAML output *)
Module YAMLFacts.
Import output YAMLSpec.

Lemma append_empty (a : string) : a +:+ "" = a.
Proof.
  induction a as [|x a IH]; [reflexivity|].
  change (String x a +:+ "") with (String x (a +:+ "")). rewrite IH. reflexivity.
Qed.

Lemma omap_step {A B : Type} (f : A -> option B) (a : A) (l : list A) :
  omap f (a :: l) = match f a with Some b => b :: omap f l | None => omap f l end.
Proof. reflexivity. Qed.

Section Writer.

Context {Res Node EventType : Type}.
Variable MarshalYAML : Res -> Node + state.error.
Variable EventType_String : EventType -> string.
Variable ToLower : string -> string.
Variable Encode : Node -> string * option state.error.

Local Abbreviation WriteResource :=
  (output.WriteResource MarshalYAML EventType_String ToLower Encode).
Local Abbreviation writes := (YAMLSpec.writes MarshalYAML EventType_String ToLower Encode).
Local Abbreviation document :=
  (YAMLSpec.document MarshalYAML EventType_String ToLower Encode).

(** What one call leaves behind. *)
Lemma WriteResource_document (c : Res * EventType) (y : YAML) (stdout : string) :
  fst (WriteResource (fst c) (snd c) y stdout)
  = match document (withEvents y) c with
    | None => (y, stdout)
    | Some doc =>
        (mkYAML true (withEvents y),
         stdout +:+ (if needDashes y then "---" +:+ newline +:+ doc else doc))
    end.
Proof.
  unfold output.WriteResource, YAMLSpec.document.
  destruct (MarshalYAML (fst c)) as [out|err]; [|reflexivity].
  cbv zeta. cbn [withEvents]. destruct (Encode out) as [text err]. cbn [fst].
  f_equal. destruct (needDashes y), (withEvents y);
    rewrite ?TalosFacts.append_assoc, ?append_empty; reflexivity.
Qed.

Lemma writes_dashed (calls : list (Res * EventType)) (events : bool) (stdout : string) :
  writes calls (mkYAML true events) stdout
  = (mkYAML true events, stdout +:+ dashed (omap (document events) calls)).
Proof.
  revert stdout. induction calls as [|c calls IH]; intros stdout.
  - cbn. rewrite append_empty. reflexivity.
  - unfold YAMLSpec.writes. cbn [foldl fst snd]. rewrite WriteResource_document.
    cbn [withEvents needDashes]. rewrite omap_step.
    destruct (document events c) as [doc|]; [|apply IH].
    etransitivity; [apply IH|]. cbn [dashed].
    rewrite !TalosFacts.append_assoc. reflexivity.
Qed.

(** X18: the calls of [WriteResource] on one writer, in any number and
whatever they return, add to the standard output the documents of the
resources that can be marshalled, in the order of the calls, with a line
of three dashes before each document but the first one the writer ever
wrote.  A resource that cannot be marshalled leaves no trace: no dashes
are written for it and none are owed after it.  The writer needs dashes
afterwards exactly when it needed them before or wrote a document.  So a
new writer, after [WriteHeader], puts out the documents with dashes between
them and none at either end. *)
Theorem writes_separated (calls : list (Res * EventType)) (y : YAML) (stdout : string)
    (events : bool) :
  let docs := omap (document (withEvents y)) calls in
  writes calls y stdout
  = (mkYAML (needDashes y || negb (bool_decide (docs = []))) (withEvents y),
     stdout +:+ (if needDashes y then dashed docs else separated docs))
  /\ snd (writes calls (fst (WriteHeader events NewYAML)) "")
     = separated (omap (document events) calls).
Proof.
  assert (Hall : forall y stdout,
    writes calls y stdout
    = (mkYAML (needDashes y
               || negb (bool_decide (omap (document (withEvents y)) calls = [])))
         (withEvents y),
       stdout +:+ (if needDashes y then dashed (omap (document (withEvents y)) calls)
                   else separated (omap (document (withEvents y)) calls))));
    [|intros docs; split; [apply Hall | rewrite Hall; reflexivity]].
  clear y stdout. intros y stdout.
  destruct y as [dashes events']. cbn [withEvents needDashes].
  destruct dashes; cbn [orb]; [apply writes_dashed|].
  revert stdout. induction calls as [|c calls IH]; intros stdout.
  - cbn. rewrite append_empty. reflexivity.
  - unfold YAMLSpec.writes. cbn [foldl fst snd]. rewrite WriteResource_document.
    cbn [withEvents needDashes]. rewrite omap_step.
    destruct (document events' c) as [doc|]; [|apply IH].
    etransitivity; [apply writes_dashed|]. cbn [separated].
    rewrite bool_decide_eq_false_2 by discriminate.
    rewrite TalosFacts.append_assoc. reflexivity.
Qed.

End Writer.

End YAMLFacts.

(** ** The options of the Omni API client *)
Module OptionFacts.
Import omniclient OptionSpec.

Section WithInterceptor.

Context {KeyProvider Interceptor DialOption OmniOption : Type}.
Variable interceptor_New : InterceptorOptions KeyProvider -> Interceptor.
Variable NewKeyProvider : string -> KeyProvider.
Variable version_Name : string.
Variable version_Tag : string.

Local Abbreviation Option_ :=
  (omniclient.Option_ (Interceptor := Interceptor) (DialOption := DialOption)
     (OmniOption := OmniOption)).
Local Abbreviation WithServiceAccount :=
  (omniclient.WithServiceAccount (DialOption := DialOption) (OmniOption := OmniOption)
     interceptor_New NewKeyProvider version_Name version_Tag).
Local Abbreviation WithUserAccount :=
  (omniclient.WithUserAccount (DialOption := DialOption) (OmniOption := OmniOption)
     interceptor_New NewKeyProvider version_Name version_Tag).
Local Abbreviation signatureAuthInterceptor :=
  (omniclient.signatureAuthInterceptor interceptor_New NewKeyProvider version_Name
     version_Tag).

Implicit Types (options : Options Interceptor DialOption OmniOption).

(** X19: the gRPC dial options add up over the calls of [WithGrpcOpts], in
the order of the calls, while each [WithOmniClientOptions] replaces the
Omni client options given before it, so that only those of the last call
are kept.  The two account options exclude each other: the last of them
decides the interceptor, which then carries nothing of the other
account. *)
Theorem options_accumulate_or_replace options :
  (forall (groups : list (list DialOption)),
     let result := applied (map WithGrpcOpts groups) options in
     AdditionalGRPCDialOptions result
     = AdditionalGRPCDialOptions options ++ concat groups
     /\ AuthInterceptor result = AuthInterceptor options
     /\ OmniClientOptions result = OmniClientOptions options
     /\ InsecureSkipTLSVerify result = InsecureSkipTLSVerify options)
  /\ (forall (groups : list (list OmniOption)) (last : list OmniOption),
        applied (map WithOmniClientOptions (groups ++ [last])) options
        = WithOmniClientOptions last options)
  /\ (forall (before : list Option_) (contextName identity : string),
        AuthInterceptor (applied (before ++ [WithUserAccount contextName identity]) options)
        = Some (signatureAuthInterceptor contextName identity ""))
  /\ (forall (before : list Option_) (serviceAccountBase64 : string),
        AuthInterceptor (applied (before ++ [WithServiceAccount serviceAccountBase64]) options)
        = Some (signatureAuthInterceptor "" "" serviceAccountBase64)).
Proof.
  split; [|split; [|split]].
  - intros groups. cbv zeta. revert options.
    induction groups as [|opts groups IH]; intros options.
    + cbn. rewrite app_nil_r. repeat split.
    + cbn [map concat]. unfold applied in *. cbn [foldl].
      destruct (IH (WithGrpcOpts opts options)) as (-> & -> & -> & ->).
      cbn. rewrite <- app_assoc. repeat split.
  - intros groups last. revert options.
    induction groups as [|opts groups IH]; intros options; [reflexivity|].
    cbn [map app]. unfold applied in *. cbn [foldl]. rewrite IH. reflexivity.
  - intros before contextName identity. unfold applied. rewrite foldl_app. reflexivity.
  - intros before serviceAccountBase64. unfold applied. rewrite foldl_app. reflexivity.
Qed.

End WithInterceptor.

End OptionFacts.
